(** * APSW utility layer (src/util.c): lock bridge, in-use guard,
      value conversion, unraisable-exception dispatch, call tracking.

    The C macros and functions of util.c are embedded as Rocq functions
    over explicit state.  Calls into SQLite and into the Python runtime
    are the boundary of the file: each one is a primitive that changes
    the state and, where order matters, leaves an entry in a log. *)

From Stdlib Require Import ZArith List String Bool Lia Arith.
From Stdlib Require Import Strings.Byte DecimalString Permutation.

#[local] Set Warnings "-register-all".
Import ListNotations.
Open Scope string_scope.
Open Scope list_scope.
Open Scope Z_scope.

(** ** Constants of sqlite3.h used by util.c *)

Definition SQLITE_OK : Z := 0.
Definition SQLITE_ERROR : Z := 1.
Definition SQLITE_ROW : Z := 100.
Definition SQLITE_DONE : Z := 101.

Definition SQLITE_INTEGER : Z := 1.
Definition SQLITE_FLOAT : Z := 2.
Definition SQLITE_TEXT : Z := 3.
Definition SQLITE_BLOB : Z := 4.
Definition SQLITE_NULL : Z := 5.

(** ** Python exceptions, as far as util.c tells them apart *)

Inductive exc_class : Type :=
| ExcThreadingViolation
| ExcConnectionClosed
| ExcCursorClosed
| PyExc_ValueError
| PyExc_TypeError
| PyExc_UnicodeDecodeError
| PyExc_RecursionError
| PyExc_MemoryError
| PyExc_Other (name : string).

Record exception : Type := mk_exception {
  exc_type : exc_class;
  exc_text : string
}.

Definition exc_class_eqb (a b : exc_class) : bool :=
  match a, b with
  | ExcThreadingViolation, ExcThreadingViolation => true
  | ExcConnectionClosed, ExcConnectionClosed => true
  | ExcCursorClosed, ExcCursorClosed => true
  | PyExc_ValueError, PyExc_ValueError => true
  | PyExc_TypeError, PyExc_TypeError => true
  | PyExc_UnicodeDecodeError, PyExc_UnicodeDecodeError => true
  | PyExc_RecursionError, PyExc_RecursionError => true
  | PyExc_MemoryError, PyExc_MemoryError => true
  | PyExc_Other n, PyExc_Other m => String.eqb n m
  | _, _ => false
  end.

(** ** The lock bridge: _PYSQLITE_CALL_V and _PYSQLITE_CALL_E *)

Module Bridge.

(** A database handle [sqlite3 *]. *)
Definition sqlite3 := nat.

(** What SQLite keeps per connection and the macros read: the text
    behind [sqlite3_errmsg(db)].  It lives in memory SQLite owns and is
    overwritten by the next failing call on the connection. *)
Record engine : Type := mk_engine {
  sqlite3_errmsg : sqlite3 -> string
}.

(** The locks the calling thread holds: the GIL, and for each
    connection how many times it has entered [sqlite3_db_mutex(db)]
    (SQLite's connection mutex is recursive). *)
Record locks : Type := mk_locks {
  gil : bool;
  db_mutex : sqlite3 -> nat
}.

Inductive event : Type :=
| Py_BEGIN_ALLOW_THREADS
| Ev_mutex_enter (db : sqlite3)
| Ev_x (res : option Z)
| Ev_set_errmsg (msg : string)
| Ev_mutex_leave (db : sqlite3)
| Py_END_ALLOW_THREADS.

(** One thread of the interpreter.  Every primitive appends its event
    to [log] together with the locks held at the moment it starts. *)
Record thread : Type := mk_thread {
  held : locks;
  err : option exception;          (* the error indicator, PyErr_Occurred() *)
  tls_errmsg : option string;      (* the thread's own copy kept by apsw_set_errmsg *)
  sqlite : engine;
  log : list (event * locks)
}.

Definition emit (e : event) (t : thread) : thread :=
  mk_thread (held t) (err t) (tls_errmsg t) (sqlite t) (log t ++ [(e, held t)]).

Definition with_held (l : locks) (t : thread) : thread :=
  mk_thread l (err t) (tls_errmsg t) (sqlite t) (log t).

Definition with_err (e : option exception) (t : thread) : thread :=
  mk_thread (held t) e (tls_errmsg t) (sqlite t) (log t).

Definition upd (m : sqlite3 -> nat) (db : sqlite3) (n : nat) : sqlite3 -> nat :=
  fun d => if Nat.eqb d db then n else m d.

Definition begin_allow_threads (t : thread) : thread :=
  let t := emit Py_BEGIN_ALLOW_THREADS t in
  with_held (mk_locks false (db_mutex (held t))) t.

Definition end_allow_threads (t : thread) : thread :=
  let t := emit Py_END_ALLOW_THREADS t in
  with_held (mk_locks true (db_mutex (held t))) t.

Definition sqlite3_mutex_enter (db : sqlite3) (t : thread) : thread :=
  let t := emit (Ev_mutex_enter db) t in
  with_held (mk_locks (gil (held t))
                      (upd (db_mutex (held t)) db (S (db_mutex (held t) db)))) t.

Definition sqlite3_mutex_leave (db : sqlite3) (t : thread) : thread :=
  let t := emit (Ev_mutex_leave db) t in
  with_held (mk_locks (gil (held t))
                      (upd (db_mutex (held t)) db (Nat.pred (db_mutex (held t) db)))) t.

(** Modelled from the spec: [apsw_set_errmsg] is defined outside util.c.
    It stores an owned copy of the text it is handed in thread-local
    storage ("capture the current native error text into owned
    storage"); the copy is a value of its own, so later changes to the
    engine's text do not reach it. *)
Definition apsw_set_errmsg (msg : string) (t : thread) : thread :=
  let t := emit (Ev_set_errmsg msg) t in
  mk_thread (held t) (err t) (Some msg) (sqlite t) (log t).

(** The statement [x] handed to the checked macro is a call into SQLite
    that assigns the variable [res]: it maps the engine to a result
    code and the engine afterwards. *)
Definition checked_op := engine -> Z * engine.

(** The statement handed to the void macro: no result code. *)
Definition void_op := engine -> engine.

Definition run_checked (x : checked_op) (t : thread) : Z * thread :=
  let (res, e') := x (sqlite t) in
  (res, emit (Ev_x (Some res))
             (mk_thread (held t) (err t) (tls_errmsg t) e' (log t))).

Definition run_void (x : void_op) (t : thread) : thread :=
  emit (Ev_x None)
       (mk_thread (held t) (err t) (tls_errmsg t) (x (sqlite t)) (log t)).

(** [res != SQLITE_OK && res != SQLITE_DONE && res != SQLITE_ROW] *)
Definition res_is_error (res : Z) : bool :=
  negb (res =? SQLITE_OK) && negb (res =? SQLITE_DONE) && negb (res =? SQLITE_ROW).

Definition _PYSQLITE_CALL_V (x : void_op) (t : thread) : thread :=
  let t := begin_allow_threads t in
  let t := run_void x t in
  end_allow_threads t.

Definition _PYSQLITE_CALL_E (db : sqlite3) (x : checked_op) (t : thread)
  : Z * thread :=
  let t := begin_allow_threads t in
  let t := sqlite3_mutex_enter db t in
  let (res, t) := run_checked x t in
  let t := if res_is_error res
           then apsw_set_errmsg (sqlite3_errmsg (sqlite t) db) t
           else t in
  let t := sqlite3_mutex_leave db t in
  (res, end_allow_threads t).

(** from statement cache: [sc->db] *)
Definition PYSQLITE_SC_CALL (sc_db : sqlite3) (y : checked_op) :=
  _PYSQLITE_CALL_E sc_db y.

(** The entries a call adds to the log. *)
Definition new_entries (before after : thread) : list (event * locks) :=
  skipn (List.length (log before)) (log after).

(** The locks of a thread that started from [t], after
    Py_BEGIN_ALLOW_THREADS and after sqlite3_mutex_enter on [db]. *)
Definition released (t : thread) : locks := mk_locks false (db_mutex (held t)).
Definition inside (db : sqlite3) (t : thread) : locks :=
  mk_locks false (upd (db_mutex (held t)) db (S (db_mutex (held t) db))).

(** A thread holds both locks when it has the GIL and has entered the
    mutex of [db] more often than it had when the call began. *)
Definition holds_both (at_entry : locks) (db : sqlite3) (l : locks) : bool :=
  gil l && (db_mutex at_entry db <? db_mutex l db)%nat.

(** Example operations: a step that fails and leaves a message, and one
    that yields a row. *)
Definition failing_step (db : sqlite3) (code : Z) (text : string) : checked_op :=
  fun e => (code, mk_engine (fun d => if Nat.eqb d db then text else sqlite3_errmsg e d)).
Definition row_step : checked_op := fun e => (SQLITE_ROW, e).

Definition idle_thread : thread :=
  mk_thread (mk_locks true (fun _ => O)) None None (mk_engine (fun _ => "not an error")) [].

End Bridge.

(** ** The in-use guard: CHECK_USE and INUSE_CALL *)

Module Guard.
Import Bridge.

(** The macros are written against [self->inuse]; every wrapped object
    (Connection, APSWBlob, APSWCursor, APSWBackup) has that field. *)
Class InUse (T : Type) : Type := {
  inuse : T -> Z;
  set_inuse : Z -> T -> T;
  inuse_set_inuse : forall v self, inuse (set_inuse v self) = v
}.

(** [self->db], [self->inuse] *)
Record Connection : Type := mk_Connection {
  db : sqlite3;
  con_inuse : Z
}.

(** Blob and cursor: [self->connection->db], [self->inuse] *)
Record APSWBlob : Type := mk_APSWBlob {
  connection : Connection;
  blob_inuse : Z
}.

(** Backup: [self->dest->db], [self->inuse] *)
Record APSWBackup : Type := mk_APSWBackup {
  dest : Connection;
  backup_inuse : Z
}.

#[export] Instance InUse_Connection : InUse Connection := {
  inuse := con_inuse;
  set_inuse v c := mk_Connection (db c) v;
  inuse_set_inuse := fun _ _ => eq_refl
}.

#[export] Instance InUse_APSWBlob : InUse APSWBlob := {
  inuse := blob_inuse;
  set_inuse v b := mk_APSWBlob (connection b) v;
  inuse_set_inuse := fun _ _ => eq_refl
}.

#[export] Instance InUse_APSWBackup : InUse APSWBackup := {
  inuse := backup_inuse;
  set_inuse v b := mk_APSWBackup (dest b) v;
  inuse_set_inuse := fun _ _ => eq_refl
}.

(** What a macro that may [return e] does to the enclosing function. *)
Inductive flow (R : Type) : Type :=
| Returns (e : R)
| Continues.
Arguments Returns {R} e.
Arguments Continues {R}.

Definition threading_violation : exception :=
  mk_exception ExcThreadingViolation
    "You are trying to use the same object concurrently in two threads or re-entrantly within the same thread which is not allowed.".

(** [PyErr_Format(cls, text)] sets the error indicator. *)
Definition PyErr_Format (e : exception) (t : thread) : thread :=
  with_err (Some e) t.

Definition CHECK_USE {T} `{InUse T} {R} (e : R) (self : T) (t : thread)
  : flow R * thread :=
  if negb (inuse self =? 0) then
    (* raise exception if we aren't already in one *)
    let t := match err t with
             | None => PyErr_Format threading_violation t
             | Some _ => t
             end in
    (Returns e, t)
  else (Continues, t).

(** The guarded block [x] may touch the object and the thread and may
    leave a value behind (the variable [res] of a checked call). *)
Definition block (T A : Type) := T -> thread -> A * T * thread.

(** [None] is a failed [assert]. *)
Definition INUSE_CALL {T} `{InUse T} {A} (x : block T A) (self : T) (t : thread)
  : option (A * T * thread) :=
  if inuse self =? 0 then
    let self := set_inuse 1 self in
    let '(a, self, t) := x self t in
    if inuse self =? 1 then
      Some (a, set_inuse 0 self, t)
    else None
  else None.

Definition call_E {T} (db_of : T -> sqlite3) (y : checked_op) : block T Z :=
  fun self t => let (res, t) := _PYSQLITE_CALL_E (db_of self) y t in (res, self, t).

Definition call_V {T} (y : void_op) : block T unit :=
  fun self t => (tt, self, _PYSQLITE_CALL_V y t).

(** call from blob code; the cursor macro is the same *)
Definition PYSQLITE_BLOB_CALL (y : checked_op) :=
  INUSE_CALL (call_E (fun self : APSWBlob => db (connection self)) y).
Definition PYSQLITE_CUR_CALL := PYSQLITE_BLOB_CALL.

(** call from connection code *)
Definition PYSQLITE_CON_CALL (y : checked_op) :=
  INUSE_CALL (call_E (fun self : Connection => db self) y).

(** call to sqlite code that doesn't return an error *)
Definition PYSQLITE_VOID_CALL {T} `{InUse T} (y : void_op) :=
  INUSE_CALL (T := T) (call_V y).

(** call from backup code *)
Definition PYSQLITE_BACKUP_CALL (y : checked_op) :=
  INUSE_CALL (call_E (fun self : APSWBackup => db (dest self)) y).

(** A method called again while the object is in use: the guarded
    block of the first call reaches the CHECK_USE of a second one. *)
Definition second_call {T} `{InUse T} : block T (flow unit) :=
  fun self t => let (f, t) := CHECK_USE tt self t in (f, self, t).

(** Example objects and threads. *)
Definition busy_connection : Connection := mk_Connection 7%nat 1.
Definition free_connection : Connection := mk_Connection 7%nat 0.
Definition pending_value_error : exception :=
  mk_exception PyExc_ValueError "raised earlier".
Definition thread_with_pending : thread :=
  with_err (Some pending_value_error) idle_thread.

End Guard.

(** ** Value conversion: convert_value_to_pyobject *)

Module Marshal.

(** *** Python objects the conversion can produce *)

Inductive PyObject : Type :=
| PyLong (n : Z)
| PyFloat (bits : Z)               (* the IEEE-754 binary64 bit pattern *)
| PyUnicode (utf8 : list byte)     (* a str, held as its UTF-8 encoding *)
| PyBytes (data : list byte)
| Py_None
| apsw_no_change_object
| PySet (members : list PyObject). (* members in insertion order *)

(** What a function returning [PyObject *] hands back: a new reference,
    or NULL with the error indicator set to [raised]. *)
Inductive ret : Type :=
| Ref (o : PyObject)
| Null (raised : exception).

(** *** SQLite values, as seen through the sqlite3_value_* calls *)

(** [vtab_in] holds the engine's answers to [sqlite3_vtab_in_first] and
    to the [sqlite3_vtab_in_next] calls after it, in order: a result
    code and the element handed out through the out-parameter (NULL or
    a value).  It is empty for a value that is no IN list. *)
Inductive sqlite3_value : Type := mk_value {
  sqlite3_value_type : Z;
  sqlite3_value_nochange : bool;
  sqlite3_value_int64 : Z;
  sqlite3_value_double : Z;
  sqlite3_value_blob : list byte;  (* also sqlite3_value_text; its length is sqlite3_value_bytes *)
  vtab_in : list (Z * option sqlite3_value)
}.

Definition answer : Type := Z * option sqlite3_value.

(** [sqlite3_vtab_in_first(value, &in_value)]: the first answer; a value
    that is no IN list answers SQLITE_ERROR and NULL. *)
Definition sqlite3_vtab_in_first (value : sqlite3_value) : answer :=
  match vtab_in value with
  | [] => (SQLITE_ERROR, None)
  | a :: _ => a
  end.

(** [sqlite3_vtab_in_next(value, &in_value)] with [pending] the answers
    not yet given: past the last one the list is exhausted, SQLITE_DONE
    and NULL. *)
Definition sqlite3_vtab_in_next (pending : list answer) : answer :=
  match pending with
  | [] => (SQLITE_DONE, None)
  | a :: _ => a
  end.

(** *** The host runtime *)

Inductive event : Type :=
| Ev_vtab_in_first (rc : Z)
| Ev_vtab_in_next (res : Z)
| Ev_element (v : ret)                   (* v = convert_value_to_pyobject(in_value, 0, 0) *)
| Ev_PySet_Add (ok : bool)
| Ev_Py_CLEAR_v (v : PyObject)
| Ev_Py_XDECREF_v (v : option PyObject)
| Ev_Py_XDECREF_set (members : list PyObject).

(** [faults] is the schedule of allocation failures: every call of the
    runtime that allocates takes the next entry, [true] makes it fail
    with MemoryError; past the end nothing fails. *)
Record host : Type := mk_host {
  faults : list bool;
  log : list event
}.

Definition emit (e : event) (h : host) : host :=
  mk_host (faults h) (log h ++ [e]).

Definition memory_error : exception := mk_exception PyExc_MemoryError "".

(** [true] when the allocation succeeds. *)
Definition alloc (h : host) : bool * host :=
  match faults h with
  | [] => (true, h)
  | f :: fs => (negb f, mk_host fs (log h))
  end.

Definition in_range (lo hi : N) (b : byte) : bool :=
  (lo <=? Byte.to_N b)%N && (Byte.to_N b <=? hi)%N.

(** Strict UTF-8 (RFC 3629), which is what the runtime's decoder
    accepts: shortest form only, no surrogates, nothing above U+10FFFF. *)
Fixpoint utf8_valid (s : list byte) : bool :=
  match s with
  | [] => true
  | b0 :: r =>
    if in_range 0x00 0x7f b0 then utf8_valid r
    else if in_range 0xc2 0xdf b0 then
      match r with
      | b1 :: r1 => in_range 0x80 0xbf b1 && utf8_valid r1
      | _ => false
      end
    else if in_range 0xe0 0xef b0 then
      match r with
      | b1 :: b2 :: r2 =>
        (if in_range 0xe0 0xe0 b0 then in_range 0xa0 0xbf b1
         else if in_range 0xed 0xed b0 then in_range 0x80 0x9f b1
         else in_range 0x80 0xbf b1)
        && in_range 0x80 0xbf b2 && utf8_valid r2
      | _ => false
      end
    else if in_range 0xf0 0xf4 b0 then
      match r with
      | b1 :: b2 :: b3 :: r3 =>
        (if in_range 0xf0 0xf0 b0 then in_range 0x90 0xbf b1
         else if in_range 0xf4 0xf4 b0 then in_range 0x80 0x8f b1
         else in_range 0x80 0xbf b1)
        && in_range 0x80 0xbf b2 && in_range 0x80 0xbf b3 && utf8_valid r3
      | _ => false
      end
    else false
  end.

Definition PyLong_FromLongLong (val : Z) (h : host) : ret * host :=
  let (ok, h) := alloc h in
  (if ok then Ref (PyLong val) else Null memory_error, h).

Definition PyFloat_FromDouble (bits : Z) (h : host) : ret * host :=
  let (ok, h) := alloc h in
  (if ok then Ref (PyFloat bits) else Null memory_error, h).

Definition PyUnicode_FromStringAndSize (u : list byte) (h : host) : ret * host :=
  let (ok, h) := alloc h in
  (if ok then
     if utf8_valid u then Ref (PyUnicode u)
     else Null (mk_exception PyExc_UnicodeDecodeError "invalid utf-8")
   else Null memory_error, h).

Definition PyBytes_FromStringAndSize (data : list byte) (h : host) : ret * host :=
  let (ok, h) := alloc h in
  (if ok then Ref (PyBytes data) else Null memory_error, h).

(** [PySet_New(NULL)]: the members of the new set, or NULL. *)
Definition PySet_New (h : host) : option (list PyObject) * host :=
  let (ok, h) := alloc h in
  (if ok then Some [] else None, h).

(** *** Equality of set members

    A set keeps one of any two members that compare equal.  For the
    objects the conversion produces, Python's [==] compares int and
    float by numeric value (1 == 1.0, 0.0 == -0.0, NaN equal to
    nothing), str with str, bytes with bytes, and None with None. *)

Inductive pykey : Type :=
| K_number (scaled : Z)          (* the value times 2^1074, an integer for every finite double *)
| K_infinity (negative : bool)
| K_nan
| K_str (utf8 : list byte)
| K_bytes (data : list byte)
| K_none
| K_no_change
| K_unhashable.

Definition double_key (bits : Z) : pykey :=
  let negative := Z.testbit bits 63 in
  let e := Z.land (Z.shiftr bits 52) 0x7ff in
  let f := Z.land bits (Z.ones 52) in
  let sign := if negative then -1 else 1 in
  if e =? 0x7ff then (if f =? 0 then K_infinity negative else K_nan)
  else if e =? 0 then K_number (sign * f)
  else K_number (sign * Z.shiftl (Z.shiftl 1 52 + f) (e - 1)).

Definition py_key (o : PyObject) : pykey :=
  match o with
  | PyLong n => K_number (Z.shiftl n 1074)
  | PyFloat bits => double_key bits
  | PyUnicode u => K_str u
  | PyBytes d => K_bytes d
  | Py_None => K_none
  | apsw_no_change_object => K_no_change
  | PySet _ => K_unhashable
  end.

Definition pykey_eq_dec (a b : pykey) : {a = b} + {a <> b}.
Proof.
  decide equality; solve [ apply Z.eq_dec | apply Bool.bool_dec
                         | apply (list_eq_dec Byte.byte_eq_dec) ].
Defined.

Definition py_eqb (a b : PyObject) : bool :=
  match py_key a, py_key b with
  | K_nan, _ | _, K_nan => false
  | K_unhashable, _ | _, K_unhashable => false
  | ka, kb => if pykey_eq_dec ka kb then true else false
  end.

Definition hashable (o : PyObject) : bool :=
  match o with
  | PySet _ => false
  | _ => true
  end.

(** [PySet_Contains] *)
Definition set_contains (set : list PyObject) (key : PyObject) : bool :=
  existsb (fun m => py_eqb m key) set.

(** [PySet_Add(set, v)]: the members afterwards, or the exception of a
    call that returned non-zero. *)
Definition PySet_Add (set : list PyObject) (v : PyObject) (h : host)
  : (list PyObject + exception) * host :=
  if negb (hashable v) then
    (inr (mk_exception PyExc_TypeError "unhashable type"), h)
  else if set_contains set v then (inl set, h)
  else
    let (ok, h) := alloc h in
    (if ok then inl (set ++ [v]) else inr memory_error, h).

(** [res != SQLITE_DONE && res != SQLITE_OK] *)
Definition in_next_failed (res : Z) : bool :=
  negb (res =? SQLITE_DONE) && negb (res =? SQLITE_OK).

Definition in_next_error (res : Z) : exception :=
  mk_exception PyExc_ValueError
    ("Failed in sqlite3_vtab_in_next result " ++ NilZero.string_of_int (Z.to_int res)).

(** The code at the label [error:]. *)
Definition error (v : option PyObject) (set : list PyObject) (e : exception)
                 (h : host) : ret * host :=
  let h := emit (Ev_Py_XDECREF_v v) h in
  let h := emit (Ev_Py_XDECREF_set set) h in
  (Null e, h).

(** The [while (in_value)] loop of the conversion.  [conv] is the call
    [convert_value_to_pyobject(in_value, 0, 0)].  [answers] starts with
    the answer that produced the current [in_value], followed by the
    answers the engine has yet to give; with none left the list is
    exhausted and [in_value] is NULL. *)
Section InLoop.
Variable conv : sqlite3_value -> host -> ret * host.

Fixpoint in_loop (answers : list answer) (set : list PyObject) (h : host)
    {struct answers} : ret * host :=
  match answers with
  | [] | (_, None) :: _ => (Ref (PySet set), h)       (* return set *)
  | (_, Some in_value) :: pending =>
    let (v, h) := conv in_value h in
    let h := emit (Ev_element v) h in
    match v with
    | Null e => error None set e h
    | Ref v =>
      let (added, h) := PySet_Add set v h in
      match added with
      | inr e => error (Some v) set e (emit (Ev_PySet_Add false) h)
      | inl set =>
        let h := emit (Ev_PySet_Add true) h in
        let h := emit (Ev_Py_CLEAR_v v) h in
        let res := fst (sqlite3_vtab_in_next pending) in
        let h := emit (Ev_vtab_in_next res) h in
        if in_next_failed res then error None set (in_next_error res) h
        else in_loop pending set h
      end
    end
  end.

End InLoop.

(** Converts sqlite3_value to PyObject.  Returns a new reference. *)
Fixpoint convert_value_to_pyobject (value : sqlite3_value)
    (in_constraint_possible no_change_possible : bool) (h : host)
    {struct value} : ret * host :=
  let coltype := sqlite3_value_type value in
  if no_change_possible && sqlite3_value_nochange value then
    (Ref apsw_no_change_object, h)
  else if coltype =? SQLITE_INTEGER then
    PyLong_FromLongLong (sqlite3_value_int64 value) h
  else if coltype =? SQLITE_FLOAT then
    PyFloat_FromDouble (sqlite3_value_double value) h
  else if coltype =? SQLITE_TEXT then
    PyUnicode_FromStringAndSize (sqlite3_value_blob value) h
  else if coltype =? SQLITE_BLOB then
    PyBytes_FromStringAndSize (sqlite3_value_blob value) h
  else (* default: case SQLITE_NULL: *)
    if negb in_constraint_possible then (Ref Py_None, h)
    else
      let h := emit (Ev_vtab_in_first (fst (sqlite3_vtab_in_first value))) h in
      if negb (fst (sqlite3_vtab_in_first value) =? SQLITE_OK) then (Ref Py_None, h)
      else
        let (set, h) := PySet_New h in
        match set with
        | None => (Null memory_error, h)
        | Some set =>
          in_loop (fun in_value h => convert_value_to_pyobject in_value false false h)
                  (vtab_in value) set h
        end.

Definition convert_value_to_pyobject_not_in (value : sqlite3_value) (h : host)
  : ret * host :=
  convert_value_to_pyobject value false false h.

(** *** Vocabulary for the properties *)

(** What a call adds to the log. *)
Definition new_log (before after : host) : list event :=
  skipn (List.length (log before)) (log after).

Definition no_faults : host := mk_host [] [].

(** The object an element of an IN list converts to, both modes off,
    when no allocation fails. *)
Definition element_object (in_value : sqlite3_value) : ret :=
  fst (convert_value_to_pyobject in_value false false no_faults).

(** The answers of the engine for an IN list with the given elements:
    SQLITE_OK with each element in turn, then SQLITE_DONE with NULL. *)
Definition in_list_answers (elements : list sqlite3_value) : list answer :=
  map (fun e => (SQLITE_OK, Some e)) elements ++ [(SQLITE_DONE, None)].

(** The log of an expansion in which nothing fails: each element is
    converted, added and let go of, then the next one is asked for; the
    last request is answered SQLITE_DONE. *)
Fixpoint iteration_log (objs : list PyObject) : list event :=
  match objs with
  | [] => []
  | o :: rest =>
    [Ev_element (Ref o); Ev_PySet_Add true; Ev_Py_CLEAR_v o;
     Ev_vtab_in_next (match rest with [] => SQLITE_DONE | _ => SQLITE_OK end)]
    ++ iteration_log rest
  end.

(** No member compares equal to a later one. *)
Fixpoint no_equal_pair (members : list PyObject) : bool :=
  match members with
  | [] => true
  | m :: rest => negb (existsb (fun m' => py_eqb m m') rest) && no_equal_pair rest
  end.

(** What PySet_Add does to the members when nothing fails. *)
Definition add_member (set : list PyObject) (v : PyObject) : list PyObject :=
  if set_contains set v then set else set ++ [v].

(** The two failures of an expansion, as they show in the log: an
    element whose conversion came back NULL, and a request for the next
    element that the engine answered with a code other than SQLITE_OK
    and SQLITE_DONE. *)
Definition failure (ev : event) : bool :=
  match ev with
  | Ev_element (Null _) => true
  | Ev_vtab_in_next res => negb ((res =? SQLITE_OK) || (res =? SQLITE_DONE))
  | _ => false
  end.

(** The same value with another answer to sqlite3_value_nochange. *)
Definition with_nochange (b : bool) (value : sqlite3_value) : sqlite3_value :=
  mk_value (sqlite3_value_type value) b (sqlite3_value_int64 value)
           (sqlite3_value_double value) (sqlite3_value_blob value) (vtab_in value).

(** Example values. *)
Definition plain (coltype : Z) (i : Z) (bytes : list byte) : sqlite3_value :=
  mk_value coltype false i 0 bytes [].
Definition int_value (i : Z) : sqlite3_value := plain SQLITE_INTEGER i [].
Definition text_value (bytes : list byte) : sqlite3_value := plain SQLITE_TEXT 0 bytes.
Definition null_value : sqlite3_value := plain SQLITE_NULL 0 [].
Definition in_list (elements : list sqlite3_value) : sqlite3_value :=
  mk_value SQLITE_NULL false 0 0 [] (in_list_answers elements).

(** The list [1, "a", NULL, 1]. *)
Definition example_in_list : sqlite3_value :=
  in_list [int_value 1; text_value [x61]; null_value; int_value 1].

(** A list whose second element is text that is not UTF-8. *)
Definition bad_text_in_list : sqlite3_value :=
  in_list [int_value 1; text_value [xff]; int_value 2].

(** A list whose second request for the next element fails with
    SQLITE_NOMEM (7). *)
Definition broken_in_list : sqlite3_value :=
  mk_value SQLITE_NULL false 0 0 []
    [(SQLITE_OK, Some (int_value 1)); (SQLITE_OK, Some (int_value 2)); (7, None)].

(** An integer the engine reports as unchanged and that also answers as
    an IN list. *)
Definition unchanged_integer : sqlite3_value :=
  mk_value SQLITE_INTEGER true 5 0 [] (in_list_answers [int_value 1]).

(** An untouched column in an update: NULL, reported as unchanged. *)
Definition untouched_column : sqlite3_value :=
  mk_value SQLITE_NULL true 0 0 [] [].

End Marshal.

(** ** Reporting exceptions that cannot be raised: apsw_write_unraisable *)

Module Unraisable.

Definition frame := nat.

(** The str object made by [PyObject_Str], as far as the function
    looks at it. *)
Record message : Type := mk_message {
  PyUnicode_AsUTF8 : option string (* None: NULL, the text has no UTF-8 encoding *)
}.

(** The exception instance, as far as the function looks at it. *)
Record exc_value : Type := mk_exc_value {
  Py_TypeName : string;
  PyObject_Str : option message    (* None: str() of the value raised *)
}.

(** Type, value and traceback of an exception, what PyErr_Fetch hands
    out; the value may be NULL. *)
Record raised : Type := mk_raised {
  err_type : exc_class;
  err_value : option exc_value;
  err_traceback : list frame
}.

Record interp : Type := mk_interp {
  err : option raised;             (* the error indicator *)
  recursion_depth : nat;
  recursion_limit : nat;
  frames : list frame;             (* the thread's frames, innermost first *)
  faults : list bool               (* allocation failures to come, as in Marshal *)
}.

(** The struct-sequence handed to sys.unraisablehook; the function
    fills the first three items and leaves the other two unset. *)
Record unraisable_info : Type := mk_unraisable_info {
  ui_exc_type : exc_class;
  ui_exc_value : option exc_value;
  ui_exc_traceback : list frame;
  ui_err_msg : option string;
  ui_object : option string
}.

Inductive hook_args : Type :=
| Args_OOO (t : exc_class) (v : option exc_value) (tb : list frame)
| Args_N (info : unraisable_info).

Inductive hook_id : Type :=
| hookobject_excepthook
| sys_unraisablehook
| sys_excepthook.

(** What the function does, in the order it does it.  A call of a hook
    records the interpreter state it is made in, what the hook did
    meanwhile ([inner], for a hook that reports an exception of its
    own) and whether it returned a result.  [Step_sqlite3_log] holds
    the two arguments that fill [log_format]; [utf8] is [None] for a
    NULL pointer.  [Step_PyErr_Print] holds the exception printed and
    what the runtime did to print it. *)
Inductive step : Type :=
| Step_traceback (here : list frame)
| Step_sqlite3_log (type_name : string) (utf8 : option string)
| Step_call (hook : hook_id) (made_in : interp) (args : hook_args)
            (inner : list step) (ok : bool)
| Step_PyErr_Display (made_in : interp) (shown : raised)
| Step_PyErr_Print (shown : raised) (inner : list step)
| Step_error_in_excepthook (raised_by_hook : option raised).

(** The format string of the sqlite3_log call. *)
Definition log_format : string := "apsw_write_unraisable %s: %s".

(** A Python callable used as a hook: it returns a result ([true]) or
    NULL, and leaves the interpreter in a new state. *)
Definition callable : Type := hook_args -> interp -> bool * list step * interp.

(** The object passed as [hookobject]: its attribute [excepthook], if
    it has one. *)
Record hookobj : Type := mk_hookobj {
  excepthook_attr : option callable
}.

(** [PySys_GetObject] on the two names the function asks for. *)
Record sys_module : Type := mk_sys {
  unraisablehook : option callable;
  excepthook : option callable
}.

Definition with_err (e : option raised) (st : interp) : interp :=
  mk_interp e (recursion_depth st) (recursion_limit st) (frames st) (faults st).

Definition with_depth (d : nat) (st : interp) : interp :=
  mk_interp (err st) d (recursion_limit st) (frames st) (faults st).

Definition PyErr_Clear (st : interp) : interp := with_err None st.

(** [PyTraceBack_Here(frame)] adds the frame to the traceback of the
    pending exception. *)
Definition PyTraceBack_Here (f : frame) (st : interp) : interp :=
  match err st with
  | Some e => with_err (Some (mk_raised (err_type e) (err_value e)
                                        (err_traceback e ++ [f]))) st
  | None => st
  end.

(** The [while (frame)] loop. *)
Definition fill_traceback (st : interp) : interp :=
  fold_left (fun st f => PyTraceBack_Here f st) (frames st) st.

Definition recursion_error : raised :=
  mk_raised PyExc_RecursionError
    (Some (mk_exc_value "RecursionError"
       (Some (mk_message
          (Some "maximum recursion depth exceeded in apsw_write_unraisable"%string)))))
    [].

(** [Py_EnterRecursiveCall]: [true] is the C result 0; at the limit it
    sets RecursionError and leaves the depth as it was. *)
Definition Py_EnterRecursiveCall (st : interp) : bool * interp :=
  if (recursion_depth st <? recursion_limit st)%nat
  then (true, with_depth (S (recursion_depth st)) st)
  else (false, with_err (Some recursion_error) st).

Definition Py_LeaveRecursiveCall (st : interp) : interp :=
  with_depth (Nat.pred (recursion_depth st)) st.

Definition PyErr_Display (e : raised) (st : interp) : list step * interp :=
  ([Step_PyErr_Display st e], st).

(** [PyObject_CallFunction(hook, ...)] *)
Definition PyObject_CallFunction (id : hook_id) (hook : callable)
    (args : hook_args) (st : interp) : bool * list step * interp :=
  let '(ok, inner, st') := hook args st in
  (ok, [Step_call id st args inner ok], st').

(** [PyErr_Print()], as the runtime has it.  The pending exception is
    fetched and handed to sys.excepthook.  When that hook fails, the
    runtime writes "Error in sys.excepthook:", displays the hook's own
    exception, writes "Original exception was:" and displays the
    exception it was printing.  Without a sys.excepthook it displays
    the exception.  With nothing pending it does nothing.  (Audit
    hooks, sys.last_* and a hook that raises SystemExit, which ends the
    process, are left out.) *)
Definition PyErr_Print (sys : sys_module) (st : interp) : list step * interp :=
  match err st with
  | None => ([], st)
  | Some p =>
    let st := PyErr_Clear st in
    match excepthook sys with
    | Some hook =>
      let '(ok, tr, st') :=
        PyObject_CallFunction sys_excepthook hook
          (Args_OOO (err_type p) (err_value p) (err_traceback p)) st in
      if ok then ([Step_PyErr_Print p tr], st')
      else
        let st'' := PyErr_Clear st' in
        ([Step_PyErr_Print p
            (tr ++ [Step_error_in_excepthook (err st'); Step_PyErr_Display st'' p])],
         st'')
    | None => ([Step_PyErr_Print p [Step_PyErr_Display st p]], st)
    end
  end.

(** [PyStructSequence_New]: [true] when the struct was allocated;
    otherwise MemoryError is pending. *)
Definition PyStructSequence_New (st : interp) : bool * interp :=
  match faults st with
  | true :: fs =>
    (false, mk_interp (Some (mk_raised PyExc_MemoryError None []))
                      (recursion_depth st) (recursion_limit st) (frames st) fs)
  | false :: fs =>
    (true, mk_interp (err st) (recursion_depth st) (recursion_limit st) (frames st) fs)
  | [] => (true, st)
  end.

(** tell sqlite3_log *)
Definition tell_sqlite3_log (e : raised) (st : interp) : list step * interp :=
  match err_value e with
  | Some v =>
    let utf8 := match PyObject_Str v with
                | Some message => PyUnicode_AsUTF8 message
                | None => Some "failed to get string of error"%string
                end in
    let st := PyErr_Clear st in
    ([Step_sqlite3_log (Py_TypeName v) utf8], st)
  | None => ([], st)
  end.

(** The block [if (hookobject) { ... }]; [true] is [goto finally]. *)
Definition try_hookobject (hookobject : option hookobj) (e : raised) (st : interp)
  : bool * list step * interp :=
  match hookobject with
  | Some ho =>
    (* PyObject_GetAttrString, then PyErr_Clear *)
    let st := PyErr_Clear st in
    match excepthook_attr ho with
    | Some hook =>
      PyObject_CallFunction hookobject_excepthook hook
        (Args_OOO (err_type e) (err_value e) (err_traceback e)) st
    | None => (false, [], st)
    end
  | None => (false, [], st)
  end.

(** The block for sys.unraisablehook. *)
Definition try_unraisablehook (sys : sys_module) (e : raised) (st : interp)
  : bool * list step * interp :=
  match unraisablehook sys with
  | Some hook =>
    let st := PyErr_Clear st in
    let (arg, st) := PyStructSequence_New st in
    if arg then
      PyObject_CallFunction sys_unraisablehook hook
        (Args_N (mk_unraisable_info (err_type e) (err_value e) (err_traceback e)
                                    None None)) st
    else (false, [], st)
  | None => (false, [], st)
  end.

(** The block for sys.excepthook. *)
Definition try_excepthook (sys : sys_module) (e : raised) (st : interp)
  : bool * list step * interp :=
  match excepthook sys with
  | Some hook =>
    let st := PyErr_Clear st in
    PyObject_CallFunction sys_excepthook hook
      (Args_OOO (err_type e) (err_value e) (err_traceback e)) st
  | None => (false, [], st)
  end.

(** The code at the label [finally:], references apart. *)
Definition finally (can_recurse : bool) (st : interp) : interp :=
  let st := PyErr_Clear st in
  if can_recurse then Py_LeaveRecursiveCall st else st.

(** [None] is the failed [assert(PyErr_Occurred())]. *)
Definition apsw_write_unraisable (sys : sys_module) (hookobject : option hookobj)
    (st : interp) : option (list step * interp) :=
  match err st with
  | None => None
  | Some _ =>
    (* fill in the rest of the traceback *)
    let tr0 := [Step_traceback (frames st)] in
    let st := fill_traceback st in
    (* PyErr_Fetch, PyErr_NormalizeException *)
    match err st with
    | None => None
    | Some e =>
      let st := PyErr_Clear st in
      let (can_recurse, st) := Py_EnterRecursiveCall st in
      if negb can_recurse then
        let (tr, st) := PyErr_Print sys st in
        Some (tr0 ++ tr, finally can_recurse st)
      else
        let (tr1, st) := tell_sqlite3_log e st in
        let '(ok, tr2, st) := try_hookobject hookobject e st in
        if ok then Some (tr0 ++ tr1 ++ tr2, finally can_recurse st) else
        let '(ok, tr3, st) := try_unraisablehook sys e st in
        if ok then Some (tr0 ++ tr1 ++ tr2 ++ tr3, finally can_recurse st) else
        let '(ok, tr4, st) := try_excepthook sys e st in
        if ok then Some (tr0 ++ tr1 ++ tr2 ++ tr3 ++ tr4, finally can_recurse st) else
        let st := PyErr_Clear st in
        let (tr5, st) := PyErr_Display e st in
        Some (tr0 ++ tr1 ++ tr2 ++ tr3 ++ tr4 ++ tr5, finally can_recurse st)
    end
  end.

(** The place of a step in the function. *)
Definition rank (s : step) : nat :=
  match s with
  | Step_traceback _ => 1
  | Step_sqlite3_log _ _ => 2
  | Step_call hookobject_excepthook _ _ _ _ => 3
  | Step_call sys_unraisablehook _ _ _ _ => 4
  | Step_call sys_excepthook _ _ _ _ => 5
  | Step_PyErr_Display _ _ => 6
  | Step_PyErr_Print _ _ => 6
  | Step_error_in_excepthook _ => 6
  end%nat.

Definition is_call (s : step) : bool :=
  match s with Step_call _ _ _ _ _ => true | _ => false end.

Definition succeeded (s : step) : bool :=
  match s with Step_call _ _ _ _ ok => ok | _ => false end.

Definition is_display (s : step) : bool :=
  match s with
  | Step_PyErr_Display _ _ | Step_PyErr_Print _ _ => true
  | _ => false
  end.

(** The error indicator at the moment a hook is called or the
    exception is displayed. *)
Definition pending_at (s : step) : option raised :=
  match s with
  | Step_call _ made_in _ _ _ => err made_in
  | Step_PyErr_Display made_in _ => err made_in
  | _ => None
  end.

Definition no_pending (s : step) : bool :=
  match pending_at s with
  | None => true
  | Some _ => false
  end.

Fixpoint increasing (l : list nat) : bool :=
  match l with
  | a :: ((b :: _) as r) => (a <? b)%nat && increasing r
  | _ => true
  end.

(** Nothing follows a hook that returned a result. *)
Fixpoint stops_at_first_success (steps : list step) : bool :=
  match steps with
  | [] => true
  | s :: rest =>
    (if succeeded s then match rest with [] => true | _ => false end else true)
    && stops_at_first_success rest
  end.

(** The last step is a hook that returned a result, or a display. *)
Definition ends_in_success_or_display (steps : list step) : bool :=
  match rev steps with
  | s :: _ => succeeded s || is_display s
  | [] => false
  end.

(** What one of the three hook blocks hands back: nothing done and no
    success, or one call of its hook made with nothing pending. *)
Definition block_shape (id : hook_id) (r : bool * list step * interp) : Prop :=
  (fst (fst r) = false /\ snd (fst r) = []) \/
  (exists made_in args inner,
     snd (fst r) = [Step_call id made_in args inner (fst (fst r))] /\
     err made_in = None).

(** Example hooks: one that returns, one that raises, and one inside
    which an exception of its own comes up and is reported through
    apsw_write_unraisable before the hook returns. *)
Definition returning_hook : callable := fun _ st => (true, [], st).

Definition raising_hook (e : raised) : callable :=
  fun _ st => (false, [], with_err (Some e) st).

Definition reporting_hook (sys : sys_module) (e : raised) : callable :=
  fun _ st =>
    match apsw_write_unraisable sys None (with_err (Some e) st) with
    | Some (inner, st') => (true, inner, st')
    | None => (true, [], st)
    end.

Definition value_error (text : string) : raised :=
  mk_raised PyExc_ValueError
    (Some (mk_exc_value "ValueError" (Some (mk_message (Some text))))) [].

(** A ValueError whose text has no UTF-8 encoding (a lone surrogate). *)
Definition unencodable_error : raised :=
  mk_raised PyExc_ValueError
    (Some (mk_exc_value "ValueError" (Some (mk_message None)))) [].

Definition sys_with_unraisablehook : sys_module :=
  mk_sys (Some returning_hook) None.

Definition sys_all_raising : sys_module :=
  mk_sys (Some (raising_hook (value_error "unraisablehook broke")))
         (Some (raising_hook (value_error "excepthook broke"))).

(** A thread at depth 0 of 1000 with [e] pending. *)
Definition interp_with (e : raised) : interp :=
  mk_interp (Some e) 0 1000 [] [].

(** A thread at the recursion limit with [e] pending. *)
Definition interp_at_limit (e : raised) : interp :=
  mk_interp (Some e) 1000 1000 [] [].

(** *** The protocol, in the words of the specification

    "Ordered protocol, stop at first success, discard and continue on
    failure of each step": after the traceback is completed, the
    failure is mirrored to the log of the engine, then the hooks are
    tried in order (the hook of the call site with type, value and
    traceback; the process-wide unraisable hook with one record; the
    process-wide display hook), and the exception is displayed when
    none of them succeeded. *)

(** A hook of the chain: which one it is, the callable if one is
    registered, what it is invoked with, and what has to be made for
    the invocation, which can fail. *)
Record chain_hook : Type := mk_chain_hook {
  chain_id : hook_id;
  registered : option callable;
  arguments : hook_args;
  made_first : interp -> bool * interp
}.

Definition nothing_made_first (st : interp) : bool * interp := (true, st).

(** Try the hooks in order.  A hook that is not registered is passed
    over.  Whatever an earlier step left pending is discarded before a
    hook is invoked.  A hook that succeeds ends the chain; after one
    that fails the next is tried.  At the end of the chain the
    exception is displayed, again with nothing pending. *)
Fixpoint try_in_order (chain : list chain_hook) (e : raised) (st : interp)
  : list step * interp :=
  match chain with
  | [] =>
    let st := PyErr_Clear st in
    ([Step_PyErr_Display st e], st)
  | h :: later =>
    match registered h with
    | None => try_in_order later e st
    | Some hook =>
      let (ready, st) := made_first h (PyErr_Clear st) in
      if ready then
        let '(ok, inner, st') := hook (arguments h) st in
        if ok then ([Step_call (chain_id h) st (arguments h) inner true], st')
        else
          let (tr, st'') := try_in_order later e st' in
          (Step_call (chain_id h) st (arguments h) inner false :: tr, st'')
      else try_in_order later e st
    end
  end.

(** The three hooks, for the exception [e]. *)
Definition hook_chain (sys : sys_module) (hookobject : option hookobj) (e : raised)
  : list chain_hook :=
  [mk_chain_hook hookobject_excepthook
     (match hookobject with Some ho => excepthook_attr ho | None => None end)
     (Args_OOO (err_type e) (err_value e) (err_traceback e))
     nothing_made_first;
   mk_chain_hook sys_unraisablehook (unraisablehook sys)
     (Args_N (mk_unraisable_info (err_type e) (err_value e) (err_traceback e)
                                 None None))
     PyStructSequence_New;
   mk_chain_hook sys_excepthook (excepthook sys)
     (Args_OOO (err_type e) (err_value e) (err_traceback e))
     nothing_made_first].

(** The mirror to sqlite3_log: the type name and the text of the value,
    a fixed text when str() fails; nothing when there is no value. *)
Definition log_mirror (e : raised) : list step :=
  match err_value e with
  | Some v =>
    [Step_sqlite3_log (Py_TypeName v)
       (match PyObject_Str v with
        | Some text => PyUnicode_AsUTF8 text
        | None => Some "failed to get string of error"%string
        end)]
  | None => []
  end.

Definition reporting_protocol (sys : sys_module) (hookobject : option hookobj)
    (e : raised) (st : interp) : list step * interp :=
  let (tr, st') := try_in_order (hook_chain sys hookobject e) e st in
  (log_mirror e ++ tr, st').

(** The thread once the function has entered its recursive call:
    nothing pending, one level deeper. *)
Definition entered (st : interp) : interp :=
  mk_interp None (S (recursion_depth st)) (recursion_limit st) (frames st) (faults st).

(** What PyErr_Print does with the exception [p]: displays it where
    there is no sys.excepthook; otherwise calls that hook with [p]
    and, if the hook fails, displays [p] after the hook's own
    exception. *)
Definition handed_to_excepthook (sys : sys_module) (p : raised) (inner : list step)
  : Prop :=
  match excepthook sys with
  | None => exists made_in, inner = [Step_PyErr_Display made_in p] /\ err made_in = None
  | Some _ =>
    exists (made_in : interp) (done : list step) (ok : bool),
      err made_in = None /\
      if ok then
        inner = [Step_call sys_excepthook made_in
                   (Args_OOO (err_type p) (err_value p) (err_traceback p)) done true]
      else
        exists e2 shown_in,
          inner = [Step_call sys_excepthook made_in
                     (Args_OOO (err_type p) (err_value p) (err_traceback p)) done false;
                   Step_error_in_excepthook e2;
                   Step_PyErr_Display shown_in p] /\
          err shown_in = None
  end.

Definition is_log (s : step) : bool :=
  match s with Step_sqlite3_log _ _ => true | _ => false end.

End Unraisable.

(** ** Tracking of calls in progress: CALL_ENTER, CALL_LEAVE, CALL_CHECK *)

Module CallTrack.

Inductive call_name : Type := xConnect | xUpdate.

(** some arbitrary magic numbers for call track *)
Definition MAGIC (name : call_name) : Z :=
  match name with
  | xConnect => 0x008295ab
  | xUpdate => 0x119306bc
  end.

Definition call_name_eqb (a b : call_name) : bool :=
  match a, b with
  | xConnect, xConnect | xUpdate, xUpdate => true
  | _, _ => false
  end.

(** An [int *]: NULL, or the address of an int on the C stack.  The
    address of a sentinel is the position of its scope counted from the
    base of the stack. *)
Definition pointer : Type := option nat.

(** The two locals CALL_ENTER(name) declares in the enclosing scope. *)
Record locals : Type := mk_locals {
  scope_name : call_name;
  enter_call_save : pointer;
  enter_call_here : Z
}.

(** The object carries one slot per name, declared by CALL_TRACK(name). *)
Record state : Type := mk_state {
  in_callxConnect : pointer;
  in_callxUpdate : pointer;
  stack : list locals               (* scopes alive, outermost first *)
}.

(** [self->in_call##name] *)
Definition in_call (st : state) (name : call_name) : pointer :=
  match name with
  | xConnect => in_callxConnect st
  | xUpdate => in_callxUpdate st
  end.

Definition set_in_call (name : call_name) (p : pointer) (st : state) : state :=
  match name with
  | xConnect => mk_state p (in_callxUpdate st) (stack st)
  | xUpdate => mk_state (in_callxConnect st) p (stack st)
  end.

Definition declare (l : locals) (st : state) : state :=
  mk_state (in_callxConnect st) (in_callxUpdate st) (stack st ++ [l]).

(** [*p] for a pointer to a sentinel; [None] when it points at nothing
    alive, where C leaves the value read undefined. *)
Definition deref (st : state) (a : nat) : option Z :=
  option_map enter_call_here (nth_error (stack st) a).

(** CALL_TRACK_INIT *)
Definition CALL_TRACK_INIT (name : call_name) (st : state) : state :=
  set_in_call name None st.

(** [self->in_call##name == NULL || *(self->in_call##name) == MAGIC_##name] *)
Definition enter_assertion (name : call_name) (st : state) : bool :=
  match in_call st name with
  | None => true
  | Some a =>
    match deref st a with
    | Some m => m =? MAGIC name
    | None => false
    end
  end.

(** [None] is the failed [assert], or an [assert] that reads through a
    pointer to a sentinel that is gone. *)
Definition CALL_ENTER (name : call_name) (st : state) : option state :=
  if enter_assertion name st then
    let here := List.length (stack st) in
    let st := declare (mk_locals name (in_call st name) (MAGIC name)) st in
    Some (set_in_call name (Some here) st)
  else None.

(** CALL_LEAVE(name) reads the local [enter_call_save_##name] of the
    scope it stands in, the innermost one alive; [None] where no such
    local is in scope. *)
Definition CALL_LEAVE (name : call_name) (st : state) : option state :=
  match rev (stack st) with
  | l :: _ =>
    if call_name_eqb (scope_name l) name
    then Some (set_in_call name (enter_call_save l) st)
    else None
  | [] => None
  end.

Definition CALL_CHECK (name : call_name) (st : state) : bool :=
  match in_call st name with
  | Some _ => true
  | None => false
  end.

(** The scope that used CALL_ENTER ends: its locals are gone. *)
Definition scope_exit (st : state) : state :=
  mk_state (in_callxConnect st) (in_callxUpdate st) (removelast (stack st)).

(** A callback that enters [name], runs [body], leaves and returns. *)
Definition callback (name : call_name) (body : state -> option state)
    (st : state) : option state :=
  match CALL_ENTER name st with
  | Some st =>
    match body st with
    | Some st =>
      match CALL_LEAVE name st with
      | Some st => Some (scope_exit st)
      | None => None
      end
    | None => None
    end
  | None => None
  end.

(** The callback entered again from inside itself, [n] deep. *)
Fixpoint nested (name : call_name) (n : nat) (st : state) : option state :=
  match n with
  | O => Some st
  | S n => callback name (nested name n) st
  end.

(** enter, enter, leave, leave on one name: the second callback runs
    inside the first, and each leaves before its scope ends. *)
Definition enter_enter_leave_leave (name : call_name) (st : state) : option state :=
  match CALL_ENTER name st with
  | None => None
  | Some s1 =>
    match CALL_ENTER name s1 with
    | None => None
    | Some s2 =>
      match CALL_LEAVE name s2 with
      | None => None
      | Some s3 =>
        match CALL_LEAVE name (scope_exit s3) with
        | None => None
        | Some s4 => Some (scope_exit s4)
        end
      end
    end
  end.

(** An object right after CALL_TRACK_INIT on both names. *)
Definition fresh_object : state := mk_state None None [].

End CallTrack.

(** ** Column conversion: convert_column_to_pyobject *)

Module Column.
Import Bridge Marshal.

(** A statement positioned on a row, as seen through the
    sqlite3_column_* calls; [column_access] is what such a call does to
    the engine meanwhile. *)
Record sqlite3_stmt : Type := mk_stmt {
  sqlite3_column_type : Z -> Z;
  sqlite3_column_int64 : Z -> Z;
  sqlite3_column_double : Z -> Z;
  sqlite3_column_blob : Z -> list byte;  (* also sqlite3_column_text; its length is sqlite3_column_bytes *)
  column_access : void_op
}.

(** Converts column to PyObject.  Returns a new reference. *)
Definition convert_column_to_pyobject (stmt : sqlite3_stmt) (col : Z)
    (t : thread) (h : host) : ret * thread * host :=
  let t := _PYSQLITE_CALL_V (column_access stmt) t in
  let coltype := sqlite3_column_type stmt col in
  if coltype =? SQLITE_INTEGER then
    let t := _PYSQLITE_CALL_V (column_access stmt) t in
    let (r, h) := PyLong_FromLongLong (sqlite3_column_int64 stmt col) h in
    (r, t, h)
  else if coltype =? SQLITE_FLOAT then
    let t := _PYSQLITE_CALL_V (column_access stmt) t in
    let (r, h) := PyFloat_FromDouble (sqlite3_column_double stmt col) h in
    (r, t, h)
  else if coltype =? SQLITE_TEXT then
    let t := _PYSQLITE_CALL_V (column_access stmt) t in
    let (r, h) := PyUnicode_FromStringAndSize (sqlite3_column_blob stmt col) h in
    (r, t, h)
  else if coltype =? SQLITE_BLOB then
    let t := _PYSQLITE_CALL_V (column_access stmt) t in
    let (r, h) := PyBytes_FromStringAndSize (sqlite3_column_blob stmt col) h in
    (r, t, h)
  else (* default: case SQLITE_NULL: *)
    (Ref Py_None, t, h).

(** The column as a protected value: what sqlite3_column_value would
    hand to the value conversion. *)
Definition column_value (stmt : sqlite3_stmt) (col : Z) : sqlite3_value :=
  mk_value (sqlite3_column_type stmt col) false (sqlite3_column_int64 stmt col)
           (sqlite3_column_double stmt col) (sqlite3_column_blob stmt col) [].

(** One accessor call made from a thread that holds [l]. *)
Definition accessor_entries (l : locks) : list (Bridge.event * locks) :=
  [(Py_BEGIN_ALLOW_THREADS, l);
   (Ev_x None, mk_locks false (db_mutex l));
   (Py_END_ALLOW_THREADS, mk_locks false (db_mutex l))].

(** The codes with a case of their own in the switch. *)
Definition has_payload (coltype : Z) : bool :=
  (coltype =? SQLITE_INTEGER) || (coltype =? SQLITE_FLOAT)
  || (coltype =? SQLITE_TEXT) || (coltype =? SQLITE_BLOB).

(** A row with an integer, a text and a NULL column. *)
Definition example_row : sqlite3_stmt :=
  mk_stmt (fun col => if col =? 0 then SQLITE_INTEGER
                      else if col =? 1 then SQLITE_TEXT else SQLITE_NULL)
          (fun _ => 42) (fun _ => 0) (fun _ => [x68; x69]) (fun e => e).

End Column.

(** ** Vocabulary for further properties of the value conversion *)

Module MarshalMore.
Import Marshal.

(** The references the loop obtains: one for each element that
    converted. *)
Fixpoint new_references (evs : list event) : list PyObject :=
  match evs with
  | [] => []
  | Ev_element (Ref o) :: rest => o :: new_references rest
  | _ :: rest => new_references rest
  end.

(** The references to elements it lets go of: by Py_CLEAR(v), and by
    Py_XDECREF(v) where [v] is not NULL. *)
Fixpoint released_references (evs : list event) : list PyObject :=
  match evs with
  | [] => []
  | Ev_Py_CLEAR_v o :: rest => o :: released_references rest
  | Ev_Py_XDECREF_v (Some o) :: rest => o :: released_references rest
  | _ :: rest => released_references rest
  end.

(** The two statements at [error:]. *)
Definition at_error (ev : event) : bool :=
  match ev with
  | Ev_Py_XDECREF_v _ | Ev_Py_XDECREF_set _ => true
  | _ => false
  end.

(** The events after which the loop jumps to [error:]: a failure of the
    expansion, or a PySet_Add that did not return 0. *)
Definition stops (ev : event) : bool :=
  match ev with
  | Ev_PySet_Add false => true
  | _ => failure ev
  end.

Definition is_set (o : PyObject) : bool :=
  match o with PySet _ => true | _ => false end.

Definition is_no_change (o : PyObject) : bool :=
  match o with apsw_no_change_object => true | _ => false end.

(** A member that is neither a set nor the no-change object. *)
Definition plain_member (m : PyObject) : Prop :=
  hashable m = true /\ is_no_change m = false.

(** A value of an unknown type code that answers as an IN list. *)
Definition odd_value : sqlite3_value :=
  mk_value 17 true 3 0 [xff] (in_list_answers [int_value 1]).

(** A value for which sqlite3_vtab_in_first answers SQLITE_OK and hands
    out NULL. *)
Definition ok_without_element : sqlite3_value :=
  mk_value SQLITE_NULL false 0 0 [] [(SQLITE_OK, None)].

End MarshalMore.

(** ** CHECK_CLOSED and CHECK_CURSOR_CLOSED *)

Module Closed.
Import Bridge Guard.

(** A [sqlite3 *] that is NULL. *)
Definition NULL_db : sqlite3 := O.

(** A cursor: [self->connection] may be NULL. *)
Record APSWCursor : Type := mk_APSWCursor {
  cursor_connection : option Connection;
  cursor_inuse : Z
}.

Definition connection_closed : exception :=
  mk_exception ExcConnectionClosed "The connection has been closed".

Definition cursor_closed : exception :=
  mk_exception ExcCursorClosed "The cursor has been closed".

(** used by Connection *)
Definition CHECK_CLOSED {R} (connection : option Connection) (e : R) (t : thread)
  : flow R * thread :=
  match connection with
  | None => (Returns e, PyErr_Format connection_closed t)
  | Some c =>
    if Nat.eqb (db c) NULL_db
    then (Returns e, PyErr_Format connection_closed t)
    else (Continues, t)
  end.

(** used by cursor *)
Definition CHECK_CURSOR_CLOSED {R} (e : R) (self : APSWCursor) (t : thread)
  : flow R * thread :=
  match cursor_connection self with
  | None => (Returns e, PyErr_Format cursor_closed t)
  | Some c =>
    if Nat.eqb (db c) NULL_db
    then (Returns e, PyErr_Format connection_closed t)
    else (Continues, t)
  end.

Definition open_cursor : APSWCursor := mk_APSWCursor (Some free_connection) 0.
Definition closed_cursor : APSWCursor := mk_APSWCursor None 0.

End Closed.

(** ** apsw_strdup *)

Module Strdup.
Import Marshal.

(** [strlen] on the bytes found at a [char *]. *)
Fixpoint strlen (s : list byte) : nat :=
  match s with
  | [] => O
  | b :: r => if Byte.eqb b x00 then O else S (strlen r)
  end.

(** [buf[i] = b]; [None] is a write outside the allocation. *)
Fixpoint store (i : nat) (b : byte) (buf : list byte) : option (list byte) :=
  match buf with
  | [] => None
  | c :: r =>
    match i with
    | O => Some (b :: r)
    | S i => option_map (cons c) (store i b r)
    end
  end.

Fixpoint store_all (i : nat) (bs : list byte) (buf : list byte)
  : option (list byte) :=
  match bs with
  | [] => Some buf
  | b :: r =>
    match store i b buf with
    | Some buf => store_all (S i) r buf
    | None => None
    end
  end.

(** [PyMem_Calloc(nelem, elsize)]: zeroed memory, or NULL. *)
Definition PyMem_Calloc (nelem elsize : nat) (h : host)
  : option (list byte) * host :=
  let (ok, h) := alloc h in
  (if ok then Some (repeat x00 (nelem * elsize)) else None, h).

Definition INT_MAX : Z := 2147483647.

(** [PyOS_snprintf(str, size, "%s", source)], as the runtime has it
    with its assertions compiled out: when [size > INT_MAX - 1]
    nothing is formatted; otherwise vsnprintf writes at most
    [size - 1] bytes of the string and then a NUL; in both cases
    [str[size-1]] is set to NUL afterwards. *)
Definition PyOS_snprintf (str : list byte) (size : nat) (source : list byte)
  : option (list byte) :=
  match size with
  | O => Some str
  | S room =>
    let formatted :=
      if Z.of_nat size >? INT_MAX - 1 then Some str
      else store_all O (firstn (Nat.min (strlen source) room) source ++ [x00]) str in
    match formatted with
    | Some str => store room x00 str
    | None => None
    end
  end.

(** This adds double nulls on the end.  The outer [None] is a write
    outside the allocation, [Some None] is the NULL result. *)
Definition apsw_strdup (source : list byte) (h : host)
  : option (option (list byte)) * host :=
  let len := strlen source in
  let (res, h) := PyMem_Calloc 1 (len + 3) h in
  match res with
  | Some res =>
    (match store (len + 2) x00 res with
     | Some res =>
       match store (len + 1) x00 res with
       | Some res =>
         match store len x00 res with
         | Some res => option_map Some (PyOS_snprintf res (len + 1) source)
         | None => None
         end
       | None => None
       end
     | None => None
     end, h)
  | None => (Some None, h)
  end.

(** The file name "a.db" followed by whatever lies behind it in memory. *)
Definition example_source : list byte := [x61; x2e; x64; x62; x00; x7a; x7a].

End Strdup.

(** ** Checked calls one after another *)

Module Sequences.
Import Bridge.

(** Checked calls on one connection, in order. *)
Fixpoint checked_calls (db : sqlite3) (ops : list checked_op) (t : thread)
  : list Z * thread :=
  match ops with
  | [] => ([], t)
  | x :: rest =>
    let (res, t) := _PYSQLITE_CALL_E db x t in
    let (results, t) := checked_calls db rest t in
    (res :: results, t)
  end.

(** What each operation returns and the text the engine holds for [db]
    right after it. *)
Fixpoint outcomes (db : sqlite3) (ops : list checked_op) (e : engine)
  : list (Z * string) :=
  match ops with
  | [] => []
  | x :: rest => (fst (x e), sqlite3_errmsg (snd (x e)) db) :: outcomes db rest (snd (x e))
  end.

(** The text of the last failure among the outcomes, [kept] if none. *)
Definition last_failure (kept : option string) (l : list (Z * string))
  : option string :=
  fold_left (fun acc o => if res_is_error (fst o) then Some (snd o) else acc) l kept.

End Sequences.

(** ** Vocabulary for further properties of apsw_write_unraisable *)

Module UnraisableMore.
Import Unraisable.

(** A hook that returns with the recursion depth, the limit and the
    frames it was called with. *)
Definition balanced (hook : callable) : Prop :=
  forall args st,
    recursion_depth (snd (hook args st)) = recursion_depth st /\
    recursion_limit (snd (hook args st)) = recursion_limit st.

Definition balanced_opt (hook : option callable) : Prop :=
  match hook with
  | Some hook => balanced hook
  | None => True
  end.

Definition hook_of (hookobject : option hookobj) : option callable :=
  match hookobject with
  | Some ho => excepthook_attr ho
  | None => None
  end.

(** The exception with the frames of the thread added to its
    traceback. *)
Definition completed (e : raised) (fs : list frame) : raised :=
  mk_raised (err_type e) (err_value e) (err_traceback e ++ fs).

(** What a step is handed when [e] is the exception being reported;
    PyErr_Print, at the recursion limit, is handed the RecursionError
    instead and passes it to sys.excepthook. *)
Definition carries (sys : sys_module) (e : raised) (s : step) : Prop :=
  match s with
  | Step_traceback _ => True
  | Step_sqlite3_log type_name utf8 =>
    exists v, err_value e = Some v /\
      type_name = Py_TypeName v /\
      utf8 = match PyObject_Str v with
             | Some text => PyUnicode_AsUTF8 text
             | None => Some "failed to get string of error"%string
             end
  | Step_call sys_unraisablehook _ args _ _ =>
    args = Args_N (mk_unraisable_info (err_type e) (err_value e) (err_traceback e)
                                      None None)
  | Step_call _ _ args _ _ =>
    args = Args_OOO (err_type e) (err_value e) (err_traceback e)
  | Step_PyErr_Display _ shown => shown = e
  | Step_PyErr_Print shown inner =>
    shown = recursion_error /\ handed_to_excepthook sys recursion_error inner
  | Step_error_in_excepthook _ => True
  end.

Definition calls (id : hook_id) (s : step) : bool :=
  match s, id with
  | Step_call hookobject_excepthook _ _ _ _, hookobject_excepthook => true
  | Step_call sys_unraisablehook _ _ _ _, sys_unraisablehook => true
  | Step_call sys_excepthook _ _ _ _, sys_excepthook => true
  | _, _ => false
  end.

(** A thread in two frames with [e] pending and the next allocation
    failing. *)
Definition interp_failing_alloc (e : raised) : interp :=
  mk_interp (Some e) 0 1000 [3%nat; 2%nat] [true].

End UnraisableMore.

(** * Properties *)

(** ** The lock bridge *)

Module BridgeFacts.
Import Bridge.

Lemma skipn_log (A : Type) (l r : list A) : skipn (List.length l) (l ++ r) = r.
Proof.
  rewrite skipn_app, skipn_all, Nat.sub_diag. reflexivity.
Qed.

(** What a checked call appends to the log, entry by entry. *)
Lemma call_E_entries (db : sqlite3) (x : checked_op) (t : thread) :
  new_entries t (snd (_PYSQLITE_CALL_E db x t)) =
    [(Py_BEGIN_ALLOW_THREADS, held t);
     (Ev_mutex_enter db, released t);
     (Ev_x (Some (fst (x (sqlite t)))), inside db t)]
    ++ (if res_is_error (fst (x (sqlite t)))
        then [(Ev_set_errmsg (sqlite3_errmsg (snd (x (sqlite t))) db), inside db t)]
        else [])
    ++ [(Ev_mutex_leave db, inside db t);
        (Py_END_ALLOW_THREADS,
         mk_locks false (upd (db_mutex (inside db t)) db
                             (Nat.pred (db_mutex (inside db t) db))))].
Proof.
  unfold _PYSQLITE_CALL_E, new_entries, run_checked. cbn.
  destruct (x (sqlite t)) as [res e'] eqn:Hx. cbn [fst snd].
  destruct (res_is_error res); cbn;
    repeat rewrite <- app_assoc; rewrite skipn_log; reflexivity.
Qed.

Lemma call_E_res (db : sqlite3) (x : checked_op) (t : thread) :
  fst (_PYSQLITE_CALL_E db x t) = fst (x (sqlite t)).
Proof.
  unfold _PYSQLITE_CALL_E, run_checked. cbn.
  destruct (x (sqlite t)) as [res e']. reflexivity.
Qed.

Lemma call_E_final (db : sqlite3) (x : checked_op) (t : thread) :
  let t' := snd (_PYSQLITE_CALL_E db x t) in
  gil (held t') = true /\
  (forall d, db_mutex (held t') d = db_mutex (held t) d) /\
  err t' = err t /\
  sqlite t' = snd (x (sqlite t)) /\
  tls_errmsg t' = if res_is_error (fst (x (sqlite t)))
                  then Some (sqlite3_errmsg (snd (x (sqlite t))) db)
                  else tls_errmsg t.
Proof.
  unfold _PYSQLITE_CALL_E, run_checked. cbn.
  destruct (x (sqlite t)) as [res e'] eqn:Hx. cbn [fst snd].
  assert (Hupd : forall d, upd (upd (db_mutex (held t)) db (S (db_mutex (held t) db))) db
                   (Nat.pred (upd (db_mutex (held t)) db (S (db_mutex (held t) db)) db)) d
                 = db_mutex (held t) d).
  { intro d. unfold upd. rewrite Nat.eqb_refl. cbn.
    destruct (Nat.eqb d db) eqn:E; [apply Nat.eqb_eq in E; subst|]; reflexivity. }
  destruct (res_is_error res); cbn; repeat split; auto.
Qed.

Lemma res_is_error_spec (res : Z) :
  res_is_error res = true <->
  res <> SQLITE_OK /\ res <> SQLITE_ROW /\ res <> SQLITE_DONE.
Proof.
  unfold res_is_error, SQLITE_OK, SQLITE_ROW, SQLITE_DONE.
  rewrite !andb_true_iff, !negb_true_iff, !Z.eqb_neq. tauto.
Qed.

Lemma inside_holds_mutex (db : sqlite3) (t : thread) :
  db_mutex (inside db t) db = S (db_mutex (held t) db).
Proof. unfold inside, upd. cbn. rewrite Nat.eqb_refl. reflexivity. Qed.

(** C1: in a checked call the error text is captured exactly when the
    result code is none of SQLITE_OK, SQLITE_ROW, SQLITE_DONE; it is
    captured once, as the thread's own copy of the text the engine holds
    right after the operation; at that moment the thread has the
    connection's mutex and not the GIL, and the release of the mutex and
    the reacquisition of the GIL both come later in the log. *)
Theorem errmsg_captured_iff_error_inside_mutex :
  forall (db : sqlite3) (x : checked_op) (t : thread),
    let res := fst (_PYSQLITE_CALL_E db x t) in
    let t' := snd (_PYSQLITE_CALL_E db x t) in
    let evs := new_entries t t' in
    ((exists msg l, In (Ev_set_errmsg msg, l) evs) <->
     (res <> SQLITE_OK /\ res <> SQLITE_ROW /\ res <> SQLITE_DONE)) /\
    (forall msg l, In (Ev_set_errmsg msg, l) evs ->
       msg = sqlite3_errmsg (snd (x (sqlite t))) db /\
       tls_errmsg t' = Some msg /\
       gil l = false /\
       (0 < db_mutex l db)%nat /\
       exists pre post,
         evs = pre ++ (Ev_set_errmsg msg, l) :: post /\
         map fst pre = [Py_BEGIN_ALLOW_THREADS; Ev_mutex_enter db; Ev_x (Some res)] /\
         map fst post = [Ev_mutex_leave db; Py_END_ALLOW_THREADS]).
Proof.
  intros db x t res t' evs.
  subst res t' evs. rewrite call_E_res.
  pose proof (call_E_final db x t) as (_ & _ & _ & _ & Htls).
  rewrite call_E_entries.
  rewrite <- res_is_error_spec.
  destruct (res_is_error (fst (x (sqlite t)))) eqn:Hres.
  - split.
    + split; [reflexivity|]. intros _.
      eexists _, _. cbn. right; right; right; left. reflexivity.
    + intros msg l Hin. cbn in Hin.
      destruct Hin as [H|[H|[H|[H|[H|[H|[]]]]]]]; inversion H; subst.
      repeat split; auto.
      * rewrite inside_holds_mutex. lia.
      * exists [(Py_BEGIN_ALLOW_THREADS, held t); (Ev_mutex_enter db, released t);
                (Ev_x (Some (fst (x (sqlite t)))), inside db t)].
        eexists. split; [reflexivity|]. split; reflexivity.
  - split.
    + split; [|discriminate]. intros (msg & l & Hin). cbn in Hin.
      destruct Hin as [H|[H|[H|[H|[H|[]]]]]]; inversion H.
    + intros msg l Hin. cbn in Hin.
      destruct Hin as [H|[H|[H|[H|[H|[]]]]]]; inversion H.
Qed.

(** The failing step on connection 7: its text is captured, with the
    mutex of connection 7 entered once and the GIL released. *)
Lemma errmsg_captured_iff_error_inside_mutex_witness :
  In (Ev_set_errmsg "no such table: t", inside 7%nat idle_thread)
     (new_entries idle_thread
        (snd (_PYSQLITE_CALL_E 7%nat (failing_step 7%nat 1 "no such table: t") idle_thread))) /\
  tls_errmsg (snd (_PYSQLITE_CALL_E 7%nat (failing_step 7%nat 1 "no such table: t") idle_thread))
    = Some "no such table: t" /\
  gil (inside 7%nat idle_thread) = false /\
  (0 < db_mutex (inside 7%nat idle_thread) 7%nat)%nat.
Proof.
  assert (Hin : In (Ev_set_errmsg "no such table: t", inside 7%nat idle_thread)
                   (new_entries idle_thread
                      (snd (_PYSQLITE_CALL_E 7%nat
                              (failing_step 7%nat 1 "no such table: t") idle_thread)))).
  { cbn. right; right; right; left. reflexivity. }
  split; [exact Hin|].
  destruct (errmsg_captured_iff_error_inside_mutex 7%nat
              (failing_step 7%nat 1 "no such table: t") idle_thread) as [_ Hcap].
  destruct (Hcap _ _ Hin) as (_ & Htls & Hgil & Hmutex & _).
  split; [exact Htls|]. split; [exact Hgil|exact Hmutex].
Defined.

Lemma call_V_entries (x : void_op) (t : thread) :
  new_entries t (_PYSQLITE_CALL_V x t) =
    [(Py_BEGIN_ALLOW_THREADS, held t); (Ev_x None, released t);
     (Py_END_ALLOW_THREADS, released t)].
Proof.
  unfold _PYSQLITE_CALL_V, new_entries, run_void. cbn.
  repeat rewrite <- app_assoc. rewrite skipn_log. reflexivity.
Qed.

Lemma upd_leave_enter (m : sqlite3 -> nat) (db d : sqlite3) :
  upd (upd m db (S (m db))) db (Nat.pred (upd m db (S (m db)) db)) d = m d.
Proof.
  unfold upd. rewrite Nat.eqb_refl. cbn.
  destruct (Nat.eqb d db) eqn:E; [apply Nat.eqb_eq in E; subst|]; reflexivity.
Qed.

(** C9: a checked call releases the GIL, then enters the connection's
    mutex, runs the operation, leaves the mutex and only then takes the
    GIL back; a void call touches no mutex between releasing and taking
    back the GIL.  Every mutex entry is made without the GIL, the GIL is
    taken back with every mutex back at the level it had at the start,
    and at no logged moment does the thread hold both. *)
Theorem gil_released_around_db_mutex :
  forall (db : sqlite3) (x : checked_op) (v : void_op) (t : thread),
    let res := fst (_PYSQLITE_CALL_E db x t) in
    let t' := snd (_PYSQLITE_CALL_E db x t) in
    let evs := new_entries t t' in
    (exists capture,
       map fst evs =
         [Py_BEGIN_ALLOW_THREADS; Ev_mutex_enter db; Ev_x (Some res)]
         ++ capture ++ [Ev_mutex_leave db; Py_END_ALLOW_THREADS] /\
       (capture = [] \/ exists msg, capture = [Ev_set_errmsg msg])) /\
    (forall d l, In (Ev_mutex_enter d, l) evs -> gil l = false) /\
    (forall l, In (Py_END_ALLOW_THREADS, l) evs ->
       forall d, db_mutex l d = db_mutex (held t) d) /\
    (forall e l d, In (e, l) evs -> holds_both (held t) d l = false) /\
    gil (held t') = true /\
    (forall d, db_mutex (held t') d = db_mutex (held t) d) /\
    map fst (new_entries t (_PYSQLITE_CALL_V v t)) =
      [Py_BEGIN_ALLOW_THREADS; Ev_x None; Py_END_ALLOW_THREADS].
Proof.
  intros db x v t res t' evs. subst res t' evs.
  pose proof (call_E_final db x t) as (Hgil & Hmut & _).
  rewrite call_E_res, call_E_entries, call_V_entries.
  assert (Hnot : forall d, holds_both (held t) d (held t) = false).
  { intro d. unfold holds_both. rewrite Nat.ltb_irrefl. apply andb_false_r. }
  destruct (res_is_error (fst (x (sqlite t)))); cbn [app map fst].
  - split; [eexists [_]; split; [reflexivity|right; eexists; reflexivity]|].
    repeat split; auto.
    + intros d l Hin. cbn in Hin.
      destruct Hin as [H|[H|[H|[H|[H|[H|[]]]]]]]; inversion H; reflexivity.
    + intros l Hin d. cbn in Hin.
      destruct Hin as [H|[H|[H|[H|[H|[H|[]]]]]]]; inversion H; subst.
      cbn. apply upd_leave_enter.
    + intros e l d Hin. cbn in Hin.
      destruct Hin as [H|[H|[H|[H|[H|[H|[]]]]]]]; inversion H; subst; auto.
  - split; [exists []; split; [reflexivity|left; reflexivity]|].
    repeat split; auto.
    + intros d l Hin. cbn in Hin.
      destruct Hin as [H|[H|[H|[H|[H|[]]]]]]; inversion H; reflexivity.
    + intros l Hin d. cbn in Hin.
      destruct Hin as [H|[H|[H|[H|[H|[]]]]]]; inversion H; subst.
      cbn. apply upd_leave_enter.
    + intros e l d Hin. cbn in Hin.
      destruct Hin as [H|[H|[H|[H|[H|[]]]]]]; inversion H; subst; auto.
Qed.

(** The failing step on connection 7: the mutex is entered with the GIL
    released, and the GIL is taken back with no mutex held. *)
Lemma gil_released_around_db_mutex_witness :
  gil (released idle_thread) = false /\
  (forall d, upd (upd (fun _ => O) 7%nat 1%nat) 7%nat O d = O).
Proof.
  destruct (gil_released_around_db_mutex 7%nat
              (failing_step 7%nat 1 "no such table: t") (fun e => e) idle_thread)
    as (_ & Henter & Hend & _).
  split.
  - apply (Henter 7%nat). cbn. right; left. reflexivity.
  - apply (Hend (mk_locks false (upd (upd (fun _ => O) 7%nat 1%nat) 7%nat O))).
    cbn. do 5 right. left. reflexivity.
Defined.

(** A failing step on connection 7: the text is captured inside the
    mutex; a step that yields a row captures nothing. *)
Example failing_step_log :
  map fst (log (snd (_PYSQLITE_CALL_E 7%nat (failing_step 7%nat 1 "no such table: t") idle_thread)))
  = [Py_BEGIN_ALLOW_THREADS; Ev_mutex_enter 7%nat; Ev_x (Some 1);
     Ev_set_errmsg "no such table: t"; Ev_mutex_leave 7%nat; Py_END_ALLOW_THREADS]
  /\ tls_errmsg (snd (_PYSQLITE_CALL_E 7%nat (failing_step 7%nat 1 "no such table: t") idle_thread))
     = Some "no such table: t"%string.
Proof. split; reflexivity. Qed.

Example row_step_log :
  map fst (log (snd (_PYSQLITE_CALL_E 7%nat row_step idle_thread)))
  = [Py_BEGIN_ALLOW_THREADS; Ev_mutex_enter 7%nat; Ev_x (Some SQLITE_ROW);
     Ev_mutex_leave 7%nat; Py_END_ALLOW_THREADS]
  /\ tls_errmsg (snd (_PYSQLITE_CALL_E 7%nat row_step idle_thread)) = None.
Proof. split; reflexivity. Qed.

End BridgeFacts.

(** ** The in-use guard *)

Module GuardFacts.
Import Bridge Guard.

Section Generic.
Context {T : Type} `{InUse T}.

Lemma CHECK_USE_free {R} (e : R) (self : T) (t : thread) :
  inuse self = 0 -> CHECK_USE e self t = (Continues, t).
Proof.
  intro H0. unfold CHECK_USE. rewrite H0. reflexivity.
Qed.

Lemma CHECK_USE_busy {R} (e : R) (self : T) (t : thread) :
  inuse self <> 0 ->
  CHECK_USE e self t =
    (Returns e, match err t with
                | None => with_err (Some threading_violation) t
                | Some _ => t
                end).
Proof.
  intro Hne. unfold CHECK_USE, PyErr_Format.
  apply Z.eqb_neq in Hne. rewrite Hne. reflexivity.
Qed.

Lemma INUSE_CALL_runs {A} (x : block T A) (self : T) (t : thread) :
  inuse self = 0 ->
  inuse (snd (fst (x (set_inuse 1 self) t))) = 1 ->
  INUSE_CALL x self t =
    Some (fst (fst (x (set_inuse 1 self) t)),
          set_inuse 0 (snd (fst (x (set_inuse 1 self) t))),
          snd (x (set_inuse 1 self) t)).
Proof.
  intros H0 H1. unfold INUSE_CALL. rewrite H0. cbn.
  destruct (x (set_inuse 1 self) t) as [[a self'] t'] eqn:Hx.
  cbn in H1 |- *. rewrite H1. reflexivity.
Qed.

End Generic.

(** C2, as the code has it: on an object in use CHECK_USE returns the
    failure value at once; it takes no lock, logs nothing and leaves the
    locks, the engine and the captured text as they were; it raises
    ThreadingViolation when no exception is pending and keeps the
    pending exception when there is one.  On an object not in use it
    lets the method continue, and INUSE_CALL then runs the block on the
    object with the flag set to 1 and hands the object back with the
    flag at 0. *)
Theorem check_use_fails_fast_or_guards :
  forall (T : Type) (I : InUse T) (R A : Type) (e : R) (x : block T A)
         (self : T) (t : thread),
    (inuse self <> 0 ->
       fst (CHECK_USE e self t) = Returns e /\
       log (snd (CHECK_USE e self t)) = log t /\
       held (snd (CHECK_USE e self t)) = held t /\
       sqlite (snd (CHECK_USE e self t)) = sqlite t /\
       tls_errmsg (snd (CHECK_USE e self t)) = tls_errmsg t /\
       (err t = None ->
          err (snd (CHECK_USE e self t)) = Some threading_violation) /\
       (forall pending, err t = Some pending ->
          err (snd (CHECK_USE e self t)) = Some pending)) /\
    (inuse self = 0 ->
       CHECK_USE e self t = (Continues, t) /\
       (inuse (snd (fst (x (set_inuse 1 self) t))) = 1 ->
          exists a self' t',
            x (set_inuse 1 self) t = (a, self', t') /\
            inuse (set_inuse 1 self) = 1 /\
            INUSE_CALL x self t = Some (a, set_inuse 0 self', t') /\
            inuse (set_inuse 0 self') = 0)).
Proof.
  intros T I R A e x self t. split.
  - intro Hne. rewrite (CHECK_USE_busy e self t Hne). cbn.
    destruct (err t) as [p|] eqn:Herr; cbn; repeat split; auto; try discriminate.
    intros pending Hp. congruence.
  - intro H0. split; [apply CHECK_USE_free; assumption|].
    intro H1. pose proof (INUSE_CALL_runs x self t H0 H1) as Hrun.
    destruct (x (set_inuse 1 self) t) as [[a self'] t'] eqn:Hx.
    exists a, self', t'. repeat split; auto using inuse_set_inuse.
Qed.

(** The theorem at a connection in use and at a free one running a
    checked call. *)
Lemma check_use_fails_fast_or_guards_witness :
  (fst (CHECK_USE tt busy_connection idle_thread) = Returns tt /\
   err (snd (CHECK_USE tt busy_connection idle_thread)) = Some threading_violation) /\
  (exists res self' t',
     PYSQLITE_CON_CALL row_step free_connection idle_thread = Some (res, self', t') /\
     inuse self' = 0).
Proof.
  pose proof (check_use_fails_fast_or_guards Connection _ unit Z tt
                (call_E (fun self : Connection => db self) row_step)
                busy_connection idle_thread) as [Hbusy _].
  pose proof (check_use_fails_fast_or_guards Connection _ unit Z tt
                (call_E (fun self : Connection => db self) row_step)
                free_connection idle_thread) as [_ Hfree].
  split.
  - destruct Hbusy as (Hr & _ & _ & _ & _ & Hnone & _); [discriminate|].
    split; [exact Hr|]. apply Hnone. reflexivity.
  - destruct Hfree as (_ & Hrun); [reflexivity|].
    destruct Hrun as (a & self' & t' & _ & _ & Hcall & Hflag); [reflexivity|].
    exists a, (set_inuse 0 self'), t'. split; [exact Hcall|exact Hflag].
Defined.

(** C2 as stated fails where an exception is already pending: the call
    on a connection in use returns the failure value and the pending
    ValueError stays; no ThreadingViolation is raised. *)
Lemma check_use_keeps_pending_exception :
  inuse busy_connection <> 0 /\
  fst (CHECK_USE tt busy_connection thread_with_pending) = Returns tt /\
  err (snd (CHECK_USE tt busy_connection thread_with_pending))
    = Some pending_value_error /\
  exc_class_eqb (exc_type pending_value_error) ExcThreadingViolation = false.
Proof.
  repeat split. discriminate.
Qed.

(** A second call made while the first is inside its guarded block is
    turned away with ThreadingViolation, and the first call still ends
    with the flag cleared. *)
Example second_call_during_first :
  exists t',
    INUSE_CALL second_call free_connection idle_thread
      = Some (Returns tt, free_connection, t') /\
    err t' = Some threading_violation /\ log t' = [].
Proof. eexists. repeat split. Qed.

(** Each call-site macro is the checked (or void) call on the
    connection the object leads to, inside INUSE_CALL. *)
Lemma PYSQLITE_CON_CALL_runs (y : checked_op) (self : Connection) (t : thread) :
  inuse self = 0 ->
  PYSQLITE_CON_CALL y self t =
    Some (fst (_PYSQLITE_CALL_E (db self) y t), self,
          snd (_PYSQLITE_CALL_E (db self) y t)).
Proof.
  destruct self as [d u]. cbn. intros ->.
  unfold PYSQLITE_CON_CALL, INUSE_CALL, call_E. cbn.
  destruct (_PYSQLITE_CALL_E d y t) as [res t']. reflexivity.
Qed.

Lemma PYSQLITE_BLOB_CALL_runs (y : checked_op) (self : APSWBlob) (t : thread) :
  inuse self = 0 ->
  PYSQLITE_BLOB_CALL y self t =
    Some (fst (_PYSQLITE_CALL_E (db (connection self)) y t), self,
          snd (_PYSQLITE_CALL_E (db (connection self)) y t)).
Proof.
  destruct self as [c u]. cbn. intros ->.
  unfold PYSQLITE_BLOB_CALL, INUSE_CALL, call_E. cbn.
  destruct (_PYSQLITE_CALL_E (db c) y t) as [res t']. reflexivity.
Qed.

Lemma PYSQLITE_BACKUP_CALL_runs (y : checked_op) (self : APSWBackup) (t : thread) :
  inuse self = 0 ->
  PYSQLITE_BACKUP_CALL y self t =
    Some (fst (_PYSQLITE_CALL_E (db (dest self)) y t), self,
          snd (_PYSQLITE_CALL_E (db (dest self)) y t)).
Proof.
  destruct self as [c u]. cbn. intros ->.
  unfold PYSQLITE_BACKUP_CALL, INUSE_CALL, call_E. cbn.
  destruct (_PYSQLITE_CALL_E (db c) y t) as [res t']. reflexivity.
Qed.

Lemma PYSQLITE_VOID_CALL_runs (y : void_op) (self : Connection) (t : thread) :
  inuse self = 0 ->
  PYSQLITE_VOID_CALL y self t = Some (tt, self, _PYSQLITE_CALL_V y t).
Proof.
  destruct self as [d u]. cbn. intros ->. reflexivity.
Qed.

End GuardFacts.

(** ** Tracking of calls in progress *)

Module CallTrackFacts.
Import CallTrack.

Lemma in_call_set_same (name : call_name) (p : pointer) (st : state) :
  in_call (set_in_call name p st) name = p.
Proof. destruct name; reflexivity. Qed.

Lemma in_call_set_other (name other : call_name) (p : pointer) (st : state) :
  other <> name -> in_call (set_in_call name p st) other = in_call st other.
Proof. destruct name, other; intro Hne; try reflexivity; contradiction. Qed.

Lemma stack_set_in_call (name : call_name) (p : pointer) (st : state) :
  stack (set_in_call name p st) = stack st.
Proof. destruct name; reflexivity. Qed.

Lemma nth_error_last {A : Type} (l : list A) (x : A) :
  nth_error (l ++ [x]) (List.length l) = Some x.
Proof.
  rewrite nth_error_app2 by lia. rewrite Nat.sub_diag. reflexivity.
Qed.

Lemma CALL_ENTER_ok (name : call_name) (st : state) :
  enter_assertion name st = true ->
  CALL_ENTER name st =
    Some (set_in_call name (Some (List.length (stack st)))
            (declare (mk_locals name (in_call st name) (MAGIC name)) st)).
Proof. intro Ha. unfold CALL_ENTER. rewrite Ha. reflexivity. Qed.

Lemma entered_assertion (name : call_name) (st st1 : state) :
  CALL_ENTER name st = Some st1 -> enter_assertion name st1 = true.
Proof.
  unfold CALL_ENTER. destruct (enter_assertion name st); [|discriminate].
  intro Heq. inversion Heq; subst; clear Heq.
  unfold enter_assertion, deref.
  rewrite in_call_set_same, stack_set_in_call. cbn [declare stack].
  rewrite nth_error_last. cbn. apply Z.eqb_refl.
Qed.

Lemma CALL_LEAVE_after_enter (name : call_name) (st st1 : state) :
  CALL_ENTER name st = Some st1 ->
  exists st2, CALL_LEAVE name st1 = Some st2 /\ scope_exit st2 = st.
Proof.
  unfold CALL_ENTER. destruct (enter_assertion name st); [|discriminate].
  intro Heq. inversion Heq; subst; clear Heq.
  unfold CALL_LEAVE. rewrite stack_set_in_call. cbn [declare stack].
  rewrite rev_unit. cbn [scope_name].
  replace (call_name_eqb name name) with true by (destruct name; reflexivity).
  eexists. split; [reflexivity|].
  unfold scope_exit. destruct st as [c u s], name; cbn;
    rewrite removelast_last; reflexivity.
Qed.

Lemma callback_returns (name : call_name) (body : state -> option state)
    (st : state) :
  enter_assertion name st = true ->
  (forall s, enter_assertion name s = true -> body s = Some s) ->
  callback name body st = Some st.
Proof.
  intros Ha Hbody. unfold callback.
  destruct (CALL_ENTER name st) as [st1|] eqn:He.
  - rewrite (Hbody st1 (entered_assertion name st st1 He)).
    destruct (CALL_LEAVE_after_enter name st st1 He) as (st2 & Hl & Hx).
    rewrite Hl, Hx. reflexivity.
  - rewrite (CALL_ENTER_ok name st Ha) in He. discriminate.
Qed.

Lemma nested_returns (name : call_name) (n : nat) :
  forall st, enter_assertion name st = true -> nested name n st = Some st.
Proof.
  induction n as [|n IH]; intros st Ha; cbn.
  - reflexivity.
  - apply callback_returns; assumption.
Qed.

(** C8: CALL_CHECK answers whether the slot is non-NULL.  CALL_ENTER
    keeps the old slot value in the local [enter_call_save], makes a
    sentinel holding the magic number at an address where nothing was
    alive, points the slot of that name at it and leaves the other slot
    alone; CALL_LEAVE puts the kept value back.  Callbacks nested to
    any depth leave the object as they found it, and enter, enter,
    leave, leave from an inactive slot ends inactive. *)
Theorem call_enter_leave_lifo :
  forall (name : call_name) (st : state),
    (CALL_CHECK name st = true <-> in_call st name <> None) /\
    (enter_assertion name st = true ->
       exists st1 st2,
         CALL_ENTER name st = Some st1 /\
         nth_error (stack st1) (List.length (stack st))
           = Some (mk_locals name (in_call st name) (MAGIC name)) /\
         in_call st1 name = Some (List.length (stack st)) /\
         deref st (List.length (stack st)) = None /\
         deref st1 (List.length (stack st)) = Some (MAGIC name) /\
         (forall other, other <> name -> in_call st1 other = in_call st other) /\
         CALL_CHECK name st1 = true /\
         CALL_LEAVE name st1 = Some st2 /\
         in_call st2 name = in_call st name /\
         scope_exit st2 = st) /\
    (enter_assertion name st = true ->
       forall n, nested name n st = Some st) /\
    (in_call st name = None ->
       enter_enter_leave_leave name st = Some st /\
       CALL_CHECK name st = false).
Proof.
  intros name st. split; [|split; [|split]].
  - unfold CALL_CHECK. destruct (in_call st name); split; congruence.
  - intro Ha.
    pose proof (CALL_ENTER_ok name st Ha) as He.
    destruct (CALL_LEAVE_after_enter name st _ He) as (st2 & Hl & Hx).
    eexists _, st2. split; [exact He|].
    rewrite in_call_set_same. unfold deref.
    rewrite stack_set_in_call. cbn [declare stack].
    rewrite nth_error_last.
    replace (nth_error (stack st) (List.length (stack st))) with (@None locals)
      by (symmetry; apply nth_error_None; lia).
    repeat split; auto.
    + intros other Hne. rewrite in_call_set_other by assumption.
      destruct other; reflexivity.
    + unfold CALL_CHECK. rewrite in_call_set_same. reflexivity.
    + rewrite <- Hx. destruct name; reflexivity.
  - intros Ha n. apply nested_returns. assumption.
  - intro Hnull.
    assert (Ha : enter_assertion name st = true)
      by (unfold enter_assertion; rewrite Hnull; reflexivity).
    split; [|unfold CALL_CHECK; rewrite Hnull; reflexivity].
    unfold enter_enter_leave_leave.
    destruct (CALL_ENTER name st) as [s1|] eqn:He1;
      [|rewrite (CALL_ENTER_ok name st Ha) in He1; discriminate].
    pose proof (entered_assertion name st s1 He1) as Ha1.
    destruct (CALL_ENTER name s1) as [s2|] eqn:He2;
      [|rewrite (CALL_ENTER_ok name s1 Ha1) in He2; discriminate].
    destruct (CALL_LEAVE_after_enter name s1 s2 He2) as (s3 & Hl3 & Hx3).
    rewrite Hl3, Hx3.
    destruct (CALL_LEAVE_after_enter name st s1 He1) as (s4 & Hl4 & Hx4).
    rewrite Hl4, Hx4. reflexivity.
Qed.

(** The theorem on a fresh object and the name xConnect. *)
Lemma call_enter_leave_lifo_witness :
  enter_enter_leave_leave xConnect fresh_object = Some fresh_object /\
  CALL_CHECK xConnect fresh_object = false /\
  nested xConnect 3 fresh_object = Some fresh_object.
Proof.
  pose proof (call_enter_leave_lifo xConnect fresh_object) as (_ & _ & Hn & Hs).
  destruct Hs as [H1 H2]; [reflexivity|].
  split; [exact H1|]. split; [exact H2|].
  apply Hn. reflexivity.
Defined.

(** Inside the two nested callbacks the slot is active, and a callback
    on xUpdate in between does not disturb xConnect. *)
Example slot_active_while_entered :
  exists s1 s2 s3,
    CALL_ENTER xConnect fresh_object = Some s1 /\ CALL_CHECK xConnect s1 = true /\
    CALL_ENTER xUpdate s1 = Some s2 /\ CALL_CHECK xConnect s2 = true /\
    CALL_CHECK xUpdate s2 = true /\
    CALL_LEAVE xUpdate s2 = Some s3 /\ scope_exit s3 = s1 /\
    CALL_CHECK xUpdate s1 = false.
Proof. do 3 eexists. repeat split. Qed.

End CallTrackFacts.

(** ** Value conversion *)

Module MarshalFacts.
Import Marshal.

Lemma skipn_new (A : Type) (l r : list A) : skipn (List.length l) (l ++ r) = r.
Proof.
  rewrite skipn_app, skipn_all, Nat.sub_diag. reflexivity.
Qed.

(** The function, one step unfolded. *)
Lemma convert_value_to_pyobject_eq
    (value : sqlite3_value) (icp ncp : bool) (h : host) :
  convert_value_to_pyobject value icp ncp h =
    if ncp && sqlite3_value_nochange value then (Ref apsw_no_change_object, h)
    else if sqlite3_value_type value =? SQLITE_INTEGER then
      PyLong_FromLongLong (sqlite3_value_int64 value) h
    else if sqlite3_value_type value =? SQLITE_FLOAT then
      PyFloat_FromDouble (sqlite3_value_double value) h
    else if sqlite3_value_type value =? SQLITE_TEXT then
      PyUnicode_FromStringAndSize (sqlite3_value_blob value) h
    else if sqlite3_value_type value =? SQLITE_BLOB then
      PyBytes_FromStringAndSize (sqlite3_value_blob value) h
    else if negb icp then (Ref Py_None, h)
    else
      let h := emit (Ev_vtab_in_first (fst (sqlite3_vtab_in_first value))) h in
      if negb (fst (sqlite3_vtab_in_first value) =? SQLITE_OK) then (Ref Py_None, h)
      else
        let (set, h) := PySet_New h in
        match set with
        | None => (Null memory_error, h)
        | Some set => in_loop convert_value_to_pyobject_not_in (vtab_in value) set h
        end.
Proof. destruct value; reflexivity. Qed.

Ltac scalar_cases value :=
  destruct (sqlite3_value_type value =? SQLITE_INTEGER);
  [|destruct (sqlite3_value_type value =? SQLITE_FLOAT);
    [|destruct (sqlite3_value_type value =? SQLITE_TEXT);
      [|destruct (sqlite3_value_type value =? SQLITE_BLOB)]]].

Lemma alloc_log (h : host) : log (snd (alloc h)) = log h.
Proof. unfold alloc. destruct (faults h); reflexivity. Qed.

Lemma alloc_no_faults (h : host) : faults h = [] -> alloc h = (true, h).
Proof. unfold alloc. intros ->. reflexivity. Qed.

(** With constraint mode off the conversion asks the engine nothing and
    logs nothing. *)
Lemma not_in_log (value : sqlite3_value) (ncp : bool) (h : host) :
  log (snd (convert_value_to_pyobject value false ncp h)) = log h.
Proof.
  rewrite convert_value_to_pyobject_eq.
  destruct (ncp && sqlite3_value_nochange value); [reflexivity|].
  unfold PyLong_FromLongLong, PyFloat_FromDouble, PyUnicode_FromStringAndSize,
         PyBytes_FromStringAndSize.
  pose proof (alloc_log h) as Ha.
  scalar_cases value; cbn [negb];
    destruct (alloc h) as [ok h1]; cbn in Ha |- *; auto.
Qed.

(** Without allocation failures an element converts to
    [element_object] and the host is left as it was. *)
Lemma element_converts (value : sqlite3_value) (h : host) :
  faults h = [] ->
  convert_value_to_pyobject_not_in value h = (element_object value, h).
Proof.
  intro Hf. unfold element_object, convert_value_to_pyobject_not_in.
  rewrite !convert_value_to_pyobject_eq. cbn [andb negb].
  unfold PyLong_FromLongLong, PyFloat_FromDouble, PyUnicode_FromStringAndSize,
         PyBytes_FromStringAndSize.
  rewrite (alloc_no_faults h Hf), (alloc_no_faults no_faults eq_refl).
  scalar_cases value; reflexivity.
Qed.

Lemma element_object_hashable (value : sqlite3_value) (o : PyObject) :
  element_object value = Ref o -> hashable o = true.
Proof.
  unfold element_object. rewrite convert_value_to_pyobject_eq. cbn [andb negb].
  unfold PyLong_FromLongLong, PyFloat_FromDouble, PyUnicode_FromStringAndSize,
         PyBytes_FromStringAndSize.
  rewrite (alloc_no_faults no_faults eq_refl).
  scalar_cases value; cbn [fst]; try (intro H; inversion H; reflexivity).
  destruct (utf8_valid (sqlite3_value_blob value));
    intro H; inversion H; reflexivity.
Qed.

(** *** Equality of members *)

Lemma py_eqb_true (a b : PyObject) :
  py_eqb a b = true <->
  py_key a = py_key b /\ py_key a <> K_nan /\ py_key a <> K_unhashable.
Proof.
  unfold py_eqb.
  destruct (py_key a) eqn:Ka, (py_key b) eqn:Kb;
    try (split; [discriminate | intros (H & Hn & Hu); congruence]);
    destruct (pykey_eq_dec _ _) as [E|E];
    (split; [intro H; try discriminate; repeat split; congruence
            |intros (H & Hn & Hu); congruence]).
Qed.

Lemma py_eqb_trans (a b c : PyObject) :
  py_eqb a b = true -> py_eqb b c = true -> py_eqb a c = true.
Proof.
  rewrite !py_eqb_true. intros (H1 & H2 & H3) (H4 & _ & _).
  repeat split; congruence.
Qed.

Lemma py_eqb_sym (a b : PyObject) : py_eqb a b = py_eqb b a.
Proof.
  destruct (py_eqb a b) eqn:E1, (py_eqb b a) eqn:E2; try reflexivity.
  - apply py_eqb_true in E1 as (H1 & H2 & H3).
    assert (py_eqb b a = true) by (apply py_eqb_true; repeat split; congruence).
    congruence.
  - apply py_eqb_true in E2 as (H1 & H2 & H3).
    assert (py_eqb a b = true) by (apply py_eqb_true; repeat split; congruence).
    congruence.
Qed.

Lemma set_contains_app (s1 s2 : list PyObject) (key : PyObject) :
  set_contains (s1 ++ s2) key = set_contains s1 key || set_contains s2 key.
Proof. unfold set_contains. apply existsb_app. Qed.

Lemma set_contains_equal (set : list PyObject) (v key : PyObject) :
  set_contains set v = true -> py_eqb v key = true -> set_contains set key = true.
Proof.
  unfold set_contains. rewrite !existsb_exists.
  intros (m & Hin & Hm) Hv. exists m. split; [assumption|].
  eapply py_eqb_trans; eassumption.
Qed.

Lemma add_member_contains (set : list PyObject) (v key : PyObject) :
  set_contains (add_member set v) key = set_contains set key || py_eqb v key.
Proof.
  unfold add_member. destruct (set_contains set v) eqn:Hc.
  - destruct (py_eqb v key) eqn:Hv; [|rewrite orb_false_r; reflexivity].
    rewrite (set_contains_equal set v key Hc Hv). reflexivity.
  - rewrite set_contains_app. cbn. rewrite orb_false_r. reflexivity.
Qed.

Lemma no_equal_pair_app (set : list PyObject) (v : PyObject) :
  no_equal_pair (set ++ [v]) = no_equal_pair set && negb (set_contains set v).
Proof.
  induction set as [|m set IH]; cbn.
  - reflexivity.
  - rewrite IH, existsb_app. cbn. rewrite orb_false_r.
    unfold set_contains.
    destruct (existsb (fun m' => py_eqb m m') set), (py_eqb m v),
             (no_equal_pair set), (existsb (fun m0 => py_eqb m0 v) set);
      reflexivity.
Qed.

Lemma add_member_no_equal_pair (set : list PyObject) (v : PyObject) :
  no_equal_pair set = true -> no_equal_pair (add_member set v) = true.
Proof.
  intro Hs. unfold add_member. destruct (set_contains set v) eqn:Hc.
  - assumption.
  - rewrite no_equal_pair_app, Hs, Hc. reflexivity.
Qed.

Lemma add_member_In (set : list PyObject) (v m : PyObject) :
  In m (add_member set v) -> In m set \/ m = v.
Proof.
  unfold add_member. destruct (set_contains set v).
  - auto.
  - rewrite in_app_iff. cbn. intuition.
Qed.

(** The members after adding [objs] one by one. *)
Lemma fold_add_member (objs : list PyObject) :
  forall set,
    no_equal_pair set = true ->
    no_equal_pair (fold_left add_member objs set) = true /\
    (forall m, In m (fold_left add_member objs set) -> In m set \/ In m objs) /\
    (forall key, set_contains (fold_left add_member objs set) key
                 = set_contains set key || existsb (fun o => py_eqb o key) objs).
Proof.
  induction objs as [|o objs IH]; intros set Hs; cbn [fold_left existsb].
  - repeat split; auto. intro key. rewrite orb_false_r. reflexivity.
  - destruct (IH (add_member set o) (add_member_no_equal_pair set o Hs))
      as (Hn & Hin & Hc).
    split; [assumption|]. split.
    + intros m Hm. cbn [In]. destruct (Hin m Hm) as [H|H]; [|auto].
      destruct (add_member_In set o m H); auto.
    + intro key. rewrite Hc, add_member_contains, orb_assoc. reflexivity.
Qed.

(** Membership does not depend on the order of the elements. *)
Lemma members_order_irrelevant (objs objs' : list PyObject) (key : PyObject) :
  Permutation objs objs' ->
  set_contains (fold_left add_member objs []) key
  = set_contains (fold_left add_member objs' []) key.
Proof.
  intro Hp.
  destruct (fold_add_member objs [] eq_refl) as (_ & _ & H1).
  destruct (fold_add_member objs' [] eq_refl) as (_ & _ & H2).
  rewrite H1, H2. clear H1 H2. cbn [set_contains existsb orb].
  induction Hp; cbn [existsb].
  - reflexivity.
  - rewrite IHHp. reflexivity.
  - destruct (py_eqb x key), (py_eqb y key); reflexivity.
  - congruence.
Qed.

(** *** The loop *)

Lemma PySet_Add_log (set : list PyObject) (v : PyObject) (h : host) :
  log (snd (PySet_Add set v h)) = log h.
Proof.
  unfold PySet_Add. destruct (negb (hashable v)); [reflexivity|].
  destruct (set_contains set v); [reflexivity|].
  pose proof (alloc_log h). destruct (alloc h); assumption.
Qed.


Lemma PySet_Add_no_faults (set : list PyObject) (v : PyObject) (h : host) :
  faults h = [] -> hashable v = true ->
  PySet_Add set v h = (inl (add_member set v), h).
Proof.
  intros Hf Hh. unfold PySet_Add, add_member. rewrite Hh. cbn [negb].
  destruct (set_contains set v); [reflexivity|].
  rewrite (alloc_no_faults h Hf). reflexivity.
Qed.


Lemma failure_next (res : Z) : failure (Ev_vtab_in_next res) = in_next_failed res.
Proof.
  unfold failure, in_next_failed.
  destruct (res =? SQLITE_OK), (res =? SQLITE_DONE); reflexivity.
Qed.

(** Nothing fails: the loop walks the whole list and returns the set. *)
Lemma in_loop_no_failure (elements : list sqlite3_value) :
  forall (objs set : list PyObject) (h : host),
    faults h = [] ->
    map element_object elements = map Ref objs ->
    exists h',
      in_loop convert_value_to_pyobject_not_in (in_list_answers elements) set h
        = (Ref (PySet (fold_left add_member objs set)), h') /\
      faults h' = [] /\
      log h' = log h ++ iteration_log objs.
Proof.
  induction elements as [|e rest IH]; intros objs set h Hf Hmap.
  - destruct objs; [|discriminate]. cbn.
    exists h. rewrite app_nil_r. auto.
  - destruct objs as [|o objs]; [discriminate|].
    cbn [map] in Hmap. inversion Hmap as [[Ho Hrest]].
    unfold in_list_answers. cbn [map app in_loop].
    rewrite (element_converts e h Hf), Ho.
    rewrite PySet_Add_no_faults;
      [|assumption|apply (element_object_hashable e); assumption].
    fold (in_list_answers rest).
    assert (Hres : fst (sqlite3_vtab_in_next (in_list_answers rest))
                   = match objs with [] => SQLITE_DONE | _ => SQLITE_OK end).
    { destruct rest, objs; try discriminate; reflexivity. }
    rewrite Hres.
    replace (in_next_failed (match objs with [] => SQLITE_DONE | _ => SQLITE_OK end))
      with false by (destruct objs; reflexivity).
    edestruct (IH objs (add_member set o)) as (h' & Hrun & Hf' & Hlog);
      [|exact Hrest|].
    2: { exists h'. split; [exact Hrun|]. split; [exact Hf'|].
         rewrite Hlog. cbn [emit log iteration_log].
         repeat rewrite <- app_assoc. reflexivity. }
    exact Hf.
Qed.






(** *** The conversion *)

Lemma new_log_app (h h' : host) (evs : list event) :
  log h' = log h ++ evs -> new_log h h' = evs.
Proof. intro H. unfold new_log. rewrite H. apply skipn_new. Qed.

Lemma null_case (value : sqlite3_value) :
  sqlite3_value_type value = SQLITE_NULL ->
  (sqlite3_value_type value =? SQLITE_INTEGER) = false /\
  (sqlite3_value_type value =? SQLITE_FLOAT) = false /\
  (sqlite3_value_type value =? SQLITE_TEXT) = false /\
  (sqlite3_value_type value =? SQLITE_BLOB) = false.
Proof. intros ->. repeat split; reflexivity. Qed.

(** C3: a NULL-typed value that is the head of an IN list, converted
    with the no-change test not firing, no allocation failing and every
    element convertible.  With constraint mode on and at least one
    element, the engine is asked for the first element and then for the
    next one after each element until it answers SQLITE_DONE; each
    element is converted with both modes off; the result is a set whose
    members are converted elements, no two of them equal, and in which
    a key is found exactly when it equals some converted element.  With
    constraint mode on and no element, the first request is answered
    SQLITE_DONE and the result is None, not a set.  With constraint
    mode off the value converts to None and the engine is not asked. *)
Theorem in_list_converts_to_set :
  forall (value : sqlite3_value) (elements : list sqlite3_value)
         (objs : list PyObject) (ncp : bool) (h : host),
    sqlite3_value_type value = SQLITE_NULL ->
    vtab_in value = in_list_answers elements ->
    ncp && sqlite3_value_nochange value = false ->
    faults h = [] ->
    map element_object elements = map Ref objs ->
    (elements <> [] ->
     exists members h',
       convert_value_to_pyobject value true ncp h = (Ref (PySet members), h') /\
       new_log h h' = Ev_vtab_in_first SQLITE_OK :: iteration_log objs /\
       no_equal_pair members = true /\
       (forall m, In m members -> In m objs) /\
       (forall key, set_contains members key = existsb (fun o => py_eqb o key) objs)) /\
    (elements = [] ->
     convert_value_to_pyobject value true ncp h
       = (Ref Py_None, emit (Ev_vtab_in_first SQLITE_DONE) h)) /\
    convert_value_to_pyobject value false ncp h = (Ref Py_None, h).
Proof.
  intros value elements objs ncp h Htype Hin Hnc Hf Hmap.
  destruct (null_case value Htype) as (H1 & H2 & H3 & H4).
  rewrite !convert_value_to_pyobject_eq, Hnc, H1, H2, H3, H4.
  cbn [negb]. unfold sqlite3_vtab_in_first. rewrite Hin.
  split; [|split; [|reflexivity]].
  - intro Hne. destruct elements as [|first rest]; [congruence|].
    cbn [in_list_answers map app fst]. cbn [Z.eqb SQLITE_OK negb].
    unfold PySet_New. rewrite alloc_no_faults by exact Hf.
    fold (in_list_answers rest).
    change ((SQLITE_OK, Some first) :: in_list_answers rest)
      with (in_list_answers (first :: rest)).
    destruct (in_loop_no_failure (first :: rest) objs []
                (emit (Ev_vtab_in_first 0) h) Hf Hmap) as (h' & Hrun & _ & Hlog).
    destruct (fold_add_member objs [] eq_refl) as (Hn & Hm & Hc).
    exists (fold_left add_member objs []), h'.
    split; [exact Hrun|]. split.
    { apply new_log_app. rewrite Hlog. cbn [emit log].
      rewrite <- app_assoc. reflexivity. }
    split; [exact Hn|]. split.
    { intros m Hi. destruct (Hm m Hi) as [[]|]; assumption. }
    intro key. rewrite Hc. reflexivity.
  - intros ->. reflexivity.
Qed.

(** The list [1, "a", NULL, 1] becomes the set {1, "a", None}. *)
Lemma in_list_converts_to_set_witness :
  (exists members h',
     convert_value_to_pyobject example_in_list true false no_faults
       = (Ref (PySet members), h') /\
     new_log no_faults h'
       = Ev_vtab_in_first SQLITE_OK
         :: iteration_log [PyLong 1; PyUnicode [x61]; Py_None; PyLong 1] /\
     no_equal_pair members = true /\
     (forall m, In m members -> In m [PyLong 1; PyUnicode [x61]; Py_None; PyLong 1]) /\
     (forall key, set_contains members key
        = existsb (fun o => py_eqb o key) [PyLong 1; PyUnicode [x61]; Py_None; PyLong 1])) /\
  convert_value_to_pyobject example_in_list false false no_faults
    = (Ref Py_None, no_faults).
Proof.
  destruct (in_list_converts_to_set example_in_list
              [int_value 1; text_value [x61]; null_value; int_value 1]
              [PyLong 1; PyUnicode [x61]; Py_None; PyLong 1] false no_faults)
    as (Hset & _ & Hoff); try reflexivity.
  split; [apply Hset; discriminate|exact Hoff].
Defined.

(** C3 as stated fails for the head of an empty IN list: with
    constraint mode on, the first request is answered SQLITE_DONE and
    the conversion gives None; no set is returned. *)
Lemma empty_in_list_converts_to_none :
  sqlite3_value_type (in_list []) = SQLITE_NULL /\
  vtab_in (in_list []) = in_list_answers [] /\
  convert_value_to_pyobject (in_list []) true false no_faults
    = (Ref Py_None, mk_host [] [Ev_vtab_in_first SQLITE_DONE]) /\
  forall members h',
    convert_value_to_pyobject (in_list []) true false no_faults
      <> (Ref (PySet members), h').
Proof.
  repeat split. intros members h'. discriminate.
Qed.

Example example_in_list_result :
  fst (convert_value_to_pyobject example_in_list true false no_faults)
  = Ref (PySet [PyLong 1; PyUnicode [x61]; Py_None]).
Proof. reflexivity. Qed.

(** An int and a float of the same value are one member. *)
Example one_and_one_point_zero :
  fst (convert_value_to_pyobject
         (in_list [int_value 1; mk_value SQLITE_FLOAT false 0 0x3FF0000000000000 [] []])
         true false no_faults)
  = Ref (PySet [PyLong 1]).
Proof. reflexivity. Qed.

(** A list the engine reports as empty answers the first request with
    SQLITE_DONE, and the conversion gives None. *)
Example empty_in_list_result :
  fst (convert_value_to_pyobject (in_list []) true false no_faults) = Ref Py_None.
Proof. reflexivity. Qed.

(** C4: a value the engine reports as unchanged converts to the
    no-change object when no-change mode is on.  With the mode off the
    report is not looked at: the value converts as the same value
    without the report does, and a NULL that is no IN list gives
    None. *)
Theorem nochange_sentinel_only_in_nochange_mode :
  forall (value : sqlite3_value) (icp : bool) (h : host),
    sqlite3_value_nochange value = true ->
    convert_value_to_pyobject value icp true h = (Ref apsw_no_change_object, h) /\
    convert_value_to_pyobject value icp false h
      = convert_value_to_pyobject (with_nochange false value) icp false h /\
    (sqlite3_value_type value = SQLITE_NULL ->
     fst (sqlite3_vtab_in_first value) <> SQLITE_OK ->
     fst (convert_value_to_pyobject value icp false h) = Ref Py_None).
Proof.
  intros value icp h Hnc. split; [|split].
  - rewrite convert_value_to_pyobject_eq, Hnc. reflexivity.
  - rewrite !convert_value_to_pyobject_eq. reflexivity.
  - intros Htype Hfirst.
    destruct (null_case value Htype) as (H1 & H2 & H3 & H4).
    rewrite convert_value_to_pyobject_eq, H1, H2, H3, H4. cbn [andb].
    apply Z.eqb_neq in Hfirst. rewrite Hfirst.
    destruct icp; reflexivity.
Qed.

(** An untouched column of an update: the no-change object with the
    mode on, None with it off. *)
Lemma nochange_sentinel_only_in_nochange_mode_witness :
  convert_value_to_pyobject untouched_column false true no_faults
    = (Ref apsw_no_change_object, no_faults) /\
  fst (convert_value_to_pyobject untouched_column false false no_faults)
    = Ref Py_None.
Proof.
  destruct (nochange_sentinel_only_in_nochange_mode untouched_column false no_faults)
    as (H1 & _ & H3); [reflexivity|].
  split; [exact H1|]. apply H3; [reflexivity|discriminate].
Defined.








Example bad_text_in_list_run :
  convert_value_to_pyobject bad_text_in_list true false no_faults
  = (Null (mk_exception PyExc_UnicodeDecodeError "invalid utf-8"),
     mk_host []
       [Ev_vtab_in_first 0; Ev_element (Ref (PyLong 1)); Ev_PySet_Add true;
        Ev_Py_CLEAR_v (PyLong 1); Ev_vtab_in_next 0;
        Ev_element (Null (mk_exception PyExc_UnicodeDecodeError "invalid utf-8"));
        Ev_Py_XDECREF_v None; Ev_Py_XDECREF_set [PyLong 1]]).
Proof. reflexivity. Qed.

Example broken_in_list_run :
  convert_value_to_pyobject broken_in_list true false no_faults
  = (Null (mk_exception PyExc_ValueError "Failed in sqlite3_vtab_in_next result 7"),
     mk_host []
       [Ev_vtab_in_first 0; Ev_element (Ref (PyLong 1)); Ev_PySet_Add true;
        Ev_Py_CLEAR_v (PyLong 1); Ev_vtab_in_next 0;
        Ev_element (Ref (PyLong 2)); Ev_PySet_Add true;
        Ev_Py_CLEAR_v (PyLong 2); Ev_vtab_in_next 7;
        Ev_Py_XDECREF_v None; Ev_Py_XDECREF_set [PyLong 1; PyLong 2]]).
Proof. reflexivity. Qed.

(** An allocation failure while adding the second element takes the
    same exit, with [v] still held. *)
Example allocation_failure_run :
  convert_value_to_pyobject example_in_list true false
    (mk_host [false; false; false; false; true] [])
  = (Null memory_error,
     mk_host []
       [Ev_vtab_in_first 0; Ev_element (Ref (PyLong 1)); Ev_PySet_Add true;
        Ev_Py_CLEAR_v (PyLong 1); Ev_vtab_in_next 0;
        Ev_element (Ref (PyUnicode [x61])); Ev_PySet_Add false;
        Ev_Py_XDECREF_v (Some (PyUnicode [x61])); Ev_Py_XDECREF_set [PyLong 1]]).
Proof. reflexivity. Qed.

(** C10: the no-change test comes first.  In no-change mode a value the
    engine reports as unchanged converts to the no-change object
    whatever its type and whatever the constraint mode; the host is
    left as it was, so the engine is not asked for an IN list and
    nothing is logged. *)
Theorem nochange_test_precedes_type_and_in_list :
  forall (value : sqlite3_value) (icp : bool) (h : host),
    sqlite3_value_nochange value = true ->
    convert_value_to_pyobject value icp true h = (Ref apsw_no_change_object, h) /\
    new_log h (snd (convert_value_to_pyobject value icp true h)) = [].
Proof.
  intros value icp h Hnc.
  rewrite convert_value_to_pyobject_eq, Hnc. cbn [andb snd].
  split; [reflexivity|]. apply new_log_app. rewrite app_nil_r. reflexivity.
Qed.

(** An integer reported as unchanged that also answers as an IN list,
    converted with both modes on. *)
Lemma nochange_test_precedes_type_and_in_list_witness :
  convert_value_to_pyobject unchanged_integer true true no_faults
    = (Ref apsw_no_change_object, no_faults) /\
  new_log no_faults (snd (convert_value_to_pyobject unchanged_integer true true no_faults))
    = [].
Proof.
  apply (nochange_test_precedes_type_and_in_list unchanged_integer true no_faults).
  reflexivity.
Defined.

End MarshalFacts.

(** ** Reporting exceptions that cannot be raised *)

Module UnraisableFacts.
Import Unraisable UnraisableMore.

Lemma PyTraceBack_Here_depth (f : frame) (st : interp) :
  recursion_depth (PyTraceBack_Here f st) = recursion_depth st /\
  recursion_limit (PyTraceBack_Here f st) = recursion_limit st.
Proof. unfold PyTraceBack_Here. destruct (err st); split; reflexivity. Qed.

(** The loop adds the frames of the thread to the traceback of the
    pending exception and changes nothing else. *)
Lemma fill_traceback_completes (fs : list frame) :
  forall st e,
    err st = Some e ->
    let st' := fold_left (fun st f => PyTraceBack_Here f st) fs st in
    err st' = Some (completed e fs) /\
    recursion_depth st' = recursion_depth st /\
    recursion_limit st' = recursion_limit st /\
    faults st' = faults st /\
    frames st' = frames st.
Proof.
  induction fs as [|f fs IH]; intros st e He; cbn [fold_left].
  - unfold completed. rewrite app_nil_r. destruct e. auto.
  - assert (Hh : err (PyTraceBack_Here f st)
                 = Some (mk_raised (err_type e) (err_value e) (err_traceback e ++ [f])))
      by (unfold PyTraceBack_Here; rewrite He; reflexivity).
    destruct (IH _ _ Hh) as (H1 & H2 & H3 & H4 & H5).
    cbn zeta in H1, H2, H3, H4, H5. rewrite H1, H2, H3, H4, H5.
    unfold completed. cbn [err_type err_value err_traceback].
    rewrite <- app_assoc. unfold PyTraceBack_Here. rewrite He. auto.
Qed.

Lemma fill_traceback_pending (st : interp) (e : raised) :
  err st = Some e ->
  err (fill_traceback st) = Some (completed e (frames st)) /\
  recursion_depth (fill_traceback st) = recursion_depth st /\
  recursion_limit (fill_traceback st) = recursion_limit st /\
  faults (fill_traceback st) = faults st /\
  frames (fill_traceback st) = frames st.
Proof. intro He. apply (fill_traceback_completes (frames st) st e He). Qed.

(** The log step is absent or one sqlite3_log, and leaves nothing
    pending. *)
Lemma tell_sqlite3_log_shape (e : raised) (st : interp) :
  err st = None ->
  (fst (tell_sqlite3_log e st) = [] \/
   exists type_name utf8,
     fst (tell_sqlite3_log e st) = [Step_sqlite3_log type_name utf8]) /\
  err (snd (tell_sqlite3_log e st)) = None /\
  recursion_depth (snd (tell_sqlite3_log e st)) = recursion_depth st.
Proof.
  intro Hn. unfold tell_sqlite3_log.
  destruct (err_value e); cbn; [|auto].
  split; [right; eexists _, _; reflexivity|]. auto.
Qed.

Lemma try_hookobject_shape (ho : option hookobj) (e : raised) (st : interp) :
  block_shape hookobject_excepthook (try_hookobject ho e st).
Proof.
  unfold try_hookobject, block_shape.
  destruct ho as [[[hook|]]|]; cbn [excepthook_attr]; try (left; split; reflexivity).
  right. unfold PyObject_CallFunction.
  destruct (hook _ (PyErr_Clear st)) as [[ok inner] st']. cbn.
  do 3 eexists. split; reflexivity.
Qed.

Lemma try_unraisablehook_shape (sys : sys_module) (e : raised) (st : interp) :
  block_shape sys_unraisablehook (try_unraisablehook sys e st).
Proof.
  unfold try_unraisablehook, block_shape.
  destruct (unraisablehook sys) as [hook|]; [|left; split; reflexivity].
  unfold PyStructSequence_New, PyErr_Clear. cbn [faults with_err].
  destruct (faults st) as [|[|] fs]; cbn; try (left; split; reflexivity);
    right; unfold PyObject_CallFunction;
    match goal with |- context [hook ?a ?s] =>
      destruct (hook a s) as [[ok inner] st'] end;
    cbn; do 3 eexists; split; reflexivity.
Qed.

Lemma try_excepthook_shape (sys : sys_module) (e : raised) (st : interp) :
  block_shape sys_excepthook (try_excepthook sys e st).
Proof.
  unfold try_excepthook, block_shape.
  destruct (excepthook sys) as [hook|]; [|left; split; reflexivity].
  right. unfold PyObject_CallFunction.
  destruct (hook _ (PyErr_Clear st)) as [[ok inner] st']. cbn.
  do 3 eexists. split; reflexivity.
Qed.

Lemma finally_clean (can_recurse : bool) (st : interp) :
  err (finally can_recurse st) = None.
Proof. destruct can_recurse; reflexivity. Qed.

(** PyErr_Print with [p] pending: one step, in which [p] goes to
    sys.excepthook or is displayed; a hook that keeps the depth leaves
    the depth as it was. *)
Lemma PyErr_Print_shape (sys : sys_module) (st : interp) (p : raised) :
  err st = Some p ->
  exists inner,
    fst (PyErr_Print sys st) = [Step_PyErr_Print p inner] /\
    handed_to_excepthook sys p inner /\
    existsb (calls hookobject_excepthook) inner = false /\
    existsb (calls sys_unraisablehook) inner = false /\
    existsb is_log inner = false /\
    (balanced_opt (excepthook sys) ->
     recursion_depth (snd (PyErr_Print sys st)) = recursion_depth st /\
     recursion_limit (snd (PyErr_Print sys st)) = recursion_limit st).
Proof.
  intro He. unfold PyErr_Print, handed_to_excepthook, PyObject_CallFunction.
  rewrite He.
  destruct (excepthook sys) as [hook|]; cbn [balanced_opt].
  - pose proof (fun Hb : balanced hook =>
                  Hb (Args_OOO (err_type p) (err_value p) (err_traceback p))
                     (PyErr_Clear st)) as Hb.
    destruct (hook _ (PyErr_Clear st)) as [[[|] done] st']; cbn [fst snd app] in *.
    + eexists. split; [reflexivity|]. split.
      { exists (PyErr_Clear st), done, true. split; reflexivity. }
      repeat split; try reflexivity; apply Hb; assumption.
    + eexists. split; [reflexivity|]. split.
      { exists (PyErr_Clear st), done, false. split; [reflexivity|].
        eexists _, _. split; reflexivity. }
      repeat split; try reflexivity; apply Hb; assumption.
  - eexists. split; [reflexivity|]. split.
    { exists (PyErr_Clear st). split; reflexivity. }
    repeat split; reflexivity.
Qed.

Ltac block_cases H :=
  unfold block_shape in H; cbn [fst snd] in H;
  let Hok := fresh "Hok" in
  let Htr := fresh "Htr" in
  let Hm := fresh "Hm" in
  destruct H as [(Hok & Htr)|(? & ? & ? & Htr & Hm)]; subst.

Ltac close_case :=
  eexists _, _; split; [reflexivity|];
  cbn [hd_error app map rank increasing Nat.ltb Nat.leb andb
       stops_at_first_success succeeded ends_in_success_or_display rev
       is_display orb forallb];
  unfold no_pending, pending_at; cbn [err PyErr_Clear with_err];
  repeat match goal with H : err _ = None |- _ => rewrite H; clear H end;
  repeat split; try reflexivity; apply finally_clean.

(** In every case: the function returns, its steps come in the order of
    their ranks, nothing follows a hook that returned a result, every
    hook and PyErr_Display is called with nothing pending, and nothing
    is pending on return. *)
Lemma dispatcher_order (sys : sys_module) (hookobject : option hookobj)
    (st : interp) (e : raised) :
  err st = Some e ->
  exists steps st',
    apsw_write_unraisable sys hookobject st = Some (steps, st') /\
    hd_error steps = Some (Step_traceback (frames st)) /\
    increasing (map rank steps) = true /\
    stops_at_first_success steps = true /\
    ends_in_success_or_display steps = true /\
    forallb no_pending steps = true /\
    err st' = None.
Proof.
  intro He.
  unfold apsw_write_unraisable. rewrite He.
  destruct (fill_traceback_pending st e He) as (He' & _).
  rewrite He'. unfold Py_EnterRecursiveCall.
  destruct (recursion_depth (PyErr_Clear (fill_traceback st))
            <? recursion_limit (PyErr_Clear (fill_traceback st)))%nat;
    cbn [negb].
  2: { destruct (PyErr_Print_shape sys
                   (with_err (Some recursion_error) (PyErr_Clear (fill_traceback st)))
                   recursion_error eq_refl) as (inner & Hpr & _).
       destruct (PyErr_Print sys _) as [tr stp]. cbn [fst] in Hpr. subst tr.
       close_case. }
  set (st1 := with_depth _ _).
  destruct (tell_sqlite3_log_shape (completed e (frames st)) st1 eq_refl)
    as (Htr1 & _ & _).
  destruct (tell_sqlite3_log (completed e (frames st)) st1) as [tr1 st2].
  cbn [fst] in Htr1.
  pose proof (try_hookobject_shape hookobject (completed e (frames st)) st2) as H2.
  destruct (try_hookobject hookobject (completed e (frames st)) st2)
    as [[ok2 tr2] st3].
  destruct Htr1 as [->|(type_name & utf8 & ->)]; block_cases H2;
    try (destruct ok2; [close_case|]);
    pose proof (try_unraisablehook_shape sys (completed e (frames st)) st3) as H3;
    destruct (try_unraisablehook sys (completed e (frames st)) st3)
      as [[ok3 tr3] st4];
    block_cases H3;
    try (destruct ok3; [close_case|]);
    pose proof (try_excepthook_shape sys (completed e (frames st)) st4) as H4;
    destruct (try_excepthook sys (completed e (frames st)) st4)
      as [[ok4 tr4] st5];
    block_cases H4;
    try (destruct ok4; [close_case|]);
    unfold PyErr_Display; close_case.
Qed.

Ltac chain_norm :=
  unfold PyErr_Clear, with_err;
  cbn [fst snd app registered arguments chain_id made_first
       nothing_made_first err recursion_depth
       recursion_limit frames faults excepthook_attr].

Ltac chain_cases :=
  repeat (chain_norm;
          match goal with
          | |- context [match ?h ?a ?s with (_, _) => _ end] =>
            destruct (h a s) as [[[|] ?] ?]
          | |- context [match faults ?s with _ => _ end] =>
            destruct (faults s) as [|[|] ?]
          | fa : list bool |- context [match ?x with [] => _ | _ :: _ => _ end] =>
            constr_eq x fa; destruct fa as [|[|] ?]
          end).

(** Entered below the recursion limit, the function completes the
    traceback and then does what the protocol says, one level deeper,
    for the pending exception with the frames of the thread added. *)
Lemma below_limit_runs_protocol (sys : sys_module) (hookobject : option hookobj)
    (st : interp) (e : raised) :
  err st = Some e ->
  (recursion_depth st < recursion_limit st)%nat ->
  apsw_write_unraisable sys hookobject st
  = Some (Step_traceback (frames st)
            :: fst (reporting_protocol sys hookobject (completed e (frames st))
                      (entered st)),
          Py_LeaveRecursiveCall
            (PyErr_Clear
               (snd (reporting_protocol sys hookobject (completed e (frames st))
                       (entered st))))).
Proof.
  intros He Hlim.
  unfold apsw_write_unraisable. rewrite He.
  destruct (fill_traceback_pending st e He) as (He' & Hd & Hl & Hfa & Hfr).
  rewrite He'. unfold Py_EnterRecursiveCall.
  cbn [PyErr_Clear with_err recursion_depth recursion_limit].
  rewrite Hd, Hl.
  replace (recursion_depth st <? recursion_limit st)%nat with true
    by (symmetry; apply Nat.ltb_lt; exact Hlim).
  cbn [negb].
  assert (Hent : with_depth (S (recursion_depth st)) (PyErr_Clear (fill_traceback st))
                 = entered st).
  { unfold with_depth, entered, PyErr_Clear, with_err.
    cbn [err recursion_depth recursion_limit frames faults].
    rewrite Hl, Hfa, Hfr. reflexivity. }
  rewrite Hent. clear Hent.
  generalize (completed e (frames st)) as r. intro r.
  unfold entered.
  generalize (S (recursion_depth st)) (recursion_limit st) (frames st) (faults st).
  intros d l fs fa.
  unfold reporting_protocol, log_mirror, hook_chain, tell_sqlite3_log,
         try_hookobject, try_unraisablehook, try_excepthook,
         PyObject_CallFunction, PyErr_Display, finally.
  cbn [try_in_order registered arguments chain_id made_first].
  destruct (err_value r) as [v|];
    destruct hookobject as [[[h1|]]|];
    destruct (unraisablehook sys) as [h2|];
    destruct (excepthook sys) as [h3|];
    unfold nothing_made_first, PyStructSequence_New;
    chain_cases; chain_norm; reflexivity.
Qed.

Ltac protocol_cases sys hookobject r :=
  unfold reporting_protocol, log_mirror, hook_chain, hook_of;
  cbn [try_in_order registered arguments chain_id made_first];
  destruct (err_value r) as [?v|];
  destruct hookobject as [[[?h|]]|];
  destruct (unraisablehook sys) as [?h|];
  destruct (excepthook sys) as [?h|];
  unfold nothing_made_first, PyStructSequence_New;
  chain_cases; chain_norm.

Ltac find_step :=
  cbn [In]; eauto 12.

(** What the protocol does, started with nothing pending: the log
    entry is made when the exception has a value; the hook of the call
    site is invoked when there is one; sys.unraisablehook is invoked
    when no hook ran before it and its record can be allocated;
    sys.excepthook is invoked unless a hook before it returned a
    result; and when no hook returned a result the last step displays
    the exception. *)
Lemma protocol_runs_every_step (sys : sys_module) (hookobject : option hookobj)
    (r : raised) (d l : nat) (fs : list frame) (fa : list bool) :
  let s0 := mk_interp None d l fs fa in
  let steps := fst (reporting_protocol sys hookobject r s0) in
  (forall v, err_value r = Some v ->
     In (Step_sqlite3_log (Py_TypeName v)
           (match PyObject_Str v with
            | Some text => PyUnicode_AsUTF8 text
            | None => Some "failed to get string of error"%string
            end)) steps) /\
  (forall hook, hook_of hookobject = Some hook ->
     exists inner ok,
       In (Step_call hookobject_excepthook s0
             (Args_OOO (err_type r) (err_value r) (err_traceback r)) inner ok) steps) /\
  (forall hook, unraisablehook sys = Some hook ->
     hook_of hookobject = None -> hd false fa = false ->
     exists made_in inner ok,
       In (Step_call sys_unraisablehook made_in
             (Args_N (mk_unraisable_info (err_type r) (err_value r) (err_traceback r)
                                         None None)) inner ok) steps /\
       err made_in = None) /\
  (forall hook, excepthook sys = Some hook ->
     existsb succeeded steps = true \/
     exists made_in inner ok,
       In (Step_call sys_excepthook made_in
             (Args_OOO (err_type r) (err_value r) (err_traceback r)) inner ok) steps /\
       err made_in = None) /\
  (existsb succeeded steps = false ->
     exists made_in,
       last steps (Step_traceback []) = Step_PyErr_Display made_in r /\
       err made_in = None).
Proof.
  intros s0 steps. subst s0 steps.
  protocol_cases sys hookobject r;
    ((split; [|split; [|split; [|split]]]);
    [ intros v0 Hv0; inversion Hv0; subst; find_step
    | intros hook Hh; try discriminate; eexists _, _; find_step
    | intros hook Hu Hho Hfa; cbn in Hfa; try discriminate;
      eexists _, _, _; (split; [find_step|reflexivity])
    | intros hook Hx; try discriminate;
      first [ left; reflexivity
            | right; eexists _, _, _; (split; [find_step|reflexivity]) ]
    | intro Hnone; cbn in Hnone; try discriminate;
      eexists; split; reflexivity ]).
Qed.

(** C6: with an exception pending the function returns; what it does
    comes in the order traceback, sqlite3_log, hookobject.excepthook,
    sys.unraisablehook, sys.excepthook, display, each at most once;
    nothing follows a hook that returned a result, and the last step is
    such a hook or the display; every hook, and PyErr_Display, is
    called with the error indicator clear; on return the error
    indicator is clear.  Entered below the recursion limit, the steps
    after the traceback are those of the protocol for the pending
    exception with the frames of the thread added to its traceback:
    the log entry is written when the exception has a value, the hook
    of [hookobject] is called when there is one, sys.unraisablehook is
    called when no hook ran before it and its record can be allocated,
    sys.excepthook is called unless a hook before it returned a
    result, and the exception is displayed when no hook returned a
    result. *)
Theorem unraisable_steps_in_order :
  forall (sys : sys_module) (hookobject : option hookobj) (st : interp) (e : raised),
    err st = Some e ->
    exists steps st',
      apsw_write_unraisable sys hookobject st = Some (steps, st') /\
      hd_error steps = Some (Step_traceback (frames st)) /\
      increasing (map rank steps) = true /\
      stops_at_first_success steps = true /\
      ends_in_success_or_display steps = true /\
      forallb no_pending steps = true /\
      err st' = None /\
      ((recursion_depth st < recursion_limit st)%nat ->
       let reported := completed e (frames st) in
       steps = Step_traceback (frames st)
               :: fst (reporting_protocol sys hookobject reported (entered st)) /\
       st' = Py_LeaveRecursiveCall
               (PyErr_Clear
                  (snd (reporting_protocol sys hookobject reported (entered st)))) /\
       (forall v, err_value e = Some v ->
          In (Step_sqlite3_log (Py_TypeName v)
                (match PyObject_Str v with
                 | Some text => PyUnicode_AsUTF8 text
                 | None => Some "failed to get string of error"%string
                 end)) steps) /\
       (forall hook, hook_of hookobject = Some hook ->
          exists inner ok,
            In (Step_call hookobject_excepthook (entered st)
                  (Args_OOO (err_type reported) (err_value reported)
                            (err_traceback reported)) inner ok) steps) /\
       (forall hook, unraisablehook sys = Some hook ->
          hook_of hookobject = None -> hd false (faults st) = false ->
          exists made_in inner ok,
            In (Step_call sys_unraisablehook made_in
                  (Args_N (mk_unraisable_info (err_type reported) (err_value reported)
                             (err_traceback reported) None None)) inner ok) steps /\
            err made_in = None) /\
       (forall hook, excepthook sys = Some hook ->
          existsb succeeded steps = true \/
          exists made_in inner ok,
            In (Step_call sys_excepthook made_in
                  (Args_OOO (err_type reported) (err_value reported)
                            (err_traceback reported)) inner ok) steps /\
            err made_in = None) /\
       (existsb succeeded steps = false ->
          exists made_in,
            last steps (Step_traceback []) = Step_PyErr_Display made_in reported /\
            err made_in = None)).
Proof.
  intros sys hookobject st e He.
  destruct (dispatcher_order sys hookobject st e He)
    as (steps & st' & Heq & H1 & H2 & H3 & H4 & H5 & H6).
  exists steps, st'.
  split; [exact Heq|]. split; [exact H1|]. split; [exact H2|].
  split; [exact H3|]. split; [exact H4|]. split; [exact H5|].
  split; [exact H6|].
  intros Hlim reported.
  pose proof (below_limit_runs_protocol sys hookobject st e He Hlim) as Hp.
  rewrite Heq in Hp. injection Hp as Hsteps Hst.
  destruct (protocol_runs_every_step sys hookobject reported
              (S (recursion_depth st)) (recursion_limit st) (frames st) (faults st))
    as (Pa & Pb & Pc & Pd & Pe).
  fold (entered st) in Pa, Pb, Pc, Pd, Pe. fold reported in Hsteps, Hst.
  split; [exact Hsteps|]. split; [exact Hst|].
  rewrite Hsteps. cbn [existsb succeeded orb].
  split; [intros v Hv; right; apply Pa; exact Hv|].
  split.
  { intros hook Hh. destruct (Pb hook Hh) as (inner & ok & Hin).
    exists inner, ok. right. exact Hin. }
  split.
  { intros hook Hu Hho Hfa.
    destruct (Pc hook Hu Hho Hfa) as (made_in & inner & ok & Hin & Hm).
    exists made_in, inner, ok. split; [right; exact Hin|exact Hm]. }
  split.
  { intros hook Hx. destruct (Pd hook Hx) as [Hs|(made_in & inner & ok & Hin & Hm)];
      [left; exact Hs|].
    right. exists made_in, inner, ok. split; [right; exact Hin|exact Hm]. }
  intro Hnone. destruct (Pe Hnone) as (made_in & Hlast & Hm).
  exists made_in. split; [|exact Hm].
  destruct (fst (reporting_protocol sys hookobject reported (entered st)));
    [discriminate|exact Hlast].
Qed.

(** All three hooks raise: each failure is cleared, the next step is
    taken, the exception is displayed at the end and nothing is left
    pending.  Without a hook of the call site, sys.unraisablehook is
    the first to be called. *)
Lemma unraisable_steps_in_order_witness :
  (exists steps st',
     apsw_write_unraisable sys_all_raising
       (Some (mk_hookobj (Some (raising_hook (value_error "site hook broke")))))
       (interp_with (value_error "outer")) = Some (steps, st') /\
     hd_error steps = Some (Step_traceback []) /\
     increasing (map rank steps) = true /\
     stops_at_first_success steps = true /\
     ends_in_success_or_display steps = true /\
     forallb no_pending steps = true /\
     err st' = None /\
     In (Step_sqlite3_log "ValueError" (Some "outer")) steps /\
     (exists inner ok,
        In (Step_call hookobject_excepthook (entered (interp_with (value_error "outer")))
              (Args_OOO PyExc_ValueError (err_value (value_error "outer")) [])
              inner ok) steps) /\
     (exists made_in,
        last steps (Step_traceback [])
          = Step_PyErr_Display made_in (completed (value_error "outer") []) /\
        err made_in = None)) /\
  (exists steps st',
     apsw_write_unraisable sys_all_raising None (interp_with (value_error "outer"))
       = Some (steps, st') /\
     exists made_in inner ok,
       In (Step_call sys_unraisablehook made_in
             (Args_N (mk_unraisable_info PyExc_ValueError
                        (err_value (value_error "outer")) [] None None))
             inner ok) steps /\
       err made_in = None).
Proof.
  split.
  - destruct (unraisable_steps_in_order sys_all_raising
                (Some (mk_hookobj (Some (raising_hook (value_error "site hook broke")))))
                (interp_with (value_error "outer")) (value_error "outer") eq_refl)
      as (steps & st' & Heq & H1 & H2 & H3 & H4 & H5 & H6 & Hbelow).
    destruct Hbelow as (Hsteps & _ & Hlog & Hsite & _ & _ & Hdisplay);
      [cbn; lia|].
    exists steps, st'.
    split; [exact Heq|]. split; [exact H1|]. split; [exact H2|].
    split; [exact H3|]. split; [exact H4|]. split; [exact H5|].
    split; [exact H6|].
    split; [apply (Hlog _ eq_refl)|].
    split; [apply (Hsite _ eq_refl)|].
    apply Hdisplay. rewrite Hsteps. reflexivity.
  - destruct (unraisable_steps_in_order sys_all_raising None
                (interp_with (value_error "outer")) (value_error "outer") eq_refl)
      as (steps & st' & Heq & _ & _ & _ & _ & _ & _ & Hbelow).
    destruct Hbelow as (_ & _ & _ & _ & Hunraisable & _); [cbn; lia|].
    exists steps, st'. split; [exact Heq|].
    apply (Hunraisable _ eq_refl eq_refl eq_refl).
Defined.

(** C6 as stated fails at the recursion limit: with a hook of the call
    site and a sys.unraisablehook registered, both of which would
    return, the function completes the traceback and prints the
    RecursionError; it writes nothing to sqlite3_log, calls neither
    hook and never shows the exception it was called for. *)
Lemma at_limit_no_protocol_step_runs :
  apsw_write_unraisable sys_with_unraisablehook
    (Some (mk_hookobj (Some returning_hook)))
    (interp_at_limit (value_error "outer"))
  = Some
      ([Step_traceback [];
        Step_PyErr_Print recursion_error
          [Step_PyErr_Display (mk_interp None 1000 1000 [] []) recursion_error]],
       mk_interp None 1000 1000 [] []).
Proof. reflexivity. Qed.

Example all_hooks_raise_ranks :
  option_map (fun r => map rank (fst r))
    (apsw_write_unraisable sys_all_raising
       (Some (mk_hookobj (Some (raising_hook (value_error "site hook broke")))))
       (interp_with (value_error "outer")))
  = Some [1; 2; 3; 4; 5; 6]%nat.
Proof. reflexivity. Qed.

Example first_hook_returns_ranks :
  option_map (fun r => map rank (fst r))
    (apsw_write_unraisable sys_all_raising
       (Some (mk_hookobj (Some returning_hook)))
       (interp_with (value_error "outer")))
  = Some [1; 2; 3]%nat.
Proof. reflexivity. Qed.

(** str() of the value gives a text without a UTF-8 encoding:
    sqlite3_log is called with a NULL pointer for the text. *)
Example unencodable_text_is_logged_as_null :
  option_map (fun r => nth_error (fst r) 1)
    (apsw_write_unraisable sys_with_unraisablehook None (interp_with unencodable_error))
  = Some (Some (Step_sqlite3_log "ValueError" None)).
Proof. reflexivity. Qed.

(** C7 as stated fails: a hook of an outer invocation, running at depth
    1 of 1000, reports an exception of its own through
    apsw_write_unraisable.  The inner invocation (the [inner] steps of
    the outer hook call) writes to sqlite3_log and calls
    sys.unraisablehook; it displays nothing. *)
Lemma reentrant_invocation_calls_hook :
  apsw_write_unraisable sys_with_unraisablehook
    (Some (mk_hookobj (Some (reporting_hook sys_with_unraisablehook
                               (value_error "inner")))))
    (interp_with (value_error "outer"))
  = Some
      ([Step_traceback [];
        Step_sqlite3_log "ValueError" (Some "outer");
        Step_call hookobject_excepthook (mk_interp None 1 1000 [] [])
          (Args_OOO PyExc_ValueError
             (Some (mk_exc_value "ValueError" (Some (mk_message (Some "outer"))))) [])
          [Step_traceback [];
           Step_sqlite3_log "ValueError" (Some "inner");
           Step_call sys_unraisablehook (mk_interp None 2 1000 [] [])
             (Args_N (mk_unraisable_info PyExc_ValueError
                        (Some (mk_exc_value "ValueError"
                                 (Some (mk_message (Some "inner"))))) []
                        None None))
             [] true]
          true],
       mk_interp None 0 1000 [] []).
Proof. reflexivity. Qed.

(** C7, as the code has it: what cuts the function short is the
    recursion limit of the runtime.  Entered at the limit, it completes
    the traceback and calls PyErr_Print with the error then pending,
    which is the RecursionError of the failed check and not the
    exception it was called for.  PyErr_Print hands the RecursionError
    to sys.excepthook, displaying it itself where there is no such
    hook or the hook fails.  Nothing is written to sqlite3_log, the
    hook of [hookobject] and sys.unraisablehook are not called, the
    function returns with the error indicator clear and, when
    sys.excepthook keeps the depth, at the depth it was called at.
    Entered below the limit the function runs the whole protocol one
    level deeper, which is within the limit. *)
Theorem recursion_limit_cuts_to_print :
  forall (sys : sys_module) (hookobject : option hookobj) (st : interp) (e : raised),
    err st = Some e ->
    ((recursion_limit st <= recursion_depth st)%nat ->
       exists inner st',
         apsw_write_unraisable sys hookobject st
           = Some ([Step_traceback (frames st);
                    Step_PyErr_Print recursion_error inner], st') /\
         handed_to_excepthook sys recursion_error inner /\
         existsb (calls hookobject_excepthook) inner = false /\
         existsb (calls sys_unraisablehook) inner = false /\
         existsb is_log inner = false /\
         err st' = None /\
         (balanced_opt (excepthook sys) ->
          recursion_depth st' = recursion_depth st)) /\
    ((recursion_depth st < recursion_limit st)%nat ->
       apsw_write_unraisable sys hookobject st
       = Some (Step_traceback (frames st)
                 :: fst (reporting_protocol sys hookobject (completed e (frames st))
                           (entered st)),
               Py_LeaveRecursiveCall
                 (PyErr_Clear
                    (snd (reporting_protocol sys hookobject (completed e (frames st))
                            (entered st))))) /\
       err (entered st) = None /\
       recursion_depth (entered st) = S (recursion_depth st) /\
       (recursion_depth (entered st) <= recursion_limit (entered st))%nat /\
       recursion_limit (entered st) = recursion_limit st).
Proof.
  intros sys hookobject st e He.
  split.
  - intro Hlim.
    destruct (fill_traceback_pending st e He) as (He' & Hd & Hl & _).
    unfold apsw_write_unraisable. rewrite He, He'.
    unfold Py_EnterRecursiveCall.
    cbn [PyErr_Clear with_err recursion_depth recursion_limit].
    rewrite Hd, Hl.
    replace (recursion_depth st <? recursion_limit st)%nat with false
      by (symmetry; apply Nat.ltb_ge; exact Hlim).
    cbn [negb].
    destruct (PyErr_Print_shape sys
                (with_err (Some recursion_error)
                   (with_err None (fill_traceback st)))
                recursion_error eq_refl)
      as (inner & Hpr & Hhanded & Hc1 & Hc2 & Hc3 & Hbal).
    destruct (PyErr_Print sys _) as [tr stp]. cbn [fst snd] in Hpr, Hbal. subst tr.
    exists inner, (finally false stp).
    split; [reflexivity|]. split; [exact Hhanded|].
    split; [exact Hc1|]. split; [exact Hc2|]. split; [exact Hc3|].
    split; [reflexivity|].
    intro Hb. destruct (Hbal Hb) as [Hd' _]. cbn. rewrite Hd'. cbn. exact Hd.
  - intro Hlim.
    split; [apply below_limit_runs_protocol; assumption|].
    cbn. repeat split. lia.
Qed.

(** At the limit: the traceback and PyErr_Print of the RecursionError,
    which goes to sys.excepthook; the hook of the call site is not
    called.  Below the limit the protocol runs at depth 1. *)
Lemma recursion_limit_cuts_to_print_witness :
  (exists inner st',
     apsw_write_unraisable sys_all_raising
       (Some (mk_hookobj (Some returning_hook)))
       (interp_at_limit (value_error "outer"))
       = Some ([Step_traceback []; Step_PyErr_Print recursion_error inner], st') /\
     handed_to_excepthook sys_all_raising recursion_error inner /\
     existsb (calls hookobject_excepthook) inner = false /\
     existsb (calls sys_unraisablehook) inner = false /\
     existsb is_log inner = false /\
     err st' = None /\
     recursion_depth st' = 1000%nat) /\
  recursion_depth (entered (interp_with (value_error "outer"))) = 1%nat.
Proof.
  split.
  - destruct (recursion_limit_cuts_to_print sys_all_raising
                (Some (mk_hookobj (Some returning_hook)))
                (interp_at_limit (value_error "outer")) (value_error "outer") eq_refl)
      as [Hlimit _].
    destruct Hlimit as (inner & st' & Heq & Hh & Hc1 & Hc2 & Hc3 & Herr & Hdepth);
      [cbn; lia|].
    exists inner, st'. repeat split; try assumption.
    apply Hdepth. intros args s. split; reflexivity.
  - destruct (recursion_limit_cuts_to_print sys_all_raising
                (Some (mk_hookobj (Some returning_hook)))
                (interp_with (value_error "outer")) (value_error "outer") eq_refl)
      as [_ Hbelow].
    destruct Hbelow as (_ & _ & Hdepth & _); [cbn; lia|].
    exact Hdepth.
Defined.

(** At the limit with a sys.excepthook that fails: the runtime shows
    the hook's exception and then the RecursionError. *)
Example print_at_limit_with_failing_excepthook :
  option_map fst
    (apsw_write_unraisable sys_all_raising None (interp_at_limit (value_error "outer")))
  = Some
      [Step_traceback [];
       Step_PyErr_Print recursion_error
         [Step_call sys_excepthook (mk_interp None 1000 1000 [] [])
            (Args_OOO PyExc_RecursionError (err_value recursion_error) []) [] false;
          Step_error_in_excepthook (Some (value_error "excepthook broke"));
          Step_PyErr_Display (mk_interp None 1000 1000 [] []) recursion_error]].
Proof. reflexivity. Qed.

End UnraisableFacts.

(** ** Column conversion *)

Module ColumnFacts.
Import Bridge Marshal Column.

Lemma call_V_entries_held (x : void_op) (t : thread) :
  Bridge.log (_PYSQLITE_CALL_V x t) = Bridge.log t ++ accessor_entries (held t).
Proof.
  unfold _PYSQLITE_CALL_V, run_void, accessor_entries. cbn.
  repeat rewrite <- app_assoc. reflexivity.
Qed.

Lemma call_V_state (x : void_op) (t : thread) :
  held (_PYSQLITE_CALL_V x t) = mk_locks true (db_mutex (held t)) /\
  Bridge.err (_PYSQLITE_CALL_V x t) = Bridge.err t /\
  tls_errmsg (_PYSQLITE_CALL_V x t) = tls_errmsg t /\
  sqlite (_PYSQLITE_CALL_V x t) = x (sqlite t).
Proof. repeat split. Qed.

Ltac column_cases stmt col :=
  destruct (sqlite3_column_type stmt col =? SQLITE_INTEGER);
  [|destruct (sqlite3_column_type stmt col =? SQLITE_FLOAT);
    [|destruct (sqlite3_column_type stmt col =? SQLITE_TEXT);
      [|destruct (sqlite3_column_type stmt col =? SQLITE_BLOB)]]].

(** X1: The column conversion gives the object, and leaves the host in the
    state, that the value conversion with both modes off gives for the
    same type and content. *)
Theorem column_converts_as_value :
  forall (stmt : sqlite3_stmt) (col : Z) (t : thread) (h : host),
    (fst (fst (convert_column_to_pyobject stmt col t h)),
     snd (convert_column_to_pyobject stmt col t h))
    = convert_value_to_pyobject_not_in (column_value stmt col) h.
Proof.
  intros stmt col t h.
  unfold convert_column_to_pyobject, convert_value_to_pyobject_not_in, column_value.
  cbn [convert_value_to_pyobject andb negb sqlite3_value_type sqlite3_value_int64
       sqlite3_value_double sqlite3_value_blob].
  column_cases stmt col; try reflexivity.
  - destruct (PyLong_FromLongLong _ h); reflexivity.
  - destruct (PyFloat_FromDouble _ h); reflexivity.
  - destruct (PyUnicode_FromStringAndSize _ h); reflexivity.
  - destruct (PyBytes_FromStringAndSize _ h); reflexivity.
Qed.

(** X2: Every accessor of the column conversion runs between
    Py_BEGIN_ALLOW_THREADS and Py_END_ALLOW_THREADS of its own: one for
    the type, and one more for the content when the type has any.  No
    mutex is entered and no error text is captured; the thread comes
    back holding the GIL with the locks, the error indicator and the
    captured text it had. *)
Theorem column_accessors_release_gil :
  forall (stmt : sqlite3_stmt) (col : Z) (t : thread) (h : host),
    let t' := snd (fst (convert_column_to_pyobject stmt col t h)) in
    new_entries t t'
      = accessor_entries (held t)
        ++ (if has_payload (sqlite3_column_type stmt col)
            then accessor_entries (mk_locks true (db_mutex (held t)))
            else []) /\
    held t' = mk_locks true (db_mutex (held t)) /\
    Bridge.err t' = Bridge.err t /\
    tls_errmsg t' = tls_errmsg t /\
    sqlite t' = (if has_payload (sqlite3_column_type stmt col)
                 then column_access stmt (column_access stmt (sqlite t))
                 else column_access stmt (sqlite t)).
Proof.
  intros stmt col t h t'. subst t'.
  unfold convert_column_to_pyobject, has_payload, new_entries.
  column_cases stmt col; cbn [orb].
  - destruct (PyLong_FromLongLong _ h). cbn [fst snd].
    rewrite !call_V_entries_held, <- app_assoc, BridgeFacts.skipn_log.
    repeat split.
  - destruct (PyFloat_FromDouble _ h). cbn [fst snd].
    rewrite !call_V_entries_held, <- app_assoc, BridgeFacts.skipn_log.
    repeat split.
  - destruct (PyUnicode_FromStringAndSize _ h). cbn [fst snd].
    rewrite !call_V_entries_held, <- app_assoc, BridgeFacts.skipn_log.
    repeat split.
  - destruct (PyBytes_FromStringAndSize _ h). cbn [fst snd].
    rewrite !call_V_entries_held, <- app_assoc, BridgeFacts.skipn_log.
    repeat split.
  - cbn [fst snd].
    rewrite call_V_entries_held, BridgeFacts.skipn_log, app_nil_r.
    repeat split.
Qed.

Example example_row_columns :
  fst (fst (convert_column_to_pyobject example_row 0 idle_thread no_faults))
    = Ref (PyLong 42) /\
  fst (fst (convert_column_to_pyobject example_row 1 idle_thread no_faults))
    = Ref (PyUnicode [x68; x69]) /\
  fst (fst (convert_column_to_pyobject example_row 2 idle_thread no_faults))
    = Ref Py_None /\
  map fst (Bridge.log (snd (fst (convert_column_to_pyobject example_row 2
                                   idle_thread no_faults))))
    = [Py_BEGIN_ALLOW_THREADS; Ev_x None; Py_END_ALLOW_THREADS].
Proof. repeat split. Qed.

End ColumnFacts.

(** ** Further properties of the value conversion *)

Module MarshalMoreFacts.
Import Marshal MarshalMore MarshalFacts.

Ltac host_calls h :=
  unfold PyLong_FromLongLong, PyFloat_FromDouble, PyUnicode_FromStringAndSize,
         PyBytes_FromStringAndSize;
  destruct (alloc h) as [[|] ?].

(** X3: With constraint mode off the conversion never asks the engine for
    an IN list and logs nothing; its result is never a set, and never
    the no-change object unless no-change mode is on; and with both
    modes off the result depends on the type code and the content
    only, not on the no-change report or on what the value would
    answer as an IN list. *)
Theorem not_in_conversion_is_scalar :
  forall (value : sqlite3_value) (ncp : bool) (h : host),
    log (snd (convert_value_to_pyobject value false ncp h)) = log h /\
    (forall o, fst (convert_value_to_pyobject value false ncp h) = Ref o ->
       is_set o = false /\ (ncp = false -> is_no_change o = false)) /\
    (forall (reported : bool) (answers : list answer),
       convert_value_to_pyobject_not_in value h
       = convert_value_to_pyobject_not_in
           (mk_value (sqlite3_value_type value) reported
                     (sqlite3_value_int64 value) (sqlite3_value_double value)
                     (sqlite3_value_blob value) answers) h).
Proof.
  intros value ncp h. split; [apply not_in_log|]. split.
  - rewrite convert_value_to_pyobject_eq.
    destruct ncp; cbn [andb negb].
    + destruct (sqlite3_value_nochange value).
      * intros o H. inversion H. split; [reflexivity|discriminate].
      * scalar_cases value; host_calls h; cbn [fst];
          try destruct (utf8_valid _);
          intros o H; inversion H; split; try reflexivity; discriminate.
    + scalar_cases value; host_calls h; cbn [fst];
        try destruct (utf8_valid _);
        intros o H; inversion H; split; reflexivity.
  - intros reported answers. unfold convert_value_to_pyobject_not_in.
    rewrite !convert_value_to_pyobject_eq. reflexivity.
Qed.

(** The unknown type code 17 with a no-change report and IN-list
    answers: with both modes off it converts to None, as a plain NULL
    does. *)
Lemma not_in_conversion_is_scalar_witness :
  is_set Py_None = false /\ is_no_change Py_None = false.
Proof.
  destruct (not_in_conversion_is_scalar odd_value false no_faults) as (_ & H & _).
  destruct (H Py_None eq_refl) as [H1 H2].
  split; [exact H1|]. apply H2. reflexivity.
Defined.

(** X4: NULL, and any type code the switch has no case for, converts to
    None when no IN list is asked for, whatever allocations would fail:
    the host is left untouched. *)
Theorem default_case_needs_no_allocation :
  forall (value : sqlite3_value) (ncp : bool) (h : host),
    Column.has_payload (sqlite3_value_type value) = false ->
    ncp && sqlite3_value_nochange value = false ->
    convert_value_to_pyobject value false ncp h = (Ref Py_None, h).
Proof.
  intros value ncp h Hp Hnc. unfold Column.has_payload in Hp.
  apply orb_false_iff in Hp as [Hp H4].
  apply orb_false_iff in Hp as [Hp H3].
  apply orb_false_iff in Hp as [H1 H2].
  rewrite convert_value_to_pyobject_eq, Hnc, H1, H2, H3, H4. reflexivity.
Qed.

Lemma default_case_needs_no_allocation_witness :
  convert_value_to_pyobject odd_value false false (mk_host [true; true] [])
  = (Ref Py_None, mk_host [true; true] []).
Proof.
  apply (default_case_needs_no_allocation odd_value false (mk_host [true; true] []));
    reflexivity.
Defined.

(** *** The loop, for any answers and any failures *)

Lemma PySet_Add_result (set set' : list PyObject) (v : PyObject) (h : host) :
  fst (PySet_Add set v h) = inl set' ->
  hashable v = true /\
  (set' = set \/ (set' = set ++ [v] /\ set_contains set v = false)).
Proof.
  unfold PySet_Add. destruct (hashable v); cbn [negb]; [|discriminate].
  destruct (set_contains set v).
  - cbn. intro H. inversion H. auto.
  - destruct (alloc h) as [[|] h1]; cbn; [|discriminate].
    intro H. inversion H. auto.
Qed.

Lemma stops_next (res : Z) : stops (Ev_vtab_in_next res) = in_next_failed res.
Proof. apply failure_next. Qed.

Lemma in_loop_outcome (conv : sqlite3_value -> host -> ret * host) :
  (forall v h, log (snd (conv v h)) = log h) ->
  (forall v h o, fst (conv v h) = Ref o -> plain_member o) ->
  forall (answers : list answer) (set : list PyObject) (h : host),
    no_equal_pair set = true ->
    (forall m, In m set -> plain_member m) ->
    exists evs,
      log (snd (in_loop conv answers set h)) = log h ++ evs /\
      released_references evs = new_references evs /\
      ((exists members,
          fst (in_loop conv answers set h) = Ref (PySet members) /\
          no_equal_pair members = true /\
          (forall m, In m members -> plain_member m) /\
          (forall m, In m members -> In m set \/ In (Ev_element (Ref m)) evs) /\
          existsb at_error evs = false /\
          existsb stops evs = false) \/
       (exists e before trigger v partial,
          fst (in_loop conv answers set h) = Null e /\
          evs = before ++ [trigger; Ev_Py_XDECREF_v v; Ev_Py_XDECREF_set partial] /\
          existsb at_error before = false /\
          existsb stops before = false /\
          stops trigger = true /\
          (trigger = Ev_PySet_Add false <-> v <> None))).
Proof.
  intros Hquiet Hplain.
  induction answers as [|[rc [in_value|]] pending IH]; intros set h Hset Hgood.
  - exists []. cbn. rewrite app_nil_r. split; [reflexivity|].
    split; [reflexivity|]. left.
    exists set. split; [reflexivity|]. split; [assumption|].
    split; [assumption|]. split; [auto|]. split; reflexivity.
  - cbn [in_loop].
    pose proof (Hquiet in_value h) as Hq.
    pose proof (Hplain in_value h) as Hp.
    destruct (conv in_value h) as [[o|e] h1]; cbn [fst snd] in Hq, Hp.
    + specialize (Hp o eq_refl).
      pose proof (PySet_Add_log set o (emit (Ev_element (Ref o)) h1)) as Ha.
      pose proof (PySet_Add_result set) as Hr.
      specialize (Hr) with (v := o) (h := emit (Ev_element (Ref o)) h1).
      destruct (PySet_Add set o (emit (Ev_element (Ref o)) h1)) as [[set'|e] h2];
        cbn [fst snd] in Ha, Hr.
      * destruct (Hr set' eq_refl) as (Hh & Hset').
        assert (Hset'n : no_equal_pair set' = true).
        { destruct Hset' as [->|[-> Hc]]; [assumption|].
          rewrite no_equal_pair_app, Hset, Hc. reflexivity. }
        assert (Hset'g : forall m, In m set' -> plain_member m).
        { intros m Hm. destruct Hset' as [->|[-> Hc]]; [auto|].
          apply in_app_iff in Hm as [Hm|[<-|[]]]; auto. }
        assert (Hset'i : forall m, In m set' -> In m set \/ m = o).
        { intros m Hm. destruct Hset' as [->|[-> Hc]]; [auto|].
          apply in_app_iff in Hm as [Hm|[<-|[]]]; auto. }
        destruct (in_next_failed (fst (sqlite3_vtab_in_next pending))) eqn:Hnext.
        -- eexists. cbn [error emit log snd fst]. rewrite Ha. cbn [emit log].
           rewrite Hq. repeat rewrite <- app_assoc. split; [reflexivity|].
           split; [reflexivity|]. right.
           exists (in_next_error (fst (sqlite3_vtab_in_next pending))),
                  [Ev_element (Ref o); Ev_PySet_Add true; Ev_Py_CLEAR_v o],
                  (Ev_vtab_in_next (fst (sqlite3_vtab_in_next pending))),
                  None, set'.
           split; [reflexivity|]. split; [reflexivity|].
           split; [reflexivity|]. split; [reflexivity|].
           split; [rewrite stops_next; exact Hnext|].
           split; [discriminate|congruence].
        -- destruct (IH set'
                       (emit (Ev_vtab_in_next (fst (sqlite3_vtab_in_next pending)))
                          (emit (Ev_Py_CLEAR_v o) (emit (Ev_PySet_Add true) h2)))
                       Hset'n Hset'g)
             as (evs & Hlog & Hbal & Hshape).
           exists ([Ev_element (Ref o); Ev_PySet_Add true; Ev_Py_CLEAR_v o;
                    Ev_vtab_in_next (fst (sqlite3_vtab_in_next pending))] ++ evs).
           split.
           { rewrite Hlog. cbn [emit log]. rewrite Ha. cbn [emit log].
             rewrite Hq. repeat rewrite <- app_assoc. reflexivity. }
           split.
           { cbn [app released_references new_references]. rewrite Hbal.
             reflexivity. }
           destruct Hshape as [(members & Hr' & Hn & Hg & Hi & Hrel & Hst)
                              |(e & before & trigger & v & partial &
                                Hr' & Hevs & Hrel & Hst & Htr & Hv)].
           ++ left. exists members. split; [exact Hr'|]. split; [exact Hn|].
              split; [exact Hg|]. split.
              { intros m Hm. destruct (Hi m Hm) as [H|H].
                - destruct (Hset'i m H) as [H'|H']; [auto|].
                  subst. right. left. reflexivity.
                - right. cbn [app In]. auto. }
              cbn [app existsb at_error orb]. rewrite stops_next, Hnext, Hrel, Hst.
              auto.
           ++ right.
              exists e,
                ([Ev_element (Ref o); Ev_PySet_Add true; Ev_Py_CLEAR_v o;
                  Ev_vtab_in_next (fst (sqlite3_vtab_in_next pending))] ++ before),
                trigger, v, partial.
              split; [exact Hr'|]. split.
              { rewrite Hevs. repeat rewrite <- app_assoc. reflexivity. }
              cbn [app existsb at_error orb]. rewrite stops_next, Hnext, Hrel, Hst.
              auto.
      * eexists. cbn [error emit log snd fst]. rewrite Ha. cbn [emit log].
        rewrite Hq. repeat rewrite <- app_assoc. split; [reflexivity|].
        split; [reflexivity|].
        right. exists e, [Ev_element (Ref o)], (Ev_PySet_Add false), (Some o), set.
        repeat split; auto; discriminate.
    + eexists. cbn [error emit log snd fst]. rewrite Hq.
      repeat rewrite <- app_assoc. split; [reflexivity|].
      split; [reflexivity|].
      right. exists e, [], (Ev_element (Null e)), None, set.
      repeat split; auto; try discriminate. congruence.
  - exists []. cbn. rewrite app_nil_r. split; [reflexivity|].
    split; [reflexivity|]. left.
    exists set. split; [reflexivity|]. split; [assumption|].
    split; [assumption|]. split; [auto|]. split; reflexivity.
Qed.

Lemma element_plain (v : sqlite3_value) (h : host) (o : PyObject) :
  fst (convert_value_to_pyobject_not_in v h) = Ref o -> plain_member o.
Proof.
  unfold convert_value_to_pyobject_not_in, plain_member.
  rewrite convert_value_to_pyobject_eq. cbn [andb negb].
  scalar_cases v; host_calls h; cbn [fst]; try destruct (utf8_valid _);
    intro H; inversion H; split; reflexivity.
Qed.

(** The outcome of any conversion: every reference to an element is
    let go of once; then either a result with nothing gone wrong in the
    log and [error:] not reached, or NULL; and when [error:] was
    reached, NULL with the event that stopped the loop and the two
    releases at the end of the log. *)
Lemma convert_outcome (value : sqlite3_value) (icp ncp : bool) (h : host) :
  exists evs,
    log (snd (convert_value_to_pyobject value icp ncp h)) = log h ++ evs /\
    released_references evs = new_references evs /\
    ((existsb at_error evs = false /\ existsb stops evs = false /\
      forall members,
        fst (convert_value_to_pyobject value icp ncp h) = Ref (PySet members) ->
        no_equal_pair members = true /\
        (forall m, In m members ->
           plain_member m /\ In (Ev_element (Ref m)) evs)) \/
     (exists e before trigger v partial,
        fst (convert_value_to_pyobject value icp ncp h) = Null e /\
        evs = before ++ [trigger; Ev_Py_XDECREF_v v; Ev_Py_XDECREF_set partial] /\
        existsb at_error before = false /\
        existsb stops before = false /\
        stops trigger = true /\
        (trigger = Ev_PySet_Add false <-> v <> None))).
Proof.
  assert (Hquiet : forall (r : ret * host),
             log (snd r) = log h ->
             (forall members, fst r <> Ref (PySet members)) ->
             exists evs, log (snd r) = log h ++ evs /\
               released_references evs = new_references evs /\
               ((existsb at_error evs = false /\ existsb stops evs = false /\
                 forall members, fst r = Ref (PySet members) ->
                   no_equal_pair members = true /\
                   (forall m, In m members ->
                      plain_member m /\ In (Ev_element (Ref m)) evs)) \/
                (exists e before trigger v partial,
                   fst r = Null e /\
                   evs = before ++ [trigger; Ev_Py_XDECREF_v v; Ev_Py_XDECREF_set partial] /\
                   existsb at_error before = false /\
                   existsb stops before = false /\
                   stops trigger = true /\
                   (trigger = Ev_PySet_Add false <-> v <> None)))).
  { intros r Hr Hns. exists []. rewrite app_nil_r. split; [exact Hr|].
    split; [reflexivity|].
    left. repeat split; auto; exfalso; eapply Hns; eassumption. }
  rewrite convert_value_to_pyobject_eq.
  destruct (ncp && sqlite3_value_nochange value);
    [apply Hquiet; [reflexivity|discriminate]|].
  unfold PyLong_FromLongLong, PyFloat_FromDouble, PyUnicode_FromStringAndSize,
         PyBytes_FromStringAndSize, PySet_New.
  pose proof (alloc_log h) as Ha.
  pose proof (alloc_log (emit (Ev_vtab_in_first (fst (sqlite3_vtab_in_first value))) h))
    as Ha'.
  scalar_cases value;
    try (destruct (alloc h) as [[|] h1]; cbn [snd] in Ha;
         (apply Hquiet; [exact Ha|]); cbn [fst];
         try destruct (utf8_valid _); discriminate).
  destruct icp; cbn [negb]; [|apply Hquiet; [reflexivity|discriminate]].
  destruct (negb (fst (sqlite3_vtab_in_first value) =? SQLITE_OK)).
  { exists [Ev_vtab_in_first (fst (sqlite3_vtab_in_first value))].
    split; [reflexivity|]. split; [reflexivity|].
    left. repeat split; auto; discriminate. }
  destruct (alloc (emit (Ev_vtab_in_first (fst (sqlite3_vtab_in_first value))) h))
    as [[|] h1]; cbn [snd emit log] in Ha'.
  2: { exists [Ev_vtab_in_first (fst (sqlite3_vtab_in_first value))].
       split; [exact Ha'|]. split; [reflexivity|].
       left. repeat split; auto; discriminate. }
  destruct (in_loop_outcome convert_value_to_pyobject_not_in
              (fun v h => not_in_log v false h) element_plain
              (vtab_in value) [] h1 eq_refl)
    as (evs & Hlog & Hbal & Hshape).
  { intros m []. }
  exists (Ev_vtab_in_first (fst (sqlite3_vtab_in_first value)) :: evs).
  split.
  { rewrite Hlog, Ha', <- app_assoc. reflexivity. }
  split; [exact Hbal|].
  destruct Hshape as [(members & Hr & Hn & Hg & Hi & Hrel & Hst)
                     |(e & before & trigger & v & partial &
                       Hr & Hevs & Hrel & Hst & Htr & Hv)].
  - left. cbn [existsb at_error stops failure orb]. split; [exact Hrel|].
    split; [exact Hst|].
    intros members' Hm'. rewrite Hr in Hm'. inversion Hm'; subst.
    split; [exact Hn|]. intros m Hm. split; [auto|].
    destruct (Hi m Hm) as [[]|H]. right. exact H.
  - right.
    exists e, (Ev_vtab_in_first (fst (sqlite3_vtab_in_first value)) :: before),
           trigger, v, partial.
    split; [exact Hr|]. split; [rewrite Hevs; reflexivity|].
    cbn [existsb at_error stops failure orb]. auto.
Qed.

(** X5: Whenever a conversion returns a set, whatever the engine answered
    and whatever allocations failed on the way: no two members are
    equal, no member is itself a set or the no-change object, and every
    member was logged as a converted element. *)
Theorem returned_set_is_flat_and_distinct :
  forall (value : sqlite3_value) (icp ncp : bool) (h : host)
         (members : list PyObject),
    fst (convert_value_to_pyobject value icp ncp h) = Ref (PySet members) ->
    no_equal_pair members = true /\
    (forall m, In m members ->
       is_set m = false /\ is_no_change m = false /\
       In (Ev_element (Ref m))
          (new_log h (snd (convert_value_to_pyobject value icp ncp h)))).
Proof.
  intros value icp ncp h members Hr.
  destruct (convert_outcome value icp ncp h) as (evs & Hlog & Hshape).
  rewrite (new_log_app _ _ _ Hlog).
  destruct Hshape as [_ [(_ & _ & Hset)|(e & before & trigger & v & partial &
                                         Hnull & _)]]; [|congruence].
  destruct (Hset members Hr) as [Hn Hm].
  split; [exact Hn|]. intros m Hin.
  destruct (Hm m Hin) as [[Hh Hnc] Hev].
  repeat split; auto. destruct m; try reflexivity; discriminate.
Qed.

Lemma returned_set_is_flat_and_distinct_witness :
  no_equal_pair [PyLong 1; PyUnicode [x61]; Py_None] = true /\
  (forall m, In m [PyLong 1; PyUnicode [x61]; Py_None] ->
     is_set m = false /\ is_no_change m = false /\
     In (Ev_element (Ref m))
        (new_log no_faults
           (snd (convert_value_to_pyobject example_in_list true false no_faults)))).
Proof.
  apply (returned_set_is_flat_and_distinct example_in_list true false no_faults).
  reflexivity.
Defined.

(** X6: The loop lets go of every reference to a converted element
    exactly once and in the order obtained: by Py_CLEAR(v) once the
    element is in the set, or by Py_XDECREF(v) at [error:] when adding
    it failed.  The statements at [error:] run only on the way out with
    NULL: a conversion that returns an object has not reached them and
    nothing in its log went wrong.  A conversion that reached them
    returns NULL; its log ends with the one event that stopped the
    loop, then Py_XDECREF(v), then Py_XDECREF(set), neither of them
    before; and [v] is an object there exactly when it was PySet_Add
    that failed. *)
Theorem element_references_are_balanced :
  forall (value : sqlite3_value) (icp ncp : bool) (h : host),
    let r := fst (convert_value_to_pyobject value icp ncp h) in
    let evs := new_log h (snd (convert_value_to_pyobject value icp ncp h)) in
    released_references evs = new_references evs /\
    (forall o, r = Ref o ->
       existsb at_error evs = false /\ existsb stops evs = false) /\
    (existsb at_error evs = true ->
     exists e before trigger v partial,
       r = Null e /\
       evs = before ++ [trigger; Ev_Py_XDECREF_v v; Ev_Py_XDECREF_set partial] /\
       existsb at_error before = false /\
       existsb stops before = false /\
       stops trigger = true /\
       (trigger = Ev_PySet_Add false <-> v <> None)).
Proof.
  intros value icp ncp h r evs. subst r evs.
  destruct (convert_outcome value icp ncp h) as (evs & Hlog & Hbal & Hshape).
  rewrite (new_log_app _ _ _ Hlog).
  split; [exact Hbal|].
  destruct Hshape as [(Hrel & Hst & _)|(e & before & trigger & v & partial &
                                        Hnull & Hrest)].
  - split; [auto|]. congruence.
  - split; [intros o Ho; congruence|].
    intros _. exists e, before, trigger, v, partial. auto.
Qed.

(** The list [1, "a", NULL, 1]: four references obtained, four let go
    of by Py_CLEAR(v), [error:] not reached.  The list whose third
    request fails: the set holding the two elements is released once,
    at the end, and NULL comes back. *)
Lemma element_references_are_balanced_witness :
  (released_references
     (new_log no_faults
        (snd (convert_value_to_pyobject example_in_list true false no_faults)))
   = [PyLong 1; PyUnicode [x61]; Py_None; PyLong 1]) /\
  (existsb at_error
     (new_log no_faults
        (snd (convert_value_to_pyobject example_in_list true false no_faults)))
   = false) /\
  exists e before trigger v partial,
    fst (convert_value_to_pyobject broken_in_list true false no_faults) = Null e /\
    new_log no_faults
      (snd (convert_value_to_pyobject broken_in_list true false no_faults))
      = before ++ [trigger; Ev_Py_XDECREF_v v; Ev_Py_XDECREF_set partial] /\
    existsb at_error before = false /\
    existsb stops before = false /\
    stops trigger = true /\
    (trigger = Ev_PySet_Add false <-> v <> None).
Proof.
  split; [|split].
  - destruct (element_references_are_balanced example_in_list true false no_faults)
      as [Hbal _].
    rewrite Hbal. reflexivity.
  - destruct (element_references_are_balanced example_in_list true false no_faults)
      as (_ & Hok & _).
    destruct (Hok _ eq_refl) as [H _]. exact H.
  - destruct (element_references_are_balanced broken_in_list true false no_faults)
      as (_ & _ & Hfail).
    apply Hfail. reflexivity.
Defined.

(** When adding an element fails the reference is dropped at [error:]
    instead. *)
Example allocation_failure_releases :
  released_references
    (new_log (mk_host [false; false; false; false; true] [])
       (snd (convert_value_to_pyobject example_in_list true false
               (mk_host [false; false; false; false; true] []))))
  = [PyLong 1; PyUnicode [x61]].
Proof. reflexivity. Qed.

Lemma alloc_first_ok (h : host) :
  hd false (faults h) = false -> fst (alloc h) = true /\ log (snd (alloc h)) = log h.
Proof.
  unfold alloc. destruct (faults h) as [|[|] fs]; cbn; intro H;
    try discriminate; auto.
Qed.

(** X7: What the first answer of the engine decides, for a NULL (or a type
    code without a case) in constraint mode.  Any answer but SQLITE_OK,
    SQLITE_DONE for an empty list included, gives None: the one call is
    logged and nothing is allocated.  SQLITE_OK with no element gives
    the empty set. *)
Theorem first_answer_decides :
  forall (value : sqlite3_value) (ncp : bool) (h : host),
    Column.has_payload (sqlite3_value_type value) = false ->
    ncp && sqlite3_value_nochange value = false ->
    (fst (sqlite3_vtab_in_first value) <> SQLITE_OK ->
       convert_value_to_pyobject value true ncp h
       = (Ref Py_None,
          emit (Ev_vtab_in_first (fst (sqlite3_vtab_in_first value))) h)) /\
    (sqlite3_vtab_in_first value = (SQLITE_OK, None) ->
     hd false (faults h) = false ->
       fst (convert_value_to_pyobject value true ncp h) = Ref (PySet []) /\
       new_log h (snd (convert_value_to_pyobject value true ncp h))
       = [Ev_vtab_in_first SQLITE_OK]).
Proof.
  intros value ncp h Hp Hnc. unfold Column.has_payload in Hp.
  apply orb_false_iff in Hp as [Hp H4].
  apply orb_false_iff in Hp as [Hp H3].
  apply orb_false_iff in Hp as [H1 H2].
  rewrite convert_value_to_pyobject_eq, Hnc, H1, H2, H3, H4. cbn [negb].
  split.
  - intro Hne. apply Z.eqb_neq in Hne. rewrite Hne. reflexivity.
  - intros Hfirst Hfault. rewrite Hfirst. cbn [fst].
    rewrite Z.eqb_refl. cbn [negb]. unfold PySet_New.
    destruct (alloc_first_ok (emit (Ev_vtab_in_first SQLITE_OK) h) Hfault)
      as [Hok Hlog].
    destruct (alloc (emit (Ev_vtab_in_first SQLITE_OK) h)) as [ok h1].
    cbn [fst snd] in Hok, Hlog. subst ok.
    unfold sqlite3_vtab_in_first in Hfirst.
    destruct (vtab_in value) as [|a rest]; [discriminate|]. subst a.
    cbn [in_loop fst snd]. split; [reflexivity|].
    apply new_log_app. rewrite Hlog. reflexivity.
Qed.

(** An empty list (first answer SQLITE_DONE) gives None; SQLITE_OK
    without an element gives the empty set. *)
Lemma first_answer_decides_witness :
  convert_value_to_pyobject (in_list []) true false no_faults
    = (Ref Py_None, emit (Ev_vtab_in_first SQLITE_DONE) no_faults) /\
  fst (convert_value_to_pyobject ok_without_element true false no_faults)
    = Ref (PySet []).
Proof.
  split.
  - destruct (first_answer_decides (in_list []) false no_faults) as [H _];
      [reflexivity|reflexivity|].
    apply H. discriminate.
  - destruct (first_answer_decides ok_without_element false no_faults) as [_ H];
      [reflexivity|reflexivity|].
    destruct H as [H _]; [reflexivity|reflexivity|exact H].
Defined.

End MarshalMoreFacts.

(** ** apsw_strdup *)

Module StrdupFacts.
Import Marshal Strdup.

Lemma strlen_le (s : list byte) : (strlen s <= List.length s)%nat.
Proof.
  induction s as [|b r IH]; cbn; [lia|].
  destruct (Byte.eqb b x00); lia.
Qed.

Lemma store_at (pre : list byte) (c b : byte) (r : list byte) :
  store (List.length pre) b (pre ++ c :: r) = Some (pre ++ b :: r).
Proof.
  induction pre as [|p pre IH]; cbn; [reflexivity|].
  rewrite IH. reflexivity.
Qed.

Lemma store_all_at (bs : list byte) :
  forall (pre buf : list byte),
    (List.length bs <= List.length buf)%nat ->
    store_all (List.length pre) bs (pre ++ buf)
    = Some (pre ++ bs ++ skipn (List.length bs) buf).
Proof.
  induction bs as [|b bs IH]; intros pre buf Hlen; cbn [store_all].
  - reflexivity.
  - destruct buf as [|c buf]; [cbn in Hlen; lia|].
    rewrite store_at.
    replace (pre ++ b :: buf) with ((pre ++ [b]) ++ buf)
      by (rewrite <- app_assoc; reflexivity).
    replace (S (List.length pre)) with (List.length (pre ++ [b]))
      by (rewrite length_app; cbn; lia).
    rewrite IH by (cbn in Hlen; lia).
    rewrite <- app_assoc. reflexivity.
Qed.

Lemma store_zero (n i : nat) :
  (i < n)%nat -> store i x00 (repeat x00 n) = Some (repeat x00 n).
Proof.
  revert i. induction n as [|n IH]; intros i Hi; [lia|].
  destruct i as [|i]; cbn; [reflexivity|].
  rewrite IH by lia. reflexivity.
Qed.

Lemma strlen_string (chars rest : list byte) :
  strlen chars = List.length chars -> strlen (chars ++ x00 :: rest) = List.length chars.
Proof.
  induction chars as [|b r IH]; cbn; [reflexivity|].
  destruct (Byte.eqb b x00); [discriminate|].
  intro H. rewrite IH by lia. reflexivity.
Qed.

Lemma strlen_firstn (s : list byte) :
  strlen (firstn (strlen s) s) = List.length (firstn (strlen s) s).
Proof.
  induction s as [|b r IH]; cbn; [reflexivity|].
  destruct (Byte.eqb b x00) eqn:E; cbn; [reflexivity|].
  rewrite E, IH. reflexivity.
Qed.

Lemma strlen_repeat (n : nat) (rest : list byte) :
  strlen (repeat x01 n ++ x00 :: rest) = n.
Proof.
  induction n as [|n IH]; cbn [repeat app strlen]; [reflexivity|].
  change (Byte.eqb x01 x00) with false. cbv iota. rewrite IH. reflexivity.
Qed.

(** With the allocation made, the copy, or nothing but NUL bytes when
    PyOS_snprintf declines the size. *)
Lemma apsw_strdup_result (source : list byte) (h : host) :
  fst (alloc h) = true ->
  fst (apsw_strdup source h)
  = Some (if Z.of_nat (S (strlen source)) >? INT_MAX - 1
          then Some (repeat x00 (strlen source + 3))
          else Some (firstn (strlen source) source ++ [x00; x00; x00])).
Proof.
  assert (Hlen : List.length (firstn (strlen source) source) = strlen source)
    by (apply firstn_length_le, strlen_le).
  unfold apsw_strdup, PyMem_Calloc.
  destruct (alloc h) as [[|] h1]; cbn [fst snd]; [intros _|discriminate].
  rewrite Nat.mul_1_l.
  rewrite !store_zero by lia.
  unfold PyOS_snprintf.
  replace (strlen source + 1)%nat with (S (strlen source)) by lia.
  destruct (Z.of_nat (S (strlen source)) >? INT_MAX - 1).
  - rewrite store_zero by lia. reflexivity.
  - rewrite Nat.min_id.
    pose proof (store_all_at (firstn (strlen source) source ++ [x00]) []
                  (repeat x00 (strlen source + 3))) as Hst.
    cbn [List.length app] in Hst. rewrite Hst.
    2: { rewrite length_app, Hlen, repeat_length. cbn. lia. }
    rewrite length_app, Hlen. cbn [List.length].
    replace (strlen source + 3)%nat with ((strlen source + 1) + 2)%nat by lia.
    rewrite repeat_app, skipn_app, repeat_length, Nat.sub_diag.
    rewrite skipn_all2 by (rewrite repeat_length; lia).
    cbn [repeat app]. rewrite <- app_assoc. cbn [app].
    rewrite <- Hlen at 1. rewrite store_at. reflexivity.
Qed.

(** X8: apsw_strdup never writes outside its allocation and asks for one
    allocation; when that fails the result is NULL.  When it succeeds
    and the string with its terminator is at most [INT_MAX - 1] bytes
    long, the result is the bytes of the source string up to its
    terminator followed by three NUL bytes: the same C string with two
    more NULs behind the terminator, [strlen + 3] bytes long, and what
    lies behind the terminator of the source is not copied.  For a
    longer string PyOS_snprintf copies nothing and the result is
    [strlen + 3] NUL bytes, the empty string. *)
Theorem apsw_strdup_layout :
  forall (source : list byte) (h : host),
    let len := strlen source in
    let copy := firstn len source ++ [x00; x00; x00] in
    (fst (alloc h) = false -> fst (apsw_strdup source h) = Some None) /\
    snd (apsw_strdup source h) = snd (alloc h) /\
    (fst (alloc h) = true -> Z.of_nat len + 1 <= INT_MAX - 1 ->
       fst (apsw_strdup source h) = Some (Some copy)) /\
    (fst (alloc h) = true -> INT_MAX - 1 < Z.of_nat len + 1 ->
       fst (apsw_strdup source h) = Some (Some (repeat x00 (len + 3)))) /\
    strlen copy = len /\
    List.length copy = (len + 3)%nat /\
    firstn (strlen copy) copy = firstn len source.
Proof.
  intros source h len copy.
  assert (Hlen : List.length (firstn len source) = len)
    by (apply firstn_length_le, strlen_le).
  assert (Hs : strlen copy = len).
  { subst copy. rewrite strlen_string; [exact Hlen|apply strlen_firstn]. }
  assert (Hrest : List.length copy = (len + 3)%nat /\
                  firstn (strlen copy) copy = firstn len source).
  { split.
    - subst copy. rewrite length_app, Hlen. reflexivity.
    - rewrite Hs. subst copy. rewrite firstn_app, Hlen, Nat.sub_diag.
      rewrite firstn_all2 by lia. cbn. apply app_nil_r. }
  pose proof (apsw_strdup_result source h) as Hrun.
  fold len in Hrun. fold copy in Hrun.
  split.
  { unfold apsw_strdup, PyMem_Calloc.
    destruct (alloc h) as [[|] h1]; cbn [fst snd]; [discriminate|reflexivity]. }
  split.
  { unfold apsw_strdup, PyMem_Calloc.
    destruct (alloc h) as [[|] h1]; reflexivity. }
  split.
  { intros Hok Hfit. rewrite (Hrun Hok).
    replace (Z.of_nat (S len) >? INT_MAX - 1) with false; [reflexivity|].
    symmetry. rewrite Z.gtb_ltb. apply Z.ltb_ge. lia. }
  split.
  { intros Hok Hbig. rewrite (Hrun Hok).
    replace (Z.of_nat (S len) >? INT_MAX - 1) with true; [reflexivity|].
    symmetry. rewrite Z.gtb_ltb. apply Z.ltb_lt. lia. }
  split; [exact Hs|exact Hrest].
Qed.

(** "a.db" with other bytes behind its terminator, and the empty
    string. *)
Lemma apsw_strdup_layout_witness :
  fst (apsw_strdup example_source no_faults)
    = Some (Some [x61; x2e; x64; x62; x00; x00; x00]) /\
  fst (apsw_strdup example_source (mk_host [true] [])) = Some None /\
  fst (apsw_strdup [x00] no_faults) = Some (Some [x00; x00; x00]).
Proof.
  destruct (apsw_strdup_layout example_source no_faults) as (_ & _ & H1 & _).
  destruct (apsw_strdup_layout example_source (mk_host [true] [])) as (H2 & _).
  destruct (apsw_strdup_layout [x00] no_faults) as (_ & _ & H3 & _).
  split; [apply H1; [reflexivity|cbn; unfold INT_MAX; lia]|].
  split; [apply H2; reflexivity|apply H3; [reflexivity|cbn; unfold INT_MAX; lia]].
Defined.

(** A string of [INT_MAX - 1] bytes: its copy is empty. *)
Example copy_of_a_string_too_long :
  fst (apsw_strdup (repeat x01 (Z.to_nat 2147483646) ++ [x00]) no_faults)
  = Some (Some (repeat x00 (Z.to_nat 2147483646 + 3))).
Proof.
  rewrite apsw_strdup_result by reflexivity.
  rewrite strlen_repeat.
  replace (Z.of_nat (S (Z.to_nat 2147483646)) >? INT_MAX - 1) with true;
    [reflexivity|].
  symmetry. rewrite Z.gtb_ltb. apply Z.ltb_lt.
  rewrite Nat2Z.inj_succ, Z2Nat.id by lia. unfold INT_MAX. lia.
Qed.

End StrdupFacts.

(** ** CHECK_CLOSED and CHECK_CURSOR_CLOSED *)

Module ClosedFacts.
Import Bridge Guard Closed.

(** X9: The two macros let the same cursors through: those whose connection
    is there and has a database handle that is not NULL; the thread is
    then left as it was.  Otherwise both return the failure value and
    replace whatever exception was pending, with ConnectionClosed,
    except that a cursor without a connection gets CursorClosed from
    the cursor macro; nothing else of the thread changes. *)
Theorem closed_checks_agree :
  forall (R : Type) (e : R) (self : APSWCursor) (t : thread),
    ((exists c, cursor_connection self = Some c /\ db c <> NULL_db) ->
       CHECK_CURSOR_CLOSED e self t = (Continues, t) /\
       CHECK_CLOSED (cursor_connection self) e t = (Continues, t)) /\
    ((forall c, cursor_connection self = Some c -> db c = NULL_db) ->
       CHECK_CLOSED (cursor_connection self) e t
         = (Returns e, with_err (Some connection_closed) t) /\
       CHECK_CURSOR_CLOSED e self t
         = (Returns e,
            with_err (Some (match cursor_connection self with
                            | None => cursor_closed
                            | Some _ => connection_closed
                            end)) t)).
Proof.
  intros R e self t. unfold CHECK_CURSOR_CLOSED, CHECK_CLOSED, PyErr_Format.
  split.
  - intros (c & Hc & Hdb). rewrite Hc.
    apply Nat.eqb_neq in Hdb. rewrite Hdb. split; reflexivity.
  - intro Hnull. destruct (cursor_connection self) as [c|].
    + rewrite (Hnull c eq_refl). cbn. split; reflexivity.
    + split; reflexivity.
Qed.

Lemma closed_checks_agree_witness :
  CHECK_CURSOR_CLOSED tt open_cursor thread_with_pending
    = (Continues, thread_with_pending) /\
  err (snd (CHECK_CURSOR_CLOSED tt closed_cursor thread_with_pending))
    = Some cursor_closed /\
  err (snd (CHECK_CLOSED (cursor_connection closed_cursor) tt thread_with_pending))
    = Some connection_closed.
Proof.
  destruct (closed_checks_agree unit tt open_cursor thread_with_pending)
    as [Hopen _].
  destruct (closed_checks_agree unit tt closed_cursor thread_with_pending)
    as [_ Hclosed].
  destruct Hopen as [H1 _];
    [exists free_connection; split; [reflexivity|discriminate]|].
  destruct Hclosed as [H2 H3]; [intros c Hc; discriminate|].
  split; [exact H1|]. rewrite H2, H3. split; reflexivity.
Defined.

End ClosedFacts.

(** ** Checked calls one after another *)

Module SequencesFacts.
Import Bridge Sequences BridgeFacts.

Lemma call_E_log (db : sqlite3) (x : checked_op) (t : thread) :
  log (snd (_PYSQLITE_CALL_E db x t))
  = log t ++ new_entries t (snd (_PYSQLITE_CALL_E db x t)).
Proof.
  rewrite call_E_entries.
  unfold _PYSQLITE_CALL_E, run_checked. cbn.
  destruct (x (sqlite t)) as [res e']. cbn [fst snd].
  destruct (res_is_error res); cbn; repeat rewrite <- app_assoc; reflexivity.
Qed.

(** X10: After any number of checked calls on a connection the results are
    those of the operations run on the engine one after another, and
    the captured text is that of the last call that failed: a call
    that succeeds leaves the text of an earlier failure in place. *)
Theorem captured_text_is_last_failure :
  forall (db : sqlite3) (ops : list checked_op) (t : thread),
    fst (checked_calls db ops t) = map fst (outcomes db ops (sqlite t)) /\
    tls_errmsg (snd (checked_calls db ops t))
      = last_failure (tls_errmsg t) (outcomes db ops (sqlite t)) /\
    err (snd (checked_calls db ops t)) = err t.
Proof.
  intros db ops. induction ops as [|x rest IH]; intro t.
  - repeat split.
  - cbn [checked_calls outcomes map].
    pose proof (call_E_res db x t) as Hres.
    pose proof (call_E_final db x t) as (_ & _ & Herr & Hsql & Htls).
    destruct (_PYSQLITE_CALL_E db x t) as [res t1]. cbn [fst snd] in *.
    destruct (IH t1) as (H1 & H2 & H3).
    destruct (checked_calls db rest t1) as [results t2]. cbn [fst snd] in *.
    rewrite H1, H2, H3, Hsql, Htls, Hres, Herr.
    unfold last_failure. cbn [fold_left fst snd]. repeat split.
Qed.

(** A failing step followed by one that yields a row: the text of the
    failure is still the captured one. *)
Example failure_text_survives_success :
  tls_errmsg (snd (checked_calls 7%nat
                     [failing_step 7%nat 1 "no such table: t"; row_step] idle_thread))
  = Some "no such table: t".
Proof. reflexivity. Qed.

Lemma checked_calls_log (db : sqlite3) (ops : list checked_op) :
  forall t,
    gil (held t) = true ->
    gil (held (snd (checked_calls db ops t))) = true /\
    (forall d, db_mutex (held (snd (checked_calls db ops t))) d
               = db_mutex (held t) d) /\
    exists evs,
      log (snd (checked_calls db ops t)) = log t ++ evs /\
      forall e l, In (e, l) evs ->
        (e = Py_BEGIN_ALLOW_THREADS ->
           gil l = true /\ forall d, db_mutex l d = db_mutex (held t) d) /\
        (e <> Py_BEGIN_ALLOW_THREADS -> gil l = false) /\
        (forall d, holds_both (held t) d l = false).
Proof.
  induction ops as [|x rest IH]; intros t Hgil.
  - cbn. split; [exact Hgil|]. split; [reflexivity|].
    exists []. rewrite app_nil_r. split; [reflexivity|]. intros e l [].
  - cbn [checked_calls].
    pose proof (call_E_final db x t) as (Hg1 & Hm1 & _).
    pose proof (call_E_log db x t) as Hlog1.
    pose proof (call_E_entries db x t) as Hent.
    destruct (_PYSQLITE_CALL_E db x t) as [res t1]. cbn [fst snd] in *.
    destruct (IH t1 Hg1) as (Hg2 & Hm2 & evs & Hlog2 & Hall).
    destruct (checked_calls db rest t1) as [results t2]. cbn [fst snd] in *.
    split; [exact Hg2|]. split; [intro d; rewrite Hm2; apply Hm1|].
    exists (new_entries t t1 ++ evs). split.
    { rewrite Hlog2, Hlog1, app_assoc. reflexivity. }
    assert (Hnot : forall d, holds_both (held t) d (held t) = false).
    { intro d. unfold holds_both. rewrite Nat.ltb_irrefl. apply andb_false_r. }
    intros e l Hin. apply in_app_iff in Hin as [Hin|Hin].
    + rewrite Hent in Hin.
      destruct (res_is_error (fst (x (sqlite t)))); cbn in Hin;
        repeat (destruct Hin as [Hin|Hin];
                [inversion Hin; subst; clear Hin;
                 repeat split; auto; try discriminate; congruence|]);
        destruct Hin.
    + destruct (Hall e l Hin) as (Hb & Hnb & Hboth).
      split; [|split; [exact Hnb|]].
      * intro He. destruct (Hb He) as [Hgl Hml]. split; [exact Hgl|].
        intro d. rewrite Hml. apply Hm1.
      * intro d. specialize (Hboth d). unfold holds_both in *.
        rewrite <- (Hm1 d). exact Hboth.
Qed.

(** X11: Checked calls compose: started with the GIL held, every call of a
    sequence begins with the GIL held and every mutex at the level of
    the start, everything between its two macros runs with the GIL
    released, the thread never holds the GIL together with a mutex it
    entered, and at the end the GIL is held and every mutex is back at
    its level. *)
Theorem checked_calls_keep_lock_discipline :
  forall (db : sqlite3) (ops : list checked_op) (t : thread),
    gil (held t) = true ->
    let t' := snd (checked_calls db ops t) in
    gil (held t') = true /\
    (forall d, db_mutex (held t') d = db_mutex (held t) d) /\
    (forall e l, In (e, l) (new_entries t t') ->
       (e = Py_BEGIN_ALLOW_THREADS ->
          gil l = true /\ forall d, db_mutex l d = db_mutex (held t) d) /\
       (e <> Py_BEGIN_ALLOW_THREADS -> gil l = false) /\
       (forall d, holds_both (held t) d l = false)).
Proof.
  intros db ops t Hgil t'. subst t'.
  destruct (checked_calls_log db ops t Hgil) as (Hg & Hm & evs & Hlog & Hall).
  split; [exact Hg|]. split; [exact Hm|].
  unfold new_entries. rewrite Hlog, skipn_log. exact Hall.
Qed.

Lemma checked_calls_keep_lock_discipline_witness :
  gil (held (snd (checked_calls 7%nat
                    [failing_step 7%nat 1 "no such table: t"; row_step]
                    idle_thread))) = true /\
  (forall d, db_mutex (held (snd (checked_calls 7%nat
                    [failing_step 7%nat 1 "no such table: t"; row_step]
                    idle_thread))) d = O).
Proof.
  destruct (checked_calls_keep_lock_discipline 7%nat
              [failing_step 7%nat 1 "no such table: t"; row_step] idle_thread)
    as (H1 & H2 & _); [reflexivity|].
  split; [exact H1|exact H2].
Defined.

End SequencesFacts.

(** ** More on the in-use guard *)

Module GuardMoreFacts.
Import Bridge Guard GuardFacts.

(** X12: A method that finds its object free and, from inside its guarded
    block, is called again on the same object: the inner call is turned
    away by CHECK_USE (raising ThreadingViolation unless an exception
    is pending already), the block is left with the flag still at 1, so
    the outer INUSE_CALL passes its second assertion and clears the
    flag, and a call made afterwards is let through. *)
Theorem call_from_inside_block_is_rejected :
  forall (T : Type) (I : InUse T) (self : T) (t : thread),
    inuse self = 0 ->
    exists self' t',
      INUSE_CALL second_call self t = Some (Returns tt, self', t') /\
      self' = set_inuse 0 (set_inuse 1 self) /\
      t' = match err t with
           | None => with_err (Some threading_violation) t
           | Some _ => t
           end /\
      inuse self' = 0 /\
      fst (CHECK_USE tt self' t') = @Continues unit.
Proof.
  intros T I self t H0.
  assert (H1 : inuse (set_inuse 1 self) <> 0)
    by (rewrite inuse_set_inuse; discriminate).
  assert (Hsc : second_call (set_inuse 1 self) t
                = (Returns tt, set_inuse 1 self,
                   match err t with
                   | None => with_err (Some threading_violation) t
                   | Some _ => t
                   end)).
  { unfold second_call. rewrite (CHECK_USE_busy tt (set_inuse 1 self) t H1).
    reflexivity. }
  pose proof (INUSE_CALL_runs second_call self t H0) as Hrun.
  rewrite Hsc in Hrun. cbn [fst snd] in Hrun. rewrite inuse_set_inuse in Hrun.
  specialize (Hrun eq_refl).
  eexists _, _. split; [exact Hrun|].
  split; [reflexivity|]. split; [reflexivity|].
  split; [apply inuse_set_inuse|].
  rewrite CHECK_USE_free by apply inuse_set_inuse. reflexivity.
Qed.

Lemma call_from_inside_block_is_rejected_witness :
  exists self' t',
    INUSE_CALL second_call free_connection idle_thread
      = Some (Returns tt, self', t') /\
    self' = set_inuse 0 (set_inuse 1 free_connection) /\
    t' = with_err (Some threading_violation) idle_thread /\
    inuse self' = 0 /\
    fst (CHECK_USE tt self' t') = @Continues unit.
Proof.
  apply (call_from_inside_block_is_rejected Connection _ free_connection idle_thread).
  reflexivity.
Defined.

End GuardMoreFacts.

(** ** More on the tracking of calls *)

Module CallTrackMoreFacts.
Import CallTrack CallTrackFacts.

(** X13: A callback whose scope ends without CALL_LEAVE leaves the slot
    as CALL_ENTER set it: it holds the address of the sentinel, which
    is gone with the scope, so that no sentinel alive is at that
    address; the value saved on entry is not put back, and CALL_CHECK
    goes on answering that the call is in progress, also when none was
    before.  The slot of the other name and the scopes alive are as
    before the callback.  (What a later CALL_ENTER on that name reads
    through the slot is not defined by C.) *)
Theorem exit_without_leave_leaves_slot_dangling :
  forall (name : call_name) (st st1 : state),
    CALL_ENTER name st = Some st1 ->
    CALL_CHECK name (scope_exit st1) = true /\
    in_call (scope_exit st1) name = Some (List.length (stack st)) /\
    stack (scope_exit st1) = stack st /\
    nth_error (stack (scope_exit st1)) (List.length (stack st)) = None /\
    (forall other, other <> name ->
       in_call (scope_exit st1) other = in_call st other) /\
    (in_call st name = None ->
       CALL_CHECK name st = false /\
       in_call (scope_exit st1) name <> in_call st name).
Proof.
  intros name st st1 He. unfold CALL_ENTER in He.
  destruct (enter_assertion name st); [|discriminate].
  inversion He; subst; clear He.
  assert (Hstack : stack (scope_exit
            (set_in_call name (Some (List.length (stack st)))
               (declare (mk_locals name (in_call st name) (MAGIC name)) st)))
          = stack st).
  { unfold scope_exit. cbn [stack]. rewrite stack_set_in_call. cbn [declare stack].
    apply removelast_last. }
  assert (Hslot : in_call (scope_exit
            (set_in_call name (Some (List.length (stack st)))
               (declare (mk_locals name (in_call st name) (MAGIC name)) st))) name
          = Some (List.length (stack st))).
  { destruct name; reflexivity. }
  split; [unfold CALL_CHECK; rewrite Hslot; reflexivity|].
  split; [exact Hslot|]. split; [exact Hstack|].
  split; [rewrite Hstack; apply nth_error_None; lia|].
  split.
  { intros other Hother. destruct name, other; try reflexivity; congruence. }
  intro Hnull. split.
  { unfold CALL_CHECK. rewrite Hnull. reflexivity. }
  rewrite Hslot, Hnull. discriminate.
Qed.

Lemma exit_without_leave_leaves_slot_dangling_witness :
  exists st1,
    CALL_ENTER xConnect fresh_object = Some st1 /\
    CALL_CHECK xConnect fresh_object = false /\
    CALL_CHECK xConnect (scope_exit st1) = true /\
    in_call (scope_exit st1) xConnect = Some O /\
    nth_error (stack (scope_exit st1)) O = None /\
    in_call (scope_exit st1) xUpdate = None.
Proof.
  eexists. split; [reflexivity|].
  destruct (exit_without_leave_leaves_slot_dangling xConnect fresh_object _ eq_refl)
    as (H1 & H2 & _ & H4 & H5 & H6).
  destruct (H6 eq_refl) as [H7 _].
  split; [exact H7|]. split; [exact H1|]. split; [exact H2|].
  split; [exact H4|]. apply H5. discriminate.
Defined.

End CallTrackMoreFacts.

(** ** More on reporting exceptions that cannot be raised *)

Module UnraisableMoreFacts.
Import Unraisable UnraisableMore UnraisableFacts.

Lemma tell_sqlite3_log_state (sys : sys_module) (e : raised) (st : interp) :
  recursion_depth (snd (tell_sqlite3_log e st)) = recursion_depth st /\
  recursion_limit (snd (tell_sqlite3_log e st)) = recursion_limit st /\
  faults (snd (tell_sqlite3_log e st)) = faults st /\
  Forall (carries sys e) (fst (tell_sqlite3_log e st)).
Proof.
  unfold tell_sqlite3_log. destruct (err_value e) as [v|] eqn:Hv; cbn.
  - repeat split. constructor; [|constructor]. cbn. exists v. auto.
  - repeat split. constructor.
Qed.

Lemma try_hookobject_state (sys : sys_module) (ho : option hookobj) (e : raised)
    (st : interp) :
  Forall (carries sys e) (snd (fst (try_hookobject ho e st))) /\
  (balanced_opt (hook_of ho) ->
   recursion_depth (snd (try_hookobject ho e st)) = recursion_depth st /\
   recursion_limit (snd (try_hookobject ho e st)) = recursion_limit st).
Proof.
  unfold try_hookobject, PyObject_CallFunction.
  destruct ho as [[[hook|]]|]; cbn [hook_of excepthook_attr balanced_opt];
    try (split; [constructor|intros _; split; reflexivity]).
  split.
  - destruct (hook _ (PyErr_Clear st)) as [[ok inner] st']. cbn.
    constructor; [reflexivity|constructor].
  - intro Hb. specialize (Hb (Args_OOO (err_type e) (err_value e) (err_traceback e))
                            (PyErr_Clear st)).
    destruct (hook _ (PyErr_Clear st)) as [[ok inner] st']. exact Hb.
Qed.

Lemma try_unraisablehook_state (sys : sys_module) (e : raised) (st : interp) :
  Forall (carries sys e) (snd (fst (try_unraisablehook sys e st))) /\
  (balanced_opt (unraisablehook sys) ->
   recursion_depth (snd (try_unraisablehook sys e st)) = recursion_depth st /\
   recursion_limit (snd (try_unraisablehook sys e st)) = recursion_limit st).
Proof.
  unfold try_unraisablehook, PyObject_CallFunction, PyStructSequence_New, PyErr_Clear.
  destruct (unraisablehook sys) as [hook|]; cbn [balanced_opt faults with_err];
    [|split; [constructor|intros _; split; reflexivity]].
  destruct (faults st) as [|[|] fs];
    try (split; [constructor|intros _; split; reflexivity]).
  - split.
    + match goal with |- context [hook ?a ?s] =>
        destruct (hook a s) as [[ok inner] st'] end.
      cbn. constructor; [reflexivity|constructor].
    + intro Hb.
      match goal with |- context [hook ?a ?s] =>
        specialize (Hb a s); destruct (hook a s) as [[ok inner] st'] end.
      exact Hb.
  - split.
    + match goal with |- context [hook ?a ?s] =>
        destruct (hook a s) as [[ok inner] st'] end.
      cbn. constructor; [reflexivity|constructor].
    + intro Hb.
      match goal with |- context [hook ?a ?s] =>
        specialize (Hb a s); destruct (hook a s) as [[ok inner] st'] end.
      exact Hb.
Qed.

Lemma try_excepthook_state (sys : sys_module) (e : raised) (st : interp) :
  Forall (carries sys e) (snd (fst (try_excepthook sys e st))) /\
  (balanced_opt (excepthook sys) ->
   recursion_depth (snd (try_excepthook sys e st)) = recursion_depth st /\
   recursion_limit (snd (try_excepthook sys e st)) = recursion_limit st).
Proof.
  unfold try_excepthook, PyObject_CallFunction.
  destruct (excepthook sys) as [hook|]; cbn [balanced_opt];
    [|split; [constructor|intros _; split; reflexivity]].
  split.
  - destruct (hook _ (PyErr_Clear st)) as [[ok inner] st']. cbn.
    constructor; [reflexivity|constructor].
  - intro Hb. specialize (Hb (Args_OOO (err_type e) (err_value e) (err_traceback e))
                            (PyErr_Clear st)).
    destruct (hook _ (PyErr_Clear st)) as [[ok inner] st']. exact Hb.
Qed.

(** X14: Every path through the function that entered the recursive call
    leaves it again: when the hooks return at the depth they were
    called at, the function returns at the depth, and with the limit,
    it was called with, whichever hook ended the chain and also when
    the limit cut it short. *)
Theorem recursion_depth_is_restored :
  forall (sys : sys_module) (hookobject : option hookobj) (st : interp) (e : raised),
    err st = Some e ->
    balanced_opt (hook_of hookobject) ->
    balanced_opt (unraisablehook sys) ->
    balanced_opt (excepthook sys) ->
    exists steps st',
      apsw_write_unraisable sys hookobject st = Some (steps, st') /\
      recursion_depth st' = recursion_depth st /\
      recursion_limit st' = recursion_limit st.
Proof.
  intros sys hookobject st e He Hb1 Hb2 Hb3.
  unfold apsw_write_unraisable. rewrite He.
  destruct (fill_traceback_pending st e He) as (He' & Hd & Hl & _).
  rewrite He'. unfold Py_EnterRecursiveCall.
  cbn [PyErr_Clear with_err recursion_depth recursion_limit].
  rewrite Hd, Hl.
  destruct (recursion_depth st <? recursion_limit st)%nat; cbn [negb].
  2: { destruct (PyErr_Print_shape sys
                   (with_err (Some recursion_error)
                      (with_err None (fill_traceback st)))
                   recursion_error eq_refl) as (inner & _ & _ & _ & _ & _ & Hbal).
       destruct (Hbal Hb3) as [Hdp Hlp].
       destruct (PyErr_Print sys _) as [tr stp]. cbn [fst snd] in Hdp, Hlp.
       eexists _, _. split; [reflexivity|]. cbn. rewrite Hdp, Hlp. cbn. auto. }
  set (st1 := with_depth _ _).
  assert (Hd1 : recursion_depth st1 = S (recursion_depth st)) by reflexivity.
  assert (Hl1 : recursion_limit st1 = recursion_limit st)
    by (subst st1; cbn; exact Hl).
  destruct (tell_sqlite3_log_state sys (completed e (frames st)) st1) as (Hd2 & Hl2 & _).
  destruct (tell_sqlite3_log (completed e (frames st)) st1) as [tr1 st2].
  cbn [fst snd] in Hd2, Hl2.
  destruct (try_hookobject_state sys hookobject (completed e (frames st)) st2)
    as (_ & H3). destruct (H3 Hb1) as [Hd3 Hl3].
  destruct (try_hookobject hookobject (completed e (frames st)) st2)
    as [[ok2 tr2] st3]. cbn [fst snd] in Hd3, Hl3.
  destruct (try_unraisablehook_state sys (completed e (frames st)) st3)
    as (_ & H4). destruct (H4 Hb2) as [Hd4 Hl4].
  destruct (try_unraisablehook sys (completed e (frames st)) st3)
    as [[ok3 tr3] st4]. cbn [fst snd] in Hd4, Hl4.
  destruct (try_excepthook_state sys (completed e (frames st)) st4)
    as (_ & H5). destruct (H5 Hb3) as [Hd5 Hl5].
  destruct (try_excepthook sys (completed e (frames st)) st4)
    as [[ok4 tr4] st5]. cbn [fst snd] in Hd5, Hl5.
  destruct ok2; [|destruct ok3; [|destruct ok4]];
    (eexists _, _; split; [reflexivity|]); cbn;
    rewrite ?Hd5, ?Hd4, ?Hd3, ?Hd2, ?Hd1, ?Hl5, ?Hl4, ?Hl3, ?Hl2, ?Hl1;
    split; reflexivity.
Qed.

Lemma recursion_depth_is_restored_witness :
  exists steps st',
    apsw_write_unraisable sys_all_raising (Some (mk_hookobj (Some returning_hook)))
      (interp_with (value_error "outer")) = Some (steps, st') /\
    recursion_depth st' = O /\ recursion_limit st' = 1000%nat.
Proof.
  apply (recursion_depth_is_restored sys_all_raising
           (Some (mk_hookobj (Some returning_hook)))
           (interp_with (value_error "outer")) (value_error "outer"));
    [reflexivity| | |]; intros args st; split; reflexivity.
Defined.



(** The three texts sqlite3_log can be given. *)
Example log_arguments :
  map (fun v => fst (tell_sqlite3_log (mk_raised PyExc_ValueError (Some v) [])
                       (mk_interp None 1 1000 [] [])))
      [mk_exc_value "ValueError" (Some (mk_message (Some "bad")));
       mk_exc_value "ValueError" (Some (mk_message None));
       mk_exc_value "ValueError" None]
  = [[Step_sqlite3_log "ValueError" (Some "bad")];
     [Step_sqlite3_log "ValueError" None];
     [Step_sqlite3_log "ValueError" (Some "failed to get string of error")]].
Proof. reflexivity. Qed.

(** X16: When the record for sys.unraisablehook cannot be allocated, and no
    hook of [hookobject] ran before, that hook is not called: the
    MemoryError is cleared and sys.excepthook is called with nothing
    pending, or, where there is none, the exception is displayed. *)
Theorem unraisablehook_skipped_without_its_record :
  forall (sys : sys_module) (hookobject : option hookobj) (st : interp) (e : raised)
         (hook : callable) (fs : list bool),
    err st = Some e ->
    (recursion_depth st < recursion_limit st)%nat ->
    hook_of hookobject = None ->
    unraisablehook sys = Some hook ->
    faults st = true :: fs ->
    exists steps st',
      apsw_write_unraisable sys hookobject st = Some (steps, st') /\
      existsb (calls sys_unraisablehook) steps = false /\
      match excepthook sys with
      | Some _ =>
        exists made_in args inner ok,
          In (Step_call sys_excepthook made_in args inner ok) steps /\
          err made_in = None /\ faults made_in = fs
      | None =>
        exists made_in,
          In (Step_PyErr_Display made_in (completed e (frames st))) steps /\
          err made_in = None
      end.
Proof.
  intros sys hookobject st e hook fs He Hlim Hho Hun Hf.
  unfold apsw_write_unraisable. rewrite He.
  destruct (fill_traceback_pending st e He) as (He' & Hd & Hl & Hfa & _).
  rewrite He'. unfold Py_EnterRecursiveCall.
  cbn [PyErr_Clear with_err recursion_depth recursion_limit].
  rewrite Hd, Hl.
  replace (recursion_depth st <? recursion_limit st)%nat with true
    by (symmetry; apply Nat.ltb_lt; exact Hlim).
  cbn [negb].
  set (st1 := with_depth _ _).
  assert (Hf1 : faults st1 = true :: fs) by (subst st1; cbn; congruence).
  destruct (tell_sqlite3_log_state sys (completed e (frames st)) st1)
    as (_ & _ & Hf2 & _).
  assert (Htr1 : existsb (calls sys_unraisablehook)
                   (fst (tell_sqlite3_log (completed e (frames st)) st1)) = false).
  { unfold tell_sqlite3_log. destruct (err_value _); reflexivity. }
  destruct (tell_sqlite3_log (completed e (frames st)) st1) as [tr1 st2].
  cbn [fst snd] in Hf2, Htr1. rewrite Hf1 in Hf2.
  assert (Hblock : exists st3,
             try_hookobject hookobject (completed e (frames st)) st2 = (false, [], st3)
             /\ faults st3 = true :: fs).
  { unfold try_hookobject. destruct hookobject as [[[h0|]]|]; cbn in Hho;
      try discriminate; eexists; (split; [reflexivity|]); cbn; exact Hf2. }
  destruct Hblock as (st3 & -> & Hf3).
  unfold try_unraisablehook, PyStructSequence_New. rewrite Hun.
  cbn [PyErr_Clear with_err faults]. rewrite Hf3.
  unfold try_excepthook, PyObject_CallFunction.
  destruct (excepthook sys) as [h2|].
  - cbn [PyErr_Clear with_err err recursion_depth recursion_limit frames faults].
    match goal with |- context [h2 ?a ?s] =>
      destruct (h2 a s) as [[ok inner] st'] eqn:Hcall end.
    destruct ok.
    + eexists _, _. split; [reflexivity|]. split.
      { rewrite !existsb_app, Htr1. reflexivity. }
      do 4 eexists. split.
      { rewrite !in_app_iff. do 4 right. left. reflexivity. }
      split; reflexivity.
    + unfold PyErr_Display. eexists _, _. split; [reflexivity|]. split.
      { rewrite !existsb_app, Htr1. reflexivity. }
      do 4 eexists. split.
      { rewrite !in_app_iff. do 4 right. left. left. reflexivity. }
      split; reflexivity.
  - unfold PyErr_Display. eexists _, _. split; [reflexivity|]. split.
    { rewrite !existsb_app, Htr1. reflexivity. }
    eexists. split.
    { rewrite !in_app_iff. do 5 right. left. reflexivity. }
    reflexivity.
Qed.

Lemma unraisablehook_skipped_without_its_record_witness :
  exists steps st',
    apsw_write_unraisable sys_all_raising None
      (interp_failing_alloc (value_error "outer")) = Some (steps, st') /\
    existsb (calls sys_unraisablehook) steps = false /\
    exists made_in args inner ok,
      In (Step_call sys_excepthook made_in args inner ok) steps /\
      err made_in = None /\ faults made_in = [].
Proof.
  apply (unraisablehook_skipped_without_its_record sys_all_raising None
           (interp_failing_alloc (value_error "outer")) (value_error "outer")
           (raising_hook (value_error "unraisablehook broke")) []).
  - reflexivity.
  - cbn. lia.
  - reflexivity.
  - reflexivity.
  - reflexivity.
Defined.

End UnraisableMoreFacts.
